(** * Blendshape Mirrorer: a shallow embedding of [core.py] and of
      [MirrorBlendShapeTool.build] from [view.py].

    The tool is a sequence of calls into the host application (maya.cmds,
    maya.api.OpenMaya), glued together with Python string processing.  The
    string processing is embedded as total functions on [string]; every call
    into the host, the logger, the console, the file system or a dialog is a
    node of a finite interaction tree ([Prog]), whose continuation receives the
    host's reply.  A run against a host (a state-transforming oracle) yields
    the trace of calls with their replies, the outcome (a value or a raised
    exception) and the final host state. *)

From Stdlib Require Import String Ascii List ZArith QArith Bool Lia.
From Stdlib Require Import DecimalString.
Import ListNotations.

Local Open Scope string_scope.
Local Open Scope Z_scope.

(* ================================================================== *)
(** ** Python string primitives used by the source *)

(** A Python [str] is held as the sequence of its code points, one [ascii]
    for each: the strings of this development are the Python strings whose
    code points lie below 256 (ASCII and the Latin-1 supplement).  On these
    the primitives below follow Python code point by code point; a string
    with a code point from 256 on has no counterpart here. *)

Module PyStr.

(** [s.startswith(p)] *)
Fixpoint starts_with (p s : string) : bool :=
  match p with
  | EmptyString => true
  | String a p' =>
      match s with
      | EmptyString => false
      | String b s' => Ascii.eqb a b && starts_with p' s'
      end
  end.

(** [sub in s] *)
Fixpoint py_in (sub s : string) : bool :=
  starts_with sub s ||
  match s with
  | EmptyString => false
  | String _ s' => py_in sub s'
  end.

(** [s.replace(old, new)]: every occurrence of [old], scanning from the left
    and never overlapping, is replaced by [new].  [skip] counts the characters
    of a matched occurrence that are still to be dropped. *)
Fixpoint replace_go (old new : string) (skip : nat) (s : string) : string :=
  match s with
  | EmptyString =>
      match old with EmptyString => new | _ => EmptyString end
  | String c s' =>
      match skip with
      | S n => replace_go old new n s'
      | O =>
          if starts_with old s then
            match old with
            | EmptyString => new ++ String c (replace_go old new 0 s')
            | String _ o' => new ++ replace_go old new (String.length o') s'
            end
          else String c (replace_go old new 0 s')
      end
  end.

Definition py_replace (old new s : string) : string := replace_go old new 0 s.

(** [s.split(sep)] for a non-empty separator (Python raises ValueError on an
    empty one; every separator in the source is a one-character literal). *)
Fixpoint split_go (sep : string) (skip : nat) (s : string) : list string :=
  match s with
  | EmptyString => [EmptyString]
  | String c s' =>
      match skip with
      | S n => split_go sep n s'
      | O =>
          if starts_with sep s then
            EmptyString :: split_go sep (Nat.pred (String.length sep)) s'
          else
            match split_go sep 0 s' with
            | h :: t => String c h :: t
            | [] => [String c EmptyString]
            end
      end
  end.

Definition py_split (sep s : string) : list string := split_go sep 0 s.

(** [l[0]] and [l[-1]] on the (never empty) result of [split]. *)
Definition first (l : list string) : string := hd EmptyString l.
Definition last (l : list string) : string := List.last l EmptyString.

(** Characters that [int] skips around the numeral.  Below code point 256
    these are U+0009 to U+000D, the space, U+0085 and U+00A0; the
    separators U+001C to U+001F, white space for [str.isspace], are not
    among them. *)
Definition is_space (c : ascii) : bool :=
  let n := nat_of_ascii c in
  ((9 <=? n) && (n <=? 13) || (n =? 32) || (n =? 133) || (n =? 160))%nat.

(** The decimal digits that [int] reads: below code point 256 these are
    "0" to "9" alone (the superscripts U+00B2, U+00B3 and U+00B9 are no
    decimal digits). *)
Definition is_digit (c : ascii) : bool :=
  let n := nat_of_ascii c in ((48 <=? n) && (n <=? 57))%nat.


Definition digit_val (c : ascii) : Z := Z.of_nat (nat_of_ascii c) - 48.

Fixpoint lstrip (s : string) : string :=
  match s with
  | EmptyString => EmptyString
  | String c s' => if is_space c then lstrip s' else s
  end.

Fixpoint rstrip (s : string) : string :=
  match s with
  | EmptyString => EmptyString
  | String c s' =>
      match rstrip s' with
      | EmptyString => if is_space c then EmptyString else String c EmptyString
      | r => String c r
      end
  end.

(** Digits with single underscores between them. *)
Fixpoint digits_go (acc : Z) (after_digit : bool) (s : string) : option Z :=
  match s with
  | EmptyString => if after_digit then Some acc else None
  | String c s' =>
      if is_digit c then digits_go (10 * acc + digit_val c) true s'
      else if Ascii.eqb c "_" then
             (if after_digit then digits_go acc false s' else None)
      else None
  end.

(** [int(s)] in base ten; [None] stands for ValueError.  The interpreter's
    limit on the length of a numeral (4300 digits by default) is not part of
    this definition. *)
Definition py_int (s : string) : option Z :=
  match rstrip (lstrip s) with
  | String "-" d => option_map Z.opp (digits_go 0 false d)
  | String "+" d => digits_go 0 false d
  | d => digits_go 0 false d
  end.

(** [str(n)] for an integer. *)
Definition py_str_int (n : Z) : string := NilZero.string_of_int (Z.to_int n).

(** ["{}.vtx[{}]".format(mesh, n)] *)
Definition format_vtx (mesh : string) (n : Z) : string :=
  mesh ++ ".vtx[" ++ py_str_int n ++ "]".

(** ["{}.s{}".format(name, axis)] *)
Definition format_scale (name axis : string) : string := name ++ ".s" ++ axis.

(** ["{}/{}".format(dir, name)] *)
Definition format_path (dir name : string) : string := dir ++ "/" ++ name.

End PyStr.

Import PyStr.

(* ================================================================== *)
(** ** Python values, exceptions and the calls that leave the program *)

#[local] Set Warnings "-register-all".

(** The values exchanged with the host.  [VObj] is an opaque API object
    (an MSelectionList, an MObject, an MItMeshVertex). *)
Inductive PyVal : Type :=
| VNone
| VBool (b : bool)
| VInt (n : Z)
| VFloat (x : Q)
| VStr (s : string)
| VList (l : list PyVal)
| VObj (handle : nat).

Inductive Exn : Type :=
| TypeError
| IndexError
| ValueError
| AttributeError
| UnboundLocalError (variable : string)
| RuntimeError (message : string).

(** A call that leaves the program: a maya.cmds command with its positional
    and keyword arguments, a maya.api.OpenMaya constructor or method with its
    receiver and arguments, the logger, the console, the file system and the
    directory dialog of the GUI toolkit. *)
Inductive Call : Type :=
| Cmds (command : string) (args : list PyVal) (flags : list (string * PyVal))
| Om2 (method : string) (args : list PyVal)
| LogError (message : string)
| Print (text : string)
| OsPathIsdir (path : string)
| GetExistingDirectory (caption : string).

(** What comes back from a call: an exception or a value. *)
Definition Reply : Type := (Exn + PyVal)%type.

(** Pure Python steps that may raise. *)
Definition Res (A : Type) : Type := (Exn + A)%type.

Definition res_bind {A B} (r : Res A) (f : A -> Res B) : Res B :=
  match r with
  | inl e => inl e
  | inr a => f a
  end.

(** [l[i]] on a Python list held as a Rocq list, for [i >= 0]. *)
Definition index {A} (l : list A) (i : nat) : Res A :=
  match nth_error l i with
  | Some a => inr a
  | None => inl IndexError
  end.

(** [v[i]] for [i >= 0]: lists and strings are subscriptable. *)
Definition py_getitem (v : PyVal) (i : nat) : Res PyVal :=
  match v with
  | VList l => index l i
  | VStr s =>
      match String.get i s with
      | Some c => inr (VStr (String c EmptyString))
      | None => inl IndexError
      end
  | _ => inl TypeError
  end.

(** [for each in v]: the elements the loop visits. *)
Definition py_iter (v : PyVal) : Res (list PyVal) :=
  match v with
  | VList l => inr l
  | VStr s => inr (map (fun c => VStr (String c EmptyString)) (list_ascii_of_string s))
  | _ => inl TypeError
  end.

(** [v == "literal"] *)
Definition py_eq_str (v : PyVal) (s : string) : bool :=
  match v with
  | VStr t => String.eqb t s
  | _ => false
  end.

(** [v == False] *)
Definition py_eq_False (v : PyVal) : bool :=
  match v with
  | VBool b => negb b
  | VInt n => n =? 0
  | VFloat x => Qeq_bool x 0
  | _ => false
  end.

(** Truth value of [v], as tested by [if v:]. *)
Definition py_truthy (v : PyVal) : bool :=
  match v with
  | VNone => false
  | VBool b => b
  | VInt n => negb (n =? 0)
  | VFloat x => negb (Qeq_bool x 0)
  | VStr EmptyString => false
  | VStr _ => true
  | VList [] => false
  | VList _ => true
  | VObj _ => true
  end.

(** The receiver of a string method: anything but a string has no such
    attribute. *)
Definition as_str (v : PyVal) : Res string :=
  match v with
  | VStr s => inr s
  | _ => inl AttributeError
  end.

(** An MIntArray seen from Python: a sequence of ints. *)
Fixpoint as_int_array (l : list PyVal) : Res (list Z) :=
  match l with
  | [] => inr []
  | VInt n :: rest => res_bind (as_int_array rest) (fun ns => inr (n :: ns))
  | _ => inl TypeError
  end.

(** A coordinate: a Python float (the finite ones are rationals) or int. *)
Definition as_number (v : PyVal) : Res Q :=
  match v with
  | VFloat x => inr x
  | VInt n => inr (inject_Z n)
  | _ => inl TypeError
  end.

(** [a < b] on coordinates, as a boolean. *)
Definition Qltb (a b : Q) : bool :=
  (Qnum a * Zpos (Qden b) <? Qnum b * Zpos (Qden a))%Z.

(* ================================================================== *)
(** ** Programs: finite trees of calls *)

Inductive Prog (A : Type) : Type :=
| Ret (a : A)
| Raise (e : Exn)
| Vis (c : Call) (k : PyVal -> Prog A).

Arguments Ret {A} a.
Arguments Raise {A} e.
Arguments Vis {A} c k.

Fixpoint bind {A B} (p : Prog A) (f : A -> Prog B) : Prog B :=
  match p with
  | Ret a => f a
  | Raise e => Raise e
  | Vis c k => Vis c (fun v => bind (k v) f)
  end.

Definition call (c : Call) : Prog PyVal := Vis c Ret.

Definition lift {A} (r : Res A) : Prog A :=
  match r with
  | inl e => Raise e
  | inr a => Ret a
  end.

Declare Scope prog_scope.
Delimit Scope prog_scope with prog.
Notation "x <- p ;; q" := (bind p (fun x => q))
  (at level 61, p at next level, right associativity) : prog_scope.
Notation "p ;; q" := (bind p (fun _ => q))
  (at level 61, right associativity) : prog_scope.
Local Open Scope prog_scope.

(** *** Running a program against a host *)

(** A host answers a call in a state and moves to a new state. *)
Definition Host (S : Type) : Type := Call -> S -> Reply * S.

(** One step of a run: the state the call was issued in, the call, the
    reply. *)
Record Event (S : Type) : Type := mkEvent {
  ev_pre : S;
  ev_call : Call;
  ev_reply : Reply
}.

Arguments mkEvent {S} _ _ _.
Arguments ev_pre {S} _.
Arguments ev_call {S} _.
Arguments ev_reply {S} _.

Inductive Outcome (A : Type) : Type :=
| Returned (a : A)
| Raised (e : Exn).

Arguments Returned {A} a.
Arguments Raised {A} e.

Record Run (S A : Type) : Type := mkRun {
  trace : list (Event S);
  outcome : Outcome A;
  final : S
}.

Arguments mkRun {S A} _ _ _.
Arguments trace {S A} _.
Arguments outcome {S A} _.
Arguments final {S A} _.

Fixpoint run {S A} (h : Host S) (p : Prog A) (s : S) : Run S A :=
  match p with
  | Ret a => mkRun [] (Returned a) s
  | Raise e => mkRun [] (Raised e) s
  | Vis c k =>
      match h c s with
      | (inl e, s') => mkRun [mkEvent s c (inl e)] (Raised e) s'
      | (inr v, s') =>
          let r := run h (k v) s' in
          mkRun (mkEvent s c (inr v) :: trace r) (outcome r) (final r)
      end
  end.

(** The calls of a run, and what the host said, in order. *)
Definition calls {S A} (r : Run S A) : list Call := map ev_call (trace r).
Definition replies {S A} (r : Run S A) : list Reply := map ev_reply (trace r).

(** Every call a program can ever issue satisfies [P]. *)
Fixpoint every_call {A} (P : Call -> Prop) (p : Prog A) : Prop :=
  match p with
  | Ret _ => True
  | Raise _ => True
  | Vis c k => P c /\ forall v, every_call P (k v)
  end.

(* ================================================================== *)
(** ** core.py *)

(** [cmds.file(file_path, i=True, force=True, groupReference=False,
    mergeNamespacesOnClash=True, removeDuplicateNetworks=True,
    returnNewNodes=True)] *)
Definition cmds_file_import (file_path : string) : Call :=
  Cmds "file" [VStr file_path]
       [("i", VBool true); ("force", VBool true);
        ("groupReference", VBool false);
        ("mergeNamespacesOnClash", VBool true);
        ("removeDuplicateNetworks", VBool true);
        ("returnNewNodes", VBool true)].

Definition cmds_nodeType (node : PyVal) : Call := Cmds "nodeType" [node] [].

(** The [for each in nodes] loop of [import_src_mesh], with its [break]. *)
Fixpoint import_loop (nodes : list PyVal) (mesh_name : PyVal) : Prog PyVal :=
  match nodes with
  | [] => Ret mesh_name
  | each :: rest =>
      t <- call (cmds_nodeType each) ;;
      if py_eq_str t "transform" then Ret each
      else import_loop rest mesh_name
  end.

Definition import_src_mesh (file_path : string) : Prog PyVal :=
  nodes <- call (cmds_file_import file_path) ;;
  l <- lift (py_iter nodes) ;;
  import_loop l (VStr EmptyString).

Definition cmds_listRelatives_shapes (mesh : string) : Call :=
  Cmds "listRelatives" [VStr mesh] [("shapes", VBool true)].

(** [cmds.xform(full_name, query=True, translation=True, worldSpace=True)] *)
Definition cmds_xform_query (full_name : string) : Call :=
  Cmds "xform" [VStr full_name]
       [("query", VBool true); ("translation", VBool true);
        ("worldSpace", VBool true)].

(** The first loop of [src_verts]: one position query per connected vertex;
    the vertex name is built by [central_vert.replace(str(vert_num),
    str(each))]. *)
Fixpoint query_positions (central_vert : string) (vert_num : Z)
    (vert_ids : list Z) : Prog (list PyVal) :=
  match vert_ids with
  | [] => Ret []
  | each :: rest =>
      let full_name :=
        py_replace (py_str_int vert_num) (py_str_int each) central_vert in
      pos <- call (cmds_xform_query full_name) ;;
      more <- query_positions central_vert vert_num rest ;;
      Ret (pos :: more)
  end.

(** [vert_positions[num][axis]], read as a number. *)
Definition coord (vert_positions : list PyVal) (num axis : nat) : Res Q :=
  res_bind (index vert_positions num) (fun pos =>
  res_bind (py_getitem pos axis) as_number).

(** The variables of the second loop of [src_verts]. *)
Record Pick : Type := mkPick {
  up_check : Q;
  up_vert : Z;
  side_check_hi : Q;
  side_check_lo : Q;
  side_vert_src : Z;
  side_vert_dest : Z
}.

(** The values the variables have before the loop. *)
Definition pick_init (vert_ids : list Z) (vert_positions : list PyVal)
  : Res Pick :=
  res_bind (coord vert_positions 0 1) (fun y0 =>
  res_bind (index vert_ids 0) (fun v0 =>
  res_bind (coord vert_positions 0 0) (fun x0 =>
  inr (mkPick y0 v0 x0 x0 0 0)))).

(** One iteration of [for num in range(len(vert_ids))]. *)
Definition pick_step (vert_ids : list Z) (vert_positions : list PyVal)
    (st : Pick) (num : nat) : Res Pick :=
  res_bind (coord vert_positions num 1) (fun y =>
  res_bind (if Qltb (up_check st) y
            then res_bind (index vert_ids num) (fun v =>
                   inr (mkPick y v (side_check_hi st) (side_check_lo st)
                               (side_vert_src st) (side_vert_dest st)))
            else inr st) (fun st1 =>
  res_bind (coord vert_positions num 0) (fun x =>
  if Qltb (side_check_hi st1) x
  then res_bind (index vert_ids num) (fun v =>
         inr (mkPick (up_check st1) (up_vert st1) x (side_check_lo st1)
                     v (side_vert_dest st1)))
  else if Qltb x (side_check_lo st1)
  then res_bind (index vert_ids num) (fun v =>
         inr (mkPick (up_check st1) (up_vert st1) (side_check_hi st1) x
                     (side_vert_src st1) v))
  else inr st1))).

Fixpoint pick_loop (vert_ids : list Z) (vert_positions : list PyVal)
    (nums : list nat) (st : Pick) : Res Pick :=
  match nums with
  | [] => inr st
  | num :: rest =>
      res_bind (pick_step vert_ids vert_positions st num)
               (pick_loop vert_ids vert_positions rest)
  end.

Definition pick (vert_ids : list Z) (vert_positions : list PyVal) : Res Pick :=
  res_bind (pick_init vert_ids vert_positions)
           (pick_loop vert_ids vert_positions (seq 0 (List.length vert_ids))).

(** [int(central_vert.split(".")[-1].split("[")[-1].split("]")[0])] *)
Definition parse_vert_num (central_vert : string) : Res Z :=
  let vert_num := last (py_split "." central_vert) in
  let vert_num := last (py_split "[" vert_num) in
  match py_int (first (py_split "]" vert_num)) with
  | Some n => inr n
  | None => inl ValueError
  end.

Definition src_verts (central_vert mirror_axis : string)
  : Prog (list (list Z)) :=
  let mesh := first (py_split "." central_vert) in
  shapes <- call (cmds_listRelatives_shapes mesh) ;;
  shape <- lift (py_getitem shapes 0) ;;
  vert_num <- lift (parse_vert_num central_vert) ;;
  sel <- call (Om2 "MSelectionList" []) ;;
  call (Om2 "MSelectionList.add" [sel; shape]) ;;
  mob <- call (Om2 "MSelectionList.getDependNode" [sel; VInt 0]) ;;
  mesh_verts <- call (Om2 "MItMeshVertex" [mob]) ;;
  call (Om2 "MItMeshVertex.setIndex" [mesh_verts; VInt vert_num]) ;;
  ids <- call (Om2 "MItMeshVertex.getConnectedVertices" [mesh_verts]) ;;
  vert_ids <- lift (res_bind (py_iter ids) as_int_array) ;;
  vert_positions <- query_positions central_vert vert_num vert_ids ;;
  st <- lift (pick vert_ids vert_positions) ;;
  Ret [[vert_num; up_vert st; side_vert_src st];
       [vert_num; up_vert st; side_vert_dest st]].

Definition cmds_meshRemap (s0 s1 s2 d0 d1 d2 : string) : Call :=
  Cmds "meshRemap" [VStr s0; VStr s1; VStr s2; VStr d0; VStr d1; VStr d2] [].

Definition cmds_select_replace (mesh : string) : Call :=
  Cmds "select" [VStr mesh] [("replace", VBool true)].

Definition cmds_select_deselect : Call :=
  Cmds "select" [] [("deselect", VBool true)].

Definition cmds_polyNormalPerVertex : Call :=
  Cmds "polyNormalPerVertex" [] [("freezeNormal", VBool false)].

Definition cmds_delete_history (mesh : string) : Call :=
  Cmds "delete" [VStr mesh] [("constructionHistory", VBool true)].

Definition transfer_vert_order (src_mesh dest_mesh : string)
    (vertex_ids : list (list Z)) : Prog unit :=
  ids0 <- lift (index vertex_ids 0) ;;
  let src_verts := map (format_vtx src_mesh) ids0 in
  ids1 <- lift (index vertex_ids 1) ;;
  let dest_verts := map (format_vtx dest_mesh) ids1 in
  s0 <- lift (index src_verts 0) ;;
  s1 <- lift (index src_verts 1) ;;
  s2 <- lift (index src_verts 2) ;;
  d0 <- lift (index dest_verts 0) ;;
  d1 <- lift (index dest_verts 1) ;;
  d2 <- lift (index dest_verts 2) ;;
  call (cmds_meshRemap s0 s1 s2 d0 d1 d2) ;;
  call (cmds_select_replace dest_mesh) ;;
  call cmds_polyNormalPerVertex ;;
  call cmds_select_deselect ;;
  call (cmds_delete_history dest_mesh) ;;
  Ret tt.

(** The name computed at the top of [create_mirrored_mesh]. *)
Definition new_name (mesh : string) : string :=
  if py_in "_l_" mesh then py_replace "_l_" "_r_" mesh
  else py_replace "_r_" "_l_" mesh.

Definition cmds_duplicate (mesh name : string) : Call :=
  Cmds "duplicate" [VStr mesh] [("name", VStr name)].

Definition cmds_setAttr (attr : string) (value : Z) : Call :=
  Cmds "setAttr" [VStr attr; VInt value] [].

(** [cmds.makeIdentity(name, apply=True, scale=True, normal=0,
    preserveNormals=True)] *)
Definition cmds_makeIdentity_scale (name : string) : Call :=
  Cmds "makeIdentity" [VStr name]
       [("apply", VBool true); ("scale", VBool true); ("normal", VInt 0);
        ("preserveNormals", VBool true)].

Definition create_mirrored_mesh (mesh mirror_axis : string) : Prog string :=
  let new_name := new_name mesh in
  call (cmds_duplicate mesh new_name) ;;
  call (cmds_setAttr (format_scale new_name mirror_axis) (-1)) ;;
  call (cmds_makeIdentity_scale new_name) ;;
  Ret new_name.

(** [cmds.file(file_path, type="OBJexport", force=True, exportSelected=True,
    preserveReferences=True, constructionHistory=False, options=...)] *)
Definition cmds_file_export (file_path : string) : Call :=
  Cmds "file" [VStr file_path]
       [("type", VStr "OBJexport"); ("force", VBool true);
        ("exportSelected", VBool true); ("preserveReferences", VBool true);
        ("constructionHistory", VBool false);
        ("options",
         VStr "groups=1;ptgroups=1;materials=0;smoothing=1;normals=1;")].

Definition export_dest_mesh (mesh file_path : string) : Prog unit :=
  call (cmds_select_replace mesh) ;;
  call (Print file_path) ;;
  call (cmds_file_export file_path) ;;
  call cmds_select_deselect ;;
  Ret tt.

(* ================================================================== *)
(** ** view.py: [MirrorBlendShapeTool.build] *)

(** The radio buttons of the "Mirror Axis" option. *)
Inductive Axis : Type := AxisX | AxisY | AxisZ.

(** The part of the widget's state that [build] reads or writes. *)
Record Gui : Type := mkGui {
  vert_textfield : string;     (* self.vert_textfield.text() *)
  mirror_axis_cbox : Axis;     (* the checked button of mirror_axis_cbox_list *)
  export_cbox : bool;          (* self.export_cbox.isChecked() *)
  file_path_line : string;     (* self.export_dir_widget.file_path_line.text() *)
  directory_path : string;     (* self.directory_path *)
  sel_file : string            (* self.sel_file *)
}.

Definition set_directory_path (self : Gui) (d : string) : Gui :=
  mkGui (vert_textfield self) (mirror_axis_cbox self) (export_cbox self)
        (file_path_line self) d (sel_file self).

Definition set_sel_file (self : Gui) (f : string) : Gui :=
  mkGui (vert_textfield self) (mirror_axis_cbox self) (export_cbox self)
        (file_path_line self) (directory_path self) f.

Definition set_mirror_axis (self : Gui) (a : Axis) : Gui :=
  mkGui (vert_textfield self) a (export_cbox self)
        (file_path_line self) (directory_path self) (sel_file self).

Definition cmds_ls_selection : Call :=
  Cmds "ls" [] [("selection", VBool true); ("flatten", VBool true)].

Definition cmds_objExists (name : string) : Call :=
  Cmds "objExists" [VStr name] [].

Definition msg_no_vertex : string :=
  "No single vertex specified in textfield, nor single vertex selected in scene.".

Definition msg_not_exists : string :=
  "String in textfield is a vertex that does not exist. Check if there's quotes in textfield.".

(** The dialog hands back a path string. *)
Definition browse_directory (self : Gui) : Prog (Gui * string) :=
  d <- call (GetExistingDirectory "Choose Directory") ;;
  f <- lift (as_str d) ;;
  Ret (set_sel_file self f, f).

(** The local variables [central_vert] and [mesh] after the first
    [if]/[elif]/[else] of [build]: [None] is a variable left unbound. *)
Definition build_locals (self : Gui) : Prog (option string * option string) :=
  if String.eqb (vert_textfield self) EmptyString then
    sel <- call cmds_ls_selection ;;
    first_sel <- lift (py_getitem sel 0) ;;
    if py_truthy first_sel then
      sel' <- call cmds_ls_selection ;;
      central_vert <- lift (res_bind (py_getitem sel' 0) as_str) ;;
      Ret (Some central_vert, Some (first (py_split "." central_vert)))
    else
      (call (LogError msg_no_vertex) ;; Ret (None, None))
  else
    ex <- call (cmds_objExists (vert_textfield self)) ;;
    if py_eq_False ex then
      (call (LogError msg_not_exists) ;; Ret (None, None))
    else
      Ret (Some (vert_textfield self),
           Some (first (py_split "." (vert_textfield self)))).

(** Reading a local variable. *)
Definition read_local (name : string) (v : option string) : Prog string :=
  match v with
  | Some x => Ret x
  | None => Raise (UnboundLocalError name)
  end.

(** The export at the end of [build]. *)
Definition build_export (self : Gui) (new_mesh : string) : Prog Gui :=
  if export_cbox self then
    let self := set_directory_path self (file_path_line self) in
    isdir <- call (OsPathIsdir (directory_path self)) ;;
    if py_truthy isdir then
      (export_dest_mesh new_mesh (format_path (directory_path self) new_mesh) ;;
       Ret self)
    else
      r <- browse_directory self ;;
      let self := set_directory_path (fst r) (snd r) in
      export_dest_mesh new_mesh (format_path (directory_path self) new_mesh) ;;
      Ret self
  else Ret self.

(** [build] returns nothing; the result here is the widget's state after the
    call.  [create_mirrored_mesh] and [src_verts] are called without a
    mirror axis, so both get the default ["x"]. *)
Definition build (self : Gui) : Prog Gui :=
  locals <- build_locals self ;;
  mesh <- read_local "mesh" (snd locals) ;;
  new_mesh <- create_mirrored_mesh mesh "x" ;;
  central_vert <- read_local "central_vert" (fst locals) ;;
  needed_verts <- src_verts central_vert "x" ;;
  transfer_vert_order mesh new_mesh needed_verts ;;
  build_export self new_mesh.

(* ================================================================== *)
(** ** The claims' own words, as definitions to compare the code with *)

(** [s] without its first [n] characters. *)
Fixpoint drop (n : nat) (s : string) : string :=
  match n, s with
  | O, _ => s
  | S n', String _ s' => drop n' s'
  | S _, EmptyString => EmptyString
  end.

(** "The first occurrence of [old] replaced by [new]": the leftmost
    occurrence only. *)
Fixpoint replace_first (old new s : string) : string :=
  if starts_with old s then new ++ drop (String.length old) s
  else match s with
       | EmptyString => EmptyString
       | String c s' => String c (replace_first old new s')
       end.

(** "Every occurrence replaced", as a relation: scanning from the left, an
    occurrence of [old] at the current position is replaced and the scan
    resumes behind it; any other character is kept. *)
Inductive ReplacedAll (old new : string) : string -> string -> Prop :=
| RA_end : ReplacedAll old new EmptyString EmptyString
| RA_hit s t :
    ReplacedAll old new s t ->
    ReplacedAll old new (old ++ s) (new ++ t)
| RA_keep c s t :
    starts_with old (String c s) = false ->
    ReplacedAll old new s t ->
    ReplacedAll old new (String c s) (String c t).

(** "The name of the first node of type transform, and the empty string when
    no node is a transform", for node types given by [ty]. *)
Definition first_transform (ty : PyVal -> PyVal) (nodes : list PyVal) : PyVal :=
  match find (fun n => py_eq_str (ty n) "transform") nodes with
  | Some n => n
  | None => VStr EmptyString
  end.

(** The nodes whose type [import_src_mesh] asks for: those up to and
    including the first transform. *)
Fixpoint visited (ty : PyVal -> PyVal) (nodes : list PyVal) : list PyVal :=
  match nodes with
  | [] => []
  | n :: rest =>
      if py_eq_str (ty n) "transform" then [n] else n :: visited ty rest
  end.

(** "[v] is the connected vertex with the greatest x": it is one of the
    connected vertices and no connected vertex lies further along x. *)
Definition greatest_x (vert_ids : list Z) (xs : list Q) (v : Z) : Prop :=
  exists i x, nth_error vert_ids i = Some v /\ nth_error xs i = Some x /\
              forall y, In y xs -> Qle y x.

(** The reply of a position query: the three world coordinates. *)
Definition position (p : Q * Q * Q) : PyVal :=
  VList [VFloat (fst (fst p)); VFloat (snd (fst p)); VFloat (snd p)].

Definition px (p : Q * Q * Q) : Q := fst (fst p).
Definition py (p : Q * Q * Q) : Q := snd (fst p).

(** The vertex names of the position queries among [l]. *)
Definition xform_names (l : list Call) : list string :=
  flat_map (fun c => match c with
                     | Cmds command [VStr name] _ =>
                         if String.eqb command "xform" then [name] else []
                     | _ => []
                     end) l.

(** A setAttr call, otherwise unconstrained. *)
Definition is_setAttr (c : Call) : bool :=
  match c with
  | Cmds command _ _ => String.eqb command "setAttr"
  | _ => false
  end.

(** A logging call. *)
Definition is_LogError (c : Call) : bool :=
  match c with
  | LogError _ => true
  | _ => false
  end.

(** Two programs issue the same calls whatever the host replies, and raise
    the same exceptions; their return values may differ. *)
Fixpoint same_calls {A B} (p : Prog A) (q : Prog B) : Prop :=
  match p, q with
  | Ret _, Ret _ => True
  | Raise e, Raise e' => e = e'
  | Vis c k, Vis c' k' => c = c' /\ forall v, same_calls (k v) (k' v)
  | _, _ => False
  end.

(** A program is deterministic when the replies fix the run: two runs, on
    any two hosts in any two states, that receive the same replies issue the
    same calls and end with the same outcome. *)
Definition deterministic {A} (p : Prog A) : Prop :=
  forall (S1 S2 : Type) (h1 : Host S1) (h2 : Host S2) (s1 : S1) (s2 : S2),
    replies (run h1 p s1) = replies (run h2 p s2) ->
    calls (run h1 p s1) = calls (run h2 p s2) /\
    outcome (run h1 p s1) = outcome (run h2 p s2).

(* ================================================================== *)
(** ** A small scene to run the embedding on

    A stand-in for the host, used to evaluate the functions above on
    concrete inputs.  It keeps the DAG nodes with their types, the selection,
    the construction history of each mesh, a counter of the edits made to
    each mesh's geometry, and what the outside world holds (the file to
    import, the directories, the user's choice in the dialog). *)

Module Stub.

Record Scene : Type := mkScene {
  objects : list (string * string);
  selection : list string;
  history : string -> list string;
  edits : string -> nat;
  incoming : list (string * string);
  connected : list Z;
  positions : list (string * PyVal);
  directories : list string;
  chosen : string;
  exported : list (string * list string)
}.

Definition set_objects (s : Scene) (o : list (string * string)) : Scene :=
  mkScene o (selection s) (history s) (edits s) (incoming s) (connected s)
          (positions s) (directories s) (chosen s) (exported s).

Definition set_selection (s : Scene) (l : list string) : Scene :=
  mkScene (objects s) l (history s) (edits s) (incoming s) (connected s)
          (positions s) (directories s) (chosen s) (exported s).

Definition set_history (s : Scene) (h : string -> list string) : Scene :=
  mkScene (objects s) (selection s) h (edits s) (incoming s) (connected s)
          (positions s) (directories s) (chosen s) (exported s).

Definition set_edits (s : Scene) (e : string -> nat) : Scene :=
  mkScene (objects s) (selection s) (history s) e (incoming s) (connected s)
          (positions s) (directories s) (chosen s) (exported s).

Definition set_exported (s : Scene) (x : list (string * list string)) : Scene :=
  mkScene (objects s) (selection s) (history s) (edits s) (incoming s)
          (connected s) (positions s) (directories s) (chosen s) x.

Fixpoint assoc {V} (k : string) (l : list (string * V)) : option V :=
  match l with
  | [] => None
  | (k', v) :: rest => if String.eqb k k' then Some v else assoc k rest
  end.

Definition mem (k : string) (l : list string) : bool :=
  existsb (String.eqb k) l.

(** Is the keyword argument [name] given as [True]? *)
Definition has_flag (name : string) (flags : list (string * PyVal)) : bool :=
  match assoc name flags with
  | Some (VBool true) => true
  | _ => false
  end.

Definition exists_in (s : Scene) (name : string) : bool :=
  match assoc (first (py_split "." name)) (objects s) with
  | Some _ => true
  | None => false
  end.

Definition ok (v : PyVal) (s : Scene) : Reply * Scene := (inr v, s).

Definition no_object (s : Scene) : Reply * Scene :=
  (inl (RuntimeError "No object matches name"), s).

Definition bad_call (s : Scene) : Reply * Scene := (inl TypeError, s).

Definition touch (s : Scene) (hit : string -> bool) : Scene :=
  set_edits s (fun x => if hit x then S (edits s x) else edits s x).

Definition cmds (command : string) (args : list PyVal)
    (flags : list (string * PyVal)) (s : Scene) : Reply * Scene :=
  if String.eqb command "select" then
    if has_flag "deselect" flags then ok VNone (set_selection s [])
    else match args with
         | [VStr m] =>
             if exists_in s m then ok VNone (set_selection s [m])
             else no_object s
         | _ => bad_call s
         end
  else if String.eqb command "ls" then
    ok (VList (map VStr (selection s))) s
  else if String.eqb command "objExists" then
    match args with
    | [VStr n] => ok (VBool (exists_in s n)) s
    | _ => bad_call s
    end
  else if String.eqb command "nodeType" then
    match args with
    | [VStr n] =>
        match assoc n (objects s) with
        | Some t => ok (VStr t) s
        | None => no_object s
        end
    | _ => bad_call s
    end
  else if String.eqb command "listRelatives" then
    match args with
    | [VStr m] =>
        if exists_in s m then ok (VList [VStr (m ++ "Shape")]) s
        else no_object s
    | _ => bad_call s
    end
  else if String.eqb command "xform" then
    match args with
    | [VStr v] =>
        match assoc v (positions s) with
        | Some pos => ok pos s
        | None => no_object s
        end
    | _ => bad_call s
    end
  else if String.eqb command "file" then
    match args with
    | [VStr path] =>
        if has_flag "i" flags then
          ok (VList (map (fun p => VStr (fst p)) (incoming s)))
             (set_objects s (incoming s ++ objects s))
        else
          ok (VStr path) (set_exported s ((path, selection s) :: exported s))
    | _ => bad_call s
    end
  else if String.eqb command "duplicate" then
    match args, assoc "name" flags with
    | [VStr m], Some (VStr n) =>
        match assoc m (objects s) with
        | Some t => ok (VList [VStr n]) (set_objects s ((n, t) :: objects s))
        | None => no_object s
        end
    | _, _ => bad_call s
    end
  else if String.eqb command "setAttr" then
    match args with
    | [VStr a; _] => if exists_in s a then ok VNone s else no_object s
    | _ => bad_call s
    end
  else if String.eqb command "makeIdentity" then
    match args with
    | [VStr m] =>
        if exists_in s m then ok VNone (touch s (String.eqb m))
        else no_object s
    | _ => bad_call s
    end
  else if String.eqb command "meshRemap" then
    match args with
    | [VStr _; VStr _; VStr _; VStr d; VStr _; VStr _] =>
        let m := first (py_split "." d) in
        if exists_in s m then
          ok VNone
             (set_history (touch s (String.eqb m))
                (fun x => if String.eqb m x then "meshRemap" :: history s x
                          else history s x))
        else no_object s
    | _ => bad_call s
    end
  else if String.eqb command "polyNormalPerVertex" then
    ok VNone (touch s (fun x => mem x (selection s)))
  else if String.eqb command "delete" then
    match args with
    | [VStr m] =>
        if exists_in s m then
          ok VNone
             (set_history s (fun x => if String.eqb m x then [] else history s x))
        else no_object s
    | _ => bad_call s
    end
  else (inl (RuntimeError "unknown command"), s).

Definition om2 (method : string) (args : list PyVal) (s : Scene)
  : Reply * Scene :=
  if String.eqb method "MSelectionList" then ok (VObj 0) s
  else if String.eqb method "MSelectionList.add" then ok VNone s
  else if String.eqb method "MSelectionList.getDependNode" then ok (VObj 1) s
  else if String.eqb method "MItMeshVertex" then ok (VObj 2) s
  else if String.eqb method "MItMeshVertex.setIndex" then ok VNone s
  else if String.eqb method "MItMeshVertex.getConnectedVertices" then
    ok (VList (map VInt (connected s))) s
  else (inl (RuntimeError "unknown method"), s).

Definition host : Host Scene := fun c s =>
  match c with
  | Cmds command args flags => cmds command args flags s
  | Om2 method args => om2 method args s
  | LogError _ => ok VNone s
  | Print _ => ok VNone s
  | OsPathIsdir p => ok (VBool (mem p (directories s))) s
  | GetExistingDirectory _ => ok (VStr (chosen s)) s
  end.

Definition point (x y z : Z) : PyVal :=
  VList [VFloat (inject_Z x); VFloat (inject_Z y); VFloat (inject_Z z)].

(** A mesh "head" whose vertex 4 has the neighbours 3, 5, 7 and 9; the first
    of them, 3, is the one furthest along +x. *)
Definition head_scene : Scene :=
  mkScene [("head", "transform"); ("headShape", "mesh")]
          []
          (fun x => if String.eqb x "head" then ["polySmooth1"] else [])
          (fun _ => O)
          [("blend_l_Shape", "mesh"); ("blend_l_", "transform")]
          [3; 5; 7; 9]
          [("head.vtx[3]", point 2 0 0); ("head.vtx[5]", point 0 1 0);
           ("head.vtx[7]", point 0 (-1) 0); ("head.vtx[9]", point (-2) 0 0)]
          ["/tmp/shapes"]
          "/tmp/out"
          [].

(** The same mesh under a name that holds the digit of the central vertex. *)
Definition head4_scene : Scene :=
  mkScene [("head4", "transform"); ("head4Shape", "mesh")]
          []
          (fun _ => [])
          (fun _ => O)
          []
          [3; 5; 7; 9]
          [("head4.vtx[3]", point 2 0 0); ("head4.vtx[5]", point 0 1 0);
           ("head4.vtx[7]", point 0 (-1) 0); ("head4.vtx[9]", point (-2) 0 0)]
          []
          "/tmp/out"
          [].

(** A mesh "cheek_l_" with three neighbours of vertex 4, the first of them
    neither the rightmost nor the leftmost, and a construction history. *)
Definition cheek_scene : Scene :=
  mkScene [("cheek_l_", "transform"); ("cheek_l_Shape", "mesh")]
          ["cheek_l_.vtx[4]"]
          (fun x => if String.eqb x "cheek_l_" then ["polySmooth1"] else [])
          (fun _ => O)
          []
          [5; 3; 9]
          [("cheek_l_.vtx[5]", point 0 1 0); ("cheek_l_.vtx[3]", point 2 0 0);
           ("cheek_l_.vtx[9]", point (-2) 0 0)]
          ["/tmp/shapes"]
          "/tmp/out"
          [].

(** A mesh whose name holds "_l_" twice. *)
Definition brow_scene : Scene :=
  mkScene [("brow_l_in_l_", "transform"); ("brow_l_in_l_Shape", "mesh")]
          []
          (fun _ => [])
          (fun _ => O)
          []
          []
          []
          []
          "/tmp/out"
          [].

(** The widget as it opens: no vertex typed in, export checked; here with
    the y button checked. *)
Definition fresh_gui : Gui :=
  mkGui EmptyString AxisY true "/tmp/shapes" EmptyString EmptyString.

(** The widget with a vertex typed in that names no object of the scene. *)
Definition typo_gui : Gui :=
  mkGui "nose.vtx[1]" AxisX true "/tmp/shapes" EmptyString EmptyString.

End Stub.

(* ================================================================== *)
(** ** What the claims assume of the host

    The effect of the host's commands on the selection, on the construction
    history and on the geometry of the meshes is not in the source: the
    claims about the scene are stated for a host that behaves as its
    documentation says.  [selected], [history_of] and [geometry_of] observe a
    host state; each clause speaks of a call the host accepted. *)

Section Contract.

Context {S G : Type}.
Variable h : Host S.
Variable selected : S -> list string.
Variable history_of : S -> string -> list string.
Variable geometry_of : S -> string -> G.

(** Mesh [x] has the same history and geometry in [s'] as in [s]. *)
Definition untouched (x : string) (s s' : S) : Prop :=
  history_of s' x = history_of s x /\ geometry_of s' x = geometry_of s x.

Record MayaContract : Prop := mkContract {
  (** [select(m, replace=True)]: the selection becomes [m] alone. *)
  select_replace_ok : forall m s v s',
    h (cmds_select_replace m) s = (inr v, s') ->
    selected s' = [m] /\ forall x, untouched x s s';
  (** [select(deselect=True)] without objects empties the selection. *)
  select_deselect_ok : forall s v s',
    h cmds_select_deselect s = (inr v, s') ->
    selected s' = [] /\ forall x, untouched x s s';
  (** Printing does not reach the scene. *)
  print_ok : forall t s v s',
    h (Print t) s = (inr v, s') ->
    selected s' = selected s /\ forall x, untouched x s s';
  (** An export writes a file and leaves the scene as it is. *)
  file_export_ok : forall p s v s',
    h (cmds_file_export p) s = (inr v, s') ->
    selected s' = selected s /\ forall x, untouched x s s';
  (** [polyNormalPerVertex] without objects works on the selection. *)
  polyNormalPerVertex_ok : forall s v s',
    h cmds_polyNormalPerVertex s = (inr v, s') ->
    selected s' = selected s /\
    forall x, ~ In x (selected s) -> untouched x s s';
  (** [delete(m, constructionHistory=True)] removes the history of [m]. *)
  delete_history_ok : forall m s v s',
    h (cmds_delete_history m) s = (inr v, s') ->
    selected s' = selected s /\ history_of s' m = [] /\
    forall x, x <> m -> untouched x s s'
}.

End Contract.

(* ================================================================== *)
(** ** What the claims assume of the host about transforms

    A mesh of the scene has points, and a scale attribute with a factor for
    each axis.  What duplicate, setAttr and makeIdentity do to them is not
    in the source: the claims about the duplicate are stated for a host that
    behaves as its documentation says.  [present], [points_of] and
    [scale_of] observe a host state; each clause speaks of a call the host
    accepted. *)

(** The name of an axis, as [create_mirrored_mesh] takes it. *)
Definition axis_name (a : Axis) : string :=
  match a with
  | AxisX => "x"
  | AxisY => "y"
  | AxisZ => "z"
  end.

Definition axis_eqb (a b : Axis) : bool :=
  match a, b with
  | AxisX, AxisX | AxisY, AxisY | AxisZ, AxisZ => true
  | _, _ => false
  end.

(** A point with each coordinate multiplied by the factor of its axis. *)
Definition scaled (sc : Axis -> Z) (p : Q * Q * Q) : Q * Q * Q :=
  (inject_Z (sc AxisX) * fst (fst p),
   inject_Z (sc AxisY) * snd (fst p),
   inject_Z (sc AxisZ) * snd p)%Q.

(** The scale [sc] with the factor -1 along [a]. *)
Definition flipped (a : Axis) (sc : Axis -> Z) : Axis -> Z :=
  fun b => if axis_eqb b a then -1 else sc b.

Section Transforms.

Context {S : Type}.
Variable h : Host S.
Variable present : S -> string -> bool.
Variable points_of : S -> string -> list (Q * Q * Q).
Variable scale_of : S -> string -> Axis -> Z.

(** Node [x] is in [s'] what it is in [s]. *)
Definition same_node (x : string) (s s' : S) : Prop :=
  present s' x = present s x /\ points_of s' x = points_of s x /\
  forall a, scale_of s' x a = scale_of s x a.

Record TransformContract : Prop := mkTransformContract {
  (** [duplicate(m, name=n)] with no node called [n] in the scene: the copy
      of [m] is the node [n]. *)
  duplicate_ok : forall m n s v s',
    h (cmds_duplicate m n) s = (inr v, s') ->
    present s n = false ->
    present s' n = true /\ points_of s' n = points_of s m /\
    (forall a, scale_of s' n a = scale_of s m a) /\
    forall x, x <> n -> same_node x s s';
  (** [setAttr("<n>.s<a>", value)] sets the factor of [n] along [a]. *)
  setAttr_scale_ok : forall n a value s v s',
    h (cmds_setAttr (format_scale n (axis_name a)) value) s = (inr v, s') ->
    present s' n = present s n /\ points_of s' n = points_of s n /\
    scale_of s' n a = value /\
    (forall b, b <> a -> scale_of s' n b = scale_of s n b) /\
    forall x, x <> n -> same_node x s s';
  (** [makeIdentity(n, apply=True, scale=True, ...)] freezes the scale: the
      points take the factors up and the factors go back to 1. *)
  makeIdentity_scale_ok : forall n s v s',
    h (cmds_makeIdentity_scale n) s = (inr v, s') ->
    present s' n = present s n /\
    points_of s' n = map (scaled (scale_of s n)) (points_of s n) /\
    (forall a, scale_of s' n a = 1) /\
    forall x, x <> n -> same_node x s s'
}.

End Transforms.

(* ================================================================== *)
(** ** A scene with points and scales

    The scene of [Stub] with, for each transform, its points and its scale.
    As the host application does, it gives a duplicate whose requested name
    is taken another name (here with "1" at the end) and replies with the
    name it gave. *)

Module Outliner.

Definition Node : Type := (list (Q * Q * Q) * (Z * Z * Z))%type.

Definition get_scale (sc : Z * Z * Z) (a : Axis) : Z :=
  match a with
  | AxisX => fst (fst sc)
  | AxisY => snd (fst sc)
  | AxisZ => snd sc
  end.

Definition set_scale (a : Axis) (value : Z) (sc : Z * Z * Z) : Z * Z * Z :=
  match a with
  | AxisX => (value, snd (fst sc), snd sc)
  | AxisY => (fst (fst sc), value, snd sc)
  | AxisZ => (fst (fst sc), snd (fst sc), value)
  end.

Record Scene : Type := mkScene {
  base : Stub.Scene;
  nodes : list (string * Node)
}.

Definition present (s : Scene) (n : string) : bool :=
  match Stub.assoc n (nodes s) with
  | Some _ => true
  | None => false
  end.

Definition points_of (s : Scene) (n : string) : list (Q * Q * Q) :=
  match Stub.assoc n (nodes s) with
  | Some nd => fst nd
  | None => []
  end.

(** The factor of [n] along [a]; 0 stands for a node that is not there. *)
Definition scale_of (s : Scene) (n : string) (a : Axis) : Z :=
  match Stub.assoc n (nodes s) with
  | Some nd => get_scale (snd nd) a
  | None => 0
  end.

Fixpoint update (n : string) (f : Node -> Node) (l : list (string * Node))
  : list (string * Node) :=
  match l with
  | [] => []
  | (k, nd) :: rest =>
      if String.eqb n k then (k, f nd) :: rest
      else (k, nd) :: update n f rest
  end.

(** The name a duplicate gets. *)
Definition unique_name (s : Scene) (n : string) : string :=
  if present s n then n ++ "1" else n.

Definition axis_of_suffix (attr : string) : option Axis :=
  if String.eqb attr ".sx" then Some AxisX
  else if String.eqb attr ".sy" then Some AxisY
  else if String.eqb attr ".sz" then Some AxisZ
  else None.

(** The node and the axis of a scale attribute ["<n>.s<a>"]. *)
Fixpoint scale_attr (attr : string) : option (string * Axis) :=
  match attr with
  | EmptyString => None
  | String c rest =>
      match axis_of_suffix attr with
      | Some a => Some (EmptyString, a)
      | None =>
          match scale_attr rest with
          | Some (n, a) => Some (String c n, a)
          | None => None
          end
      end
  end.

Definition freeze (nd : Node) : Node :=
  (map (scaled (get_scale (snd nd))) (fst nd), (1, 1, 1)).

Definition on_base (c : Call) (s : Scene) : Reply * Scene :=
  let (r, b) := Stub.host c (base s) in (r, mkScene b (nodes s)).

Definition no_node (s : Scene) : Reply * Scene :=
  (inl (RuntimeError "No object matches name"), s).

Definition host : Host Scene := fun c s =>
  match c with
  | Cmds command args flags =>
      if String.eqb command "duplicate" then
        match args, Stub.assoc "name" flags with
        | [VStr m], Some (VStr n) =>
            match Stub.assoc m (nodes s) with
            | Some nd =>
                let n' := unique_name s n in
                (inr (VList [VStr n']),
                 mkScene (Stub.set_objects (base s)
                            ((n', "transform") :: Stub.objects (base s)))
                         ((n', nd) :: nodes s))
            | None => no_node s
            end
        | _, _ => (inl TypeError, s)
        end
      else if String.eqb command "setAttr" then
        match args with
        | [VStr attr; VInt value] =>
            match scale_attr attr with
            | Some (n, a) =>
                if present s n then
                  (inr VNone,
                   mkScene (base s)
                     (update n (fun nd => (fst nd, set_scale a value (snd nd)))
                             (nodes s)))
                else no_node s
            | None => no_node s
            end
        | _ => (inl TypeError, s)
        end
      else if String.eqb command "makeIdentity" then
        match args with
        | [VStr n] =>
            if present s n then
              (inr VNone, mkScene (base s) (update n freeze (nodes s)))
            else no_node s
        | _ => (inl TypeError, s)
        end
      else on_base c s
  | _ => on_base c s
  end.

Definition pt (x y z : Z) : Q * Q * Q := (inject_Z x, inject_Z y, inject_Z z).

(** The mesh "head" of [Stub.head_scene], with three points. *)
Definition head_scene : Scene :=
  mkScene Stub.head_scene
          [("head", ([pt 2 0 0; pt 0 1 0; pt (-2) 0 5], (1, 1, 1)))].

(** The mesh "cheek_l_" of [Stub.cheek_scene], stretched along y. *)
Definition cheek_scene : Scene :=
  mkScene Stub.cheek_scene
          [("cheek_l_", ([pt 2 0 0; pt 0 1 0; pt (-2) 0 5], (1, 3, 1)))].

(** The widget with vertex 4 of [mesh] typed in and the export unchecked. *)
Definition preview_gui (mesh : string) (a : Axis) : Gui :=
  mkGui (mesh ++ ".vtx[4]") a false EmptyString EmptyString EmptyString.

End Outliner.


(* ================================================================== *)
(** ** Notions for the further properties *)

From Stdlib Require DecimalPos.

(** [i] is the first of the indices below [m] whose entry is beaten by no
    entry below [m]; [r a b] reads "[b] beats [a]". *)
Definition first_best (r : Q -> Q -> bool) (xs : list Q) (m i : nat) : Prop :=
  (i < m)%nat /\
  exists x, nth_error xs i = Some x /\
    (forall j y, (j < m)%nat -> nth_error xs j = Some y -> r x y = false) /\
    (forall j y, (j < i)%nat -> nth_error xs j = Some y -> r y x = true).

(** What a loop that keeps the best entry knows after the indices below
    [m]: [best] holds the best entry so far, [who] its vertex -- or the
    initial [w0] when the best entry is still the first one -- and [J] is
    what the loop keeps besides. *)
Definition scan_inv (r : Q -> Q -> bool) (val : Q * Q * Q -> Q)
    (best : Pick -> Q) (who : Pick -> Z) (J : Pick -> Prop)
    (vert_ids : list Z) (pts : list (Q * Q * Q)) (w0 : Z)
    (m : nat) (st : Pick) : Prop :=
  J st /\
  exists i, first_best r (map val pts) m i /\
            nth_error (map val pts) i = Some (best st) /\
            (i = O -> who st = w0) /\
            (i <> O -> nth_error vert_ids i = Some (who st)).

(** [xs[i]] is the greatest entry of [xs], and the entries before it are
    smaller. *)
Definition first_greatest (xs : list Q) (i : nat) : Prop :=
  exists x, nth_error xs i = Some x /\
    (forall y, In y xs -> Qle y x) /\
    (forall j y, (j < i)%nat -> nth_error xs j = Some y -> Qlt y x).

(** [xs[i]] is the least entry of [xs], and the entries before it are
    greater. *)
Definition first_least (xs : list Q) (i : nat) : Prop :=
  exists x, nth_error xs i = Some x /\
    (forall y, In y xs -> Qle x y) /\
    (forall j y, (j < i)%nat -> nth_error xs j = Some y -> Qlt x y).

(** The value of a decimal numeral read after the digits that gave [acc]. *)
Fixpoint uint_val (d : Decimal.uint) (acc : Z) : Z :=
  match d with
  | Decimal.Nil => acc
  | Decimal.D0 d => uint_val d (10 * acc + 0)
  | Decimal.D1 d => uint_val d (10 * acc + 1)
  | Decimal.D2 d => uint_val d (10 * acc + 2)
  | Decimal.D3 d => uint_val d (10 * acc + 3)
  | Decimal.D4 d => uint_val d (10 * acc + 4)
  | Decimal.D5 d => uint_val d (10 * acc + 5)
  | Decimal.D6 d => uint_val d (10 * acc + 6)
  | Decimal.D7 d => uint_val d (10 * acc + 7)
  | Decimal.D8 d => uint_val d (10 * acc + 8)
  | Decimal.D9 d => uint_val d (10 * acc + 9)
  end.

(** Every character of [s] passes [P]. *)
Fixpoint all_chars (P : ascii -> bool) (s : string) : bool :=
  match s with
  | EmptyString => true
  | String c s' => P c && all_chars P s'
  end.

(** [c] occurs in [s]. *)
Fixpoint has_char (c : ascii) (s : string) : bool :=
  match s with
  | EmptyString => false
  | String a s' => Ascii.eqb c a || has_char c s'
  end.

(** The characters [str] writes for an integer. *)
Definition numeral_char (c : ascii) : bool := is_digit c || Ascii.eqb c "-".

(** Every value a program can return satisfies [Q]. *)
Fixpoint every_ret {A} (Q : A -> Prop) (p : Prog A) : Prop :=
  match p with
  | Ret a => Q a
  | Raise _ => True
  | Vis _ k => forall v, every_ret Q (k v)
  end.

(** The calls of the export at the end of [build]: the directory test, the
    dialog, the print and the file command. *)
Definition export_step (c : Call) : bool :=
  match c with
  | Cmds command _ _ => String.eqb command "file"
  | Print _ => true
  | OsPathIsdir _ => true
  | GetExistingDirectory _ => true
  | _ => false
  end.

(** Two programs issue the same calls whatever the host replies, raise the
    same exceptions, and return values related by [R]. *)
Fixpoint alike {A B} (R : A -> B -> Prop) (p : Prog A) (q : Prog B) : Prop :=
  match p, q with
  | Ret a, Ret b => R a b
  | Raise e, Raise e' => e = e'
  | Vis c k, Vis c' k' => c = c' /\ forall v, alike R (k v) (k' v)
  | _, _ => False
  end.

(** Two outcomes: the same exception, or values related by [R]. *)
Definition outcomes_alike {A B} (R : A -> B -> Prop) (o : Outcome A)
    (o' : Outcome B) : Prop :=
  match o, o' with
  | Returned a, Returned b => R a b
  | Raised e, Raised e' => e = e'
  | _, _ => False
  end.

(* ================================================================== *)
(** ** view.py: the menu actions and the browse widget

    The file dialogs of the GUI toolkit hand back tuples; a program of this
    layer is a tree of host calls and of dialogs.  The toolkit fixes what a
    dialog returns: a file name is a string, several file names are a list
    of strings. *)

Inductive Item : Type :=
| IStr (s : string)
| IStrs (l : list string).

(** The dialogs that return a tuple.  [dir] is absent where the call does
    not pass it; [filter] is what the caller passes: a string or [None]. *)
Inductive Dialog : Type :=
| GetOpenFileName (dir : option string) (caption : string) (filter : PyVal)
| GetSaveFileName (dir : option string) (caption : string) (filter : PyVal)
| GetOpenFileNames (caption : string) (filter : PyVal).

Inductive UiProg (A : Type) : Type :=
| URet (a : A)
| URaise (e : Exn)
| UHost (c : Call) (k : PyVal -> UiProg A)
| UDialog (d : Dialog) (k : list Item -> UiProg A).

Arguments URet {A} a.
Arguments URaise {A} e.
Arguments UHost {A} c k.
Arguments UDialog {A} d k.

Fixpoint ubind {A B} (p : UiProg A) (f : A -> UiProg B) : UiProg B :=
  match p with
  | URet a => f a
  | URaise e => URaise e
  | UHost c k => UHost c (fun v => ubind (k v) f)
  | UDialog d k => UDialog d (fun t => ubind (k t) f)
  end.

(** A program of the core, as a program of this layer. *)
Fixpoint of_prog {A} (p : Prog A) : UiProg A :=
  match p with
  | Ret a => URet a
  | Raise e => URaise e
  | Vis c k => UHost c (fun v => of_prog (k v))
  end.

Definition ucall (c : Call) : UiProg PyVal := UHost c URet.
Definition udialog (d : Dialog) : UiProg (list Item) := UDialog d URet.
Definition ulift {A} (r : Res A) : UiProg A := of_prog (lift r).

(** The host of this layer answers the calls and the dialogs. *)
Record UiHost (S : Type) : Type := mkUiHost {
  on_call : Host S;
  on_dialog : Dialog -> S -> list Item * S
}.

Arguments mkUiHost {S} _ _.
Arguments on_call {S} _.
Arguments on_dialog {S} _.

Inductive Step : Type :=
| HostStep (c : Call) (r : Reply)
| DialogStep (d : Dialog) (t : list Item).

Record UiRun (S A : Type) : Type := mkUiRun {
  steps : list Step;
  result : Outcome A;
  after : S
}.

Arguments mkUiRun {S A} _ _ _.
Arguments steps {S A} _.
Arguments result {S A} _.
Arguments after {S A} _.

Fixpoint urun {S A} (h : UiHost S) (p : UiProg A) (s : S) : UiRun S A :=
  match p with
  | URet a => mkUiRun [] (Returned a) s
  | URaise e => mkUiRun [] (Raised e) s
  | UHost c k =>
      match on_call h c s with
      | (inl e, s') => mkUiRun [HostStep c (inl e)] (Raised e) s'
      | (inr v, s') =>
          let r := urun h (k v) s' in
          mkUiRun (HostStep c (inr v) :: steps r) (result r) (after r)
      end
  | UDialog d k =>
      let '(t, s') := on_dialog h d s in
      let r := urun h (k t) s' in
      mkUiRun (DialogStep d t :: steps r) (result r) (after r)
  end.

(** The host calls among the steps. *)
Definition host_calls (l : list Step) : list Call :=
  flat_map (fun st => match st with
                      | HostStep c _ => [c]
                      | DialogStep _ _ => []
                      end) l.

(** *** [str] of a list of strings *)

Definition quote1 : ascii := ascii_of_nat 39.
Definition quote2 : ascii := ascii_of_nat 34.
Definition backslash : ascii := ascii_of_nat 92.

Definition hex_digit (n : nat) : ascii :=
  nth n ["0"; "1"; "2"; "3"; "4"; "5"; "6"; "7"; "8"; "9";
         "a"; "b"; "c"; "d"; "e"; "f"]%char "0"%char.

(** One character inside [repr] of a string delimited by [quote].  The
    quote and the backslash get a backslash, tab, newline and return their
    letter, and every other code point that [str.isprintable] refuses is
    written as a two-digit hexadecimal escape: below code point 256 these
    are the controls U+0000 to U+001F and U+007F to U+009F, the no-break
    space U+00A0 and the soft hyphen U+00AD.  The rest is copied. *)
Definition repr_char (quote : ascii) (c : ascii) : string :=
  let n := nat_of_ascii c in
  if Ascii.eqb c quote || Ascii.eqb c backslash
  then String backslash (String c EmptyString)
  else if (n =? 9)%nat then String backslash "t"
  else if (n =? 10)%nat then String backslash "n"
  else if (n =? 13)%nat then String backslash "r"
  else if (n <? 32)%nat || ((127 <=? n) && (n <=? 160))%nat || (n =? 173)%nat
  then String backslash
         (String "x" (String (hex_digit (n / 16))
                             (String (hex_digit (n mod 16)) EmptyString)))
  else String c EmptyString.

Fixpoint repr_body (quote : ascii) (s : string) : string :=
  match s with
  | EmptyString => EmptyString
  | String c s' => repr_char quote c ++ repr_body quote s'
  end.

(** [repr(s)]: single quotes, unless [s] holds a single quote and no double
    quote. *)
Definition py_repr_str (s : string) : string :=
  let quote :=
    if has_char quote1 s && negb (has_char quote2 s) then quote2 else quote1 in
  String quote (repr_body quote s ++ String quote EmptyString).

Fixpoint join (sep : string) (l : list string) : string :=
  match l with
  | [] => EmptyString
  | [x] => x
  | x :: rest => x ++ sep ++ join sep rest
  end.

Definition py_repr_list (l : list string) : string :=
  "[" ++ join ", " l ++ "]".

Definition py_repr_item (i : Item) : string :=
  match i with
  | IStr s => py_repr_str s
  | IStrs l => py_repr_list (map py_repr_str l)
  end.

(** [l.pop(-1)]: the list without its last element. *)
Definition pop_last {A} (l : list A) : Res (list A) :=
  match l with
  | [] => inl IndexError
  | _ => inr (removelast l)
  end.

(** [s.split(sep)], with Python's refusal of an empty separator. *)
Definition py_split_checked (sep s : string) : Res (list string) :=
  match sep with
  | EmptyString => inl ValueError
  | _ => inr (py_split sep s)
  end.

(** [s] without the character [c]. *)
Fixpoint remove_char (c : ascii) (s : string) : string :=
  match s with
  | EmptyString => EmptyString
  | String a s' =>
      if Ascii.eqb c a then remove_char c s' else String a (remove_char c s')
  end.

(** A printable character of ASCII (U+0020 to U+007E) other than the two
    quotes and the backslash: [repr] copies it into single quotes as it
    is. *)
Definition calm_char (c : ascii) : bool :=
  let n := nat_of_ascii c in
  (32 <=? n)%nat && (n <=? 126)%nat && negb (n =? 39)%nat &&
  negb (n =? 34)%nat && negb (n =? 92)%nat.

Declare Scope ui_scope.
Delimit Scope ui_scope with ui.
Notation "x <- p ;; q" := (ubind p (fun x => q))
  (at level 61, p at next level, right associativity) : ui_scope.
Notation "p ;; q" := (ubind p (fun _ => q))
  (at level 61, right associativity) : ui_scope.

Module Tool.

Local Open Scope ui_scope.

(** The widget of the tool with what its attribute [sel_file] holds: the
    tuple of a file dialog ([Some]), or else the string in [sel_file gui]. *)
Record Window : Type := mkWindow {
  gui : Gui;
  sel_tuple : option (list Item)
}.

Definition obj_filter : PyVal := VStr "Object Files (*.obj);;".

(** [MirrorBlendShapeTool.browse_command] *)
Definition browse_command (self : Window) : UiProg (Window * string) :=
  t <- udialog (GetOpenFileName (Some (directory_path (gui self)))
                                "Get Blendshape Mesh" obj_filter) ;;
  let self := mkWindow (gui self) (Some t) in
  new_string <- ulift (pop_last t) ;;
  let new_string := py_repr_list (map py_repr_item new_string) in
  let new_string :=
    py_replace "]" EmptyString (py_replace "[" EmptyString new_string) in
  URet (self, new_string).

Definition cmds_delete (name : string) : Call := Cmds "delete" [VStr name] [].

Definition cmds_rename (old new : string) : Call :=
  Cmds "rename" [VStr old; VStr new] [].

Definition cmds_getPanel : Call :=
  Cmds "getPanel" [] [("type", VStr "modelPanel")].

(** [cmds.modelEditor(vp, q=1, av=1, cam=1)] *)
Definition cmds_modelEditor (vp : PyVal) : Call :=
  Cmds "modelEditor" [vp] [("q", VInt 1); ("av", VInt 1); ("cam", VInt 1)].

Definition cmds_viewFit (camera : PyVal) : Call :=
  Cmds "viewFit" [camera] [("fitFactor", VInt 1)].

(** [for vp in cmds.getPanel(type="modelPanel"): curCamera = ...] *)
Fixpoint camera_loop (panels : list PyVal) (curCamera : PyVal)
  : UiProg PyVal :=
  match panels with
  | [] => URet curCamera
  | vp :: rest =>
      cam <- ucall (cmds_modelEditor vp) ;;
      camera_loop rest cam
  end.

(** The path, the mesh name and the directory that [import_mesh] derives
    from what [browse_command] hands back. *)
Definition file_path_of (browsed : string) : string :=
  py_replace "'" EmptyString browsed.

Definition mesh_name_of (file_path : string) : string :=
  py_replace ".obj" EmptyString (PyStr.last (py_split "/" file_path)).

Definition src_dir_of (file_path : string) : Res string :=
  res_bind (py_split_checked (mesh_name_of file_path) file_path)
           (fun pieces => inr (PyStr.first pieces)).

Definition set_export_dir (g : Gui) (d : string) : Gui :=
  mkGui (vert_textfield g) (mirror_axis_cbox g) (export_cbox g) d d
        (sel_file g).

Definition import_mesh (self : Window) : UiProg Window :=
  r <- browse_command self ;;
  let self := fst r in
  let file_path := file_path_of (snd r) in
  let mesh_name := mesh_name_of file_path in
  src_dir <- ulift (src_dir_of file_path) ;;
  ex <- ucall (cmds_objExists mesh_name) ;;
  (if py_truthy ex then ucall (cmds_delete mesh_name) else URet VNone) ;;
  node <- of_prog (import_src_mesh file_path) ;;
  node <- ulift (as_str node) ;;
  let mesh := PyStr.last (py_split "|" node) in
  (if String.eqb mesh mesh_name then URet VNone
   else ucall (cmds_rename mesh mesh_name)) ;;
  let self := mkWindow (set_export_dir (gui self) src_dir) (sel_tuple self) in
  panels <- ucall cmds_getPanel ;;
  panels <- ulift (py_iter panels) ;;
  curCamera <- camera_loop panels (VStr "persp") ;;
  ucall (cmds_select_replace mesh_name) ;;
  ucall (cmds_viewFit curCamera) ;;
  URet self.

Definition cmds_ls_selected : Call := Cmds "ls" [] [("selection", VBool true)].

(** A node name: [ls] answers with strings; anything else is outside this
    layer and reported as TypeError. *)
Definition as_name (v : PyVal) : Res string :=
  match v with
  | VStr s => inr s
  | _ => inl TypeError
  end.

(** The path that [export_mesh] passes on, from the path the dialog gave. *)
Definition export_path_of (chosen : string) : string :=
  py_replace ".obj" EmptyString
    (py_replace "]" EmptyString (py_replace "[" EmptyString chosen)).

Definition export_mesh (self : Window) : UiProg unit :=
  sel <- ucall cmds_ls_selected ;;
  mesh <- ulift (res_bind (py_getitem sel 0) as_name) ;;
  t <- udialog (GetSaveFileName (Some (directory_path (gui self) ++ mesh))
                                "Save Blendshape Mesh" obj_filter) ;;
  item <- ulift (index t 0) ;;
  chosen <- match item with
            | IStr s => URet s
            | IStrs _ => URaise AttributeError
            end ;;
  of_prog (export_dest_mesh mesh (export_path_of chosen)).

Definition cmds_file_new : Call :=
  Cmds "file" [] [("newFile", VBool true); ("force", VBool true)].

Definition new_blendshape (self : Window) : UiProg Window :=
  ucall cmds_file_new ;;
  import_mesh self.

End Tool.

Module BrowseWidget.

Local Open Scope ui_scope.

(** What the attribute [sel_file] of the widget holds. *)
Inductive Sel : Type :=
| SelUnset
| SelTuple (t : list Item)
| SelValue (v : PyVal).

Record Widget : Type := mkWidget {
  label : string;
  file_types : PyVal;
  search_type : option string;
  file_path_line : string;
  sel_file : Sel
}.

(** [__init__]: the search falls back to a single file when file types are
    given without a search type. *)
Definition init (label : string) (search_type : option string)
    (file_types : PyVal) : Widget :=
  let search_type :=
    match search_type with
    | None => if py_truthy file_types then Some "file" else None
    | Some t => Some t
    end in
  mkWidget label file_types search_type EmptyString SelUnset.

Definition set_text (self : Widget) (sel : Sel) (text : string) : Widget :=
  mkWidget (label self) (file_types self) (search_type self) text sel.

Definition set_sel (self : Widget) (sel : Sel) : Widget :=
  mkWidget (label self) (file_types self) (search_type self)
           (file_path_line self) sel.

Definition newline : string := String (ascii_of_nat 10) EmptyString.

Definition msg_search_type (search_type : option string) : string :=
  "Invalid argument '" ++
  match search_type with Some t => t | None => "None" end ++
  "' for parameter: 'search_type'." ++ newline ++
  "Valid options: 'file', 'files', 'directory'".

Definition msg_data_type : string :=
  "Data type being returned to textfield is not converted to string.".

(** The second half of [browse_command]: the path goes to the textfield. *)
Definition to_textfield (self : Widget) (sel : Sel) : UiProg Widget :=
  match sel with
  | SelTuple t =>
      new_string <- ulift (pop_last t) ;;
      let new_string := py_repr_list (map py_repr_item new_string) in
      let new_string :=
        py_replace "]" EmptyString (py_replace "[" EmptyString new_string) in
      URet (set_text self sel new_string)
  | SelValue (VStr s) => URet (set_text self sel s)
  | _ => ucall (LogError msg_data_type) ;; URet (set_sel self sel)
  end.

Definition browse_command (self : Widget) : UiProg Widget :=
  match search_type self with
  | Some t =>
      if String.eqb t "saveFile" then
        r <- udialog (GetSaveFileName None "save file" (file_types self)) ;;
        to_textfield self (SelTuple r)
      else if String.eqb t "file" then
        r <- udialog (GetOpenFileName None "get file" (file_types self)) ;;
        to_textfield self (SelTuple r)
      else if String.eqb t "files" then
        r <- udialog (GetOpenFileNames "get files" (file_types self)) ;;
        to_textfield self (SelTuple r)
      else if String.eqb t "directory" then
        r <- ucall (GetExistingDirectory "Choose Directory") ;;
        to_textfield self (SelValue r)
      else
        ucall (LogError (msg_search_type (search_type self))) ;; URet self
  | None =>
      ucall (LogError (msg_search_type None)) ;; URet self
  end.

End BrowseWidget.

(** A stand-in for the host of this layer: the scene of [Stub] with the
    viewport commands, and dialogs that all give the same answer. *)
Module UiStub.

Definition host : Host Stub.Scene := fun c s =>
  match c with
  | Cmds command args flags =>
      if String.eqb command "rename" then
        match args with
        | [VStr old; VStr new] =>
            match Stub.assoc old (Stub.objects s) with
            | Some t =>
                Stub.ok (VStr new)
                  (Stub.set_objects s ((new, t) :: Stub.objects s))
            | None => Stub.no_object s
            end
        | _ => Stub.bad_call s
        end
      else if String.eqb command "getPanel" then
        Stub.ok (VList [VStr "modelPanel1"; VStr "modelPanel4"]) s
      else if String.eqb command "modelEditor" then
        match args with
        | [VStr "modelPanel4"] => Stub.ok (VStr "persp") s
        | _ => Stub.ok (VStr "top") s
        end
      else if String.eqb command "viewFit" then Stub.ok VNone s
      else if String.eqb command "file" && Stub.has_flag "newFile" flags then
        Stub.ok (VStr "untitled")
                (Stub.set_selection (Stub.set_objects s []) [])
      else Stub.host c s
  | _ => Stub.host c s
  end.

Definition ui (answer : list Item) : UiHost Stub.Scene :=
  mkUiHost host (fun _ s => (answer, s)).

Definition window : Tool.Window := Tool.mkWindow Stub.fresh_gui None.

End UiStub.

(* ================================================================== *)
(** ** Facts about the string primitives *)

Section StringFacts.

Lemma starts_with_app (p s : string) : starts_with p (p ++ s) = true.
Proof.
  induction p as [|a p IH]; simpl; [reflexivity|].
  now rewrite Ascii.eqb_refl, IH.
Qed.

Lemma length_app (s t : string) :
  String.length (s ++ t) = (String.length s + String.length t)%nat.
Proof. induction s as [|c s IH]; simpl; [reflexivity | now rewrite IH]. Qed.

Lemma starts_with_split (p s : string) :
  starts_with p s = true -> s = p ++ drop (String.length p) s.
Proof.
  revert s; induction p as [|a p IH]; intros s H; simpl in *.
  - reflexivity.
  - destruct s as [|b s]; [discriminate|].
    apply andb_true_iff in H as [Hab Hp].
    apply Ascii.eqb_eq in Hab; subst b.
    simpl. f_equal. now apply IH.
Qed.

(** Once an occurrence has matched, the scan drops it and resumes behind. *)
Lemma replace_go_skip (old new o s : string) :
  old <> EmptyString ->
  replace_go old new (String.length o) (o ++ s) = replace_go old new 0 s.
Proof.
  intros Hold.
  induction o as [|a o IH]; simpl.
  - reflexivity.
  - exact IH.
Qed.

Lemma py_replace_hit (old new s : string) :
  old <> EmptyString ->
  py_replace old new (old ++ s) = new ++ py_replace old new s.
Proof.
  intros Hold. unfold py_replace.
  destruct old as [|a o]; [congruence|].
  change (String a o ++ s) with (String a (o ++ s)).
  cbn [replace_go].
  change (String a (o ++ s)) with (String a o ++ s).
  rewrite starts_with_app.
  now rewrite replace_go_skip.
Qed.

Lemma py_replace_keep (old new : string) (c : ascii) (s : string) :
  starts_with old (String c s) = false ->
  py_replace old new (String c s) = String c (py_replace old new s).
Proof.
  intros H. unfold py_replace. cbn [replace_go]. now rewrite H.
Qed.

(** [s.replace(old, new)] replaces every occurrence. *)
Lemma py_replace_all (old new s : string) :
  old <> EmptyString -> ReplacedAll old new s (py_replace old new s).
Proof.
  intros Hold.
  remember (String.length s) as n eqn:Hn.
  revert s Hn.
  induction n as [n IH] using (well_founded_induction lt_wf).
  intros s Hn.
  destruct (starts_with old s) eqn:Hp.
  - apply starts_with_split in Hp.
    rewrite Hp at 1 2. rewrite py_replace_hit by assumption.
    apply RA_hit.
    apply (IH (String.length (drop (String.length old) s))); [|reflexivity].
    subst n. rewrite Hp at 2. rewrite length_app.
    destruct old; [congruence|]. simpl. lia.
  - destruct s as [|c s].
    + destruct old; [congruence|]. apply RA_end.
    + rewrite py_replace_keep by assumption.
      apply RA_keep; [assumption|].
      apply (IH (String.length s)); [subst n; simpl; lia | reflexivity].
Qed.

(** The relation has one result only, so it pins [replace] down. *)
Lemma ReplacedAll_functional (old new s t t' : string) :
  old <> EmptyString ->
  ReplacedAll old new s t -> ReplacedAll old new s t' -> t = t'.
Proof.
  intros Hold H1 H2.
  assert (forall u, ReplacedAll old new s u -> u = py_replace old new s) as Huniq.
  { clear - Hold. intros u Hu. induction Hu.
    - unfold py_replace. destruct old; [congruence|reflexivity].
    - rewrite py_replace_hit by assumption. now f_equal.
    - rewrite py_replace_keep by assumption. now f_equal. }
  rewrite (Huniq t H1), (Huniq t' H2). reflexivity.
Qed.

(** Where [old] does not occur, [replace] changes nothing. *)
Lemma py_replace_absent (old new s : string) :
  py_in old s = false -> py_replace old new s = s.
Proof.
  induction s as [|c s IH]; intros H.
  - destruct old; [discriminate|reflexivity].
  - simpl in H. apply orb_false_iff in H as [Hp Hin].
    rewrite py_replace_keep by assumption.
    now rewrite IH.
Qed.

End StringFacts.

(** The primitives on the strings the tool meets. *)
Example py_replace_two : py_replace "_l_" "_r_" "a_l_b_l_c" = "a_r_b_r_c".
Proof. reflexivity. Qed.

Example py_replace_overlap : py_replace "_l_" "_r_" "x_l_l_y" = "x_r_l_y".
Proof. reflexivity. Qed.

Example py_replace_empty_old : py_replace EmptyString "-" "abc" = "-a-b-c-".
Proof. reflexivity. Qed.

Example py_split_vtx : py_split "." "head_l_.vtx[12]" = ["head_l_"; "vtx[12]"].
Proof. reflexivity. Qed.

Example py_split_trailing : py_split "]" "12]" = ["12"; EmptyString].
Proof. reflexivity. Qed.

Example py_int_examples :
  py_int "12" = Some 12 /\ py_int " -7 " = Some (-7) /\ py_int "1_0" = Some 10 /\
  py_int EmptyString = None /\ py_int "1__0" = None /\ py_int "vtx" = None.
Proof. repeat split; reflexivity. Qed.

(** [int] skips the no-break space; it refuses a superscript digit and the
    separator U+001C. *)
Example py_int_latin1 :
  py_int (String (ascii_of_nat 160) "4") = Some 4 /\
  py_int (String (ascii_of_nat 133) "4") = Some 4 /\
  py_int (String (ascii_of_nat 178) EmptyString) = None /\
  py_int (String (ascii_of_nat 28) "4") = None.
Proof. repeat split; reflexivity. Qed.

Example py_str_int_examples :
  py_str_int 0 = "0" /\ py_str_int 120 = "120" /\ py_str_int (-5) = "-5".
Proof. repeat split; reflexivity. Qed.

(* ================================================================== *)
(** ** Facts about programs and runs *)

Section RunFacts.

Context {S : Type} (h : Host S).

(** A run of [bind p f] is a run of [p] followed, if [p] returned, by a run
    of [f] on its result. *)
Lemma run_bind {A B} (p : Prog A) (f : A -> Prog B) (s : S) :
  run h (bind p f) s =
  match outcome (run h p s) with
  | Returned a =>
      let r := run h (f a) (final (run h p s)) in
      mkRun (trace (run h p s) ++ trace r) (outcome r) (final r)
  | Raised e => mkRun (trace (run h p s)) (Raised e) (final (run h p s))
  end.
Proof.
  revert s. induction p as [a|e|c k IH]; intros s; simpl.
  - now destruct (run h (f a) s).
  - reflexivity.
  - destruct (h c s) as [[e|v] s']; simpl; [reflexivity|].
    rewrite IH. now destruct (outcome (run h (k v) s')).
Qed.

Lemma run_call_ok (c : Call) (s s' : S) (v : PyVal) :
  h c s = (inr v, s') ->
  run h (call c) s = mkRun [mkEvent s c (inr v)] (Returned v) s'.
Proof. intros H. unfold call. simpl. now rewrite H. Qed.

(** One successful call in front of a program. *)
Lemma run_step {A} (c : Call) (f : PyVal -> Prog A) (s s' : S) (v : PyVal) :
  h c s = (inr v, s') ->
  run h (bind (call c) f) s =
  mkRun (mkEvent s c (inr v) :: trace (run h (f v) s'))
        (outcome (run h (f v) s')) (final (run h (f v) s')).
Proof. intros H. unfold call. simpl. now rewrite H. Qed.

(** A property of every call of a program holds of every call of a run. *)
Lemma every_call_run {A} (P : Call -> Prop) (p : Prog A) (s : S) :
  every_call P p -> Forall P (calls (run h p s)).
Proof.
  unfold calls. revert s. induction p as [a|e|c k IH]; intros s Hp; simpl.
  - constructor.
  - constructor.
  - destruct Hp as [Hc Hk].
    destruct (h c s) as [[e|v] s']; simpl.
    + constructor; [assumption|constructor].
    + constructor; [assumption|]. now apply IH.
Qed.

(** Programs with the same calls have the same trace against a host. *)
Lemma same_calls_run {A B} (p : Prog A) (q : Prog B) (s : S) :
  same_calls p q ->
  trace (run h p s) = trace (run h q s) /\ final (run h p s) = final (run h q s).
Proof.
  revert q s. induction p as [a|e|c k IH]; intros q s Hpq;
    destruct q as [b|e'|c' k']; simpl in Hpq; try contradiction.
  - now split.
  - now split.
  - destruct Hpq as [-> Hk]. simpl.
    destruct (h c' s) as [[e|v] s']; simpl; [now split|].
    destruct (IH v (k' v) s' (Hk v)) as [-> ->]. now split.
Qed.

End RunFacts.

Section ProgFacts.

Lemma every_call_bind {A B} (P : Call -> Prop) (p : Prog A) (f : A -> Prog B) :
  every_call P p -> (forall a, every_call P (f a)) -> every_call P (bind p f).
Proof.
  intros Hp Hf. induction p as [a|e|c k IH]; simpl in *.
  - apply Hf.
  - exact I.
  - destruct Hp as [Hc Hk]. split; [assumption|]. intros v. now apply IH.
Qed.

Lemma every_call_call (P : Call -> Prop) (c : Call) :
  P c -> every_call P (call c).
Proof. intros H. simpl. split; [assumption|]. intros _. exact I. Qed.

Lemma every_call_lift {A} (P : Call -> Prop) (r : Res A) :
  every_call P (lift r).
Proof. destruct r; exact I. Qed.

Lemma same_calls_refl {A} (p : Prog A) : same_calls p p.
Proof.
  induction p as [a|e|c k IH]; simpl; [exact I | reflexivity |].
  split; [reflexivity | assumption].
Qed.

Lemma same_calls_bind {A B C} (p : Prog A) (f : A -> Prog B) (g : A -> Prog C) :
  (forall a, same_calls (f a) (g a)) -> same_calls (bind p f) (bind p g).
Proof.
  intros Hfg. induction p as [a|e|c k IH]; simpl.
  - apply Hfg.
  - reflexivity.
  - split; [reflexivity | assumption].
Qed.

(** The replies fix the run of any program: a program has no other input. *)
Lemma run_deterministic {A} (p : Prog A) : deterministic p.
Proof.
  unfold deterministic, calls, replies.
  intros S1 S2 h1 h2.
  induction p as [a|e|c k IH]; intros s1 s2 Hrep; simpl in *.
  - now split.
  - now split.
  - destruct (h1 c s1) as [[e1|v1] s1'], (h2 c s2) as [[e2|v2] s2'];
      simpl in *.
    + injection Hrep as ->. now split.
    + discriminate.
    + discriminate.
    + injection Hrep as -> Hrest.
      destruct (IH v2 s1' s2' Hrest) as [-> ->]. now split.
Qed.

End ProgFacts.

(* ================================================================== *)
(** ** [create_mirrored_mesh] *)

(** The run of [create_mirrored_mesh] on a host that accepts its three
    calls. *)
Lemma create_mirrored_mesh_run {S} (h : Host S) (mesh mirror_axis : string)
    (s s1 s2 s3 : S) (v1 v2 v3 : PyVal) :
  h (cmds_duplicate mesh (new_name mesh)) s = (inr v1, s1) ->
  h (cmds_setAttr (format_scale (new_name mesh) mirror_axis) (-1)) s1
    = (inr v2, s2) ->
  h (cmds_makeIdentity_scale (new_name mesh)) s2 = (inr v3, s3) ->
  run h (create_mirrored_mesh mesh mirror_axis) s =
  mkRun [mkEvent s (cmds_duplicate mesh (new_name mesh)) (inr v1);
         mkEvent s1 (cmds_setAttr (format_scale (new_name mesh) mirror_axis)
                                  (-1)) (inr v2);
         mkEvent s2 (cmds_makeIdentity_scale (new_name mesh)) (inr v3)]
        (Returned (new_name mesh)) s3.
Proof.
  intros H1 H2 H3. unfold create_mirrored_mesh.
  rewrite (run_step h _ _ _ _ _ H1).
  rewrite (run_step h _ _ _ _ _ H2).
  rewrite (run_step h _ _ _ _ _ H3).
  reflexivity.
Qed.

(* ================================================================== *)
(** ** The scene with points and scales keeps the contract *)

Section OutlinerFacts.

Lemma axis_eqb_eq (a b : Axis) : axis_eqb a b = true <-> a = b.
Proof. destruct a, b; cbn; split; intros H; congruence. Qed.

Lemma scaled_ext (sc sc' : Axis -> Z) (p : Q * Q * Q) :
  (forall a, sc a = sc' a) -> scaled sc p = scaled sc' p.
Proof. intros H. unfold scaled. now rewrite !H. Qed.

Lemma assoc_update_same (n : string) (f : Outliner.Node -> Outliner.Node)
    (l : list (string * Outliner.Node)) :
  Stub.assoc n (Outliner.update n f l) = option_map f (Stub.assoc n l).
Proof.
  induction l as [|[k nd] rest IH]; [reflexivity|].
  cbn [Outliner.update Stub.assoc].
  destruct (String.eqb n k) eqn:E; cbn [Stub.assoc]; rewrite E;
    [reflexivity | exact IH].
Qed.

Lemma assoc_update_other (x n : string) (f : Outliner.Node -> Outliner.Node)
    (l : list (string * Outliner.Node)) :
  x <> n -> Stub.assoc x (Outliner.update n f l) = Stub.assoc x l.
Proof.
  intros Hx. induction l as [|[k nd] rest IH]; [reflexivity|].
  cbn [Outliner.update Stub.assoc].
  destruct (String.eqb n k) eqn:E; cbn [Stub.assoc].
  - apply String.eqb_eq in E. subst k.
    now rewrite (proj2 (String.eqb_neq x n) Hx).
  - now rewrite IH.
Qed.

Lemma axis_of_suffix_long (c : ascii) (n : string) (a : Axis) :
  Outliner.axis_of_suffix (String c (n ++ ".s" ++ axis_name a)) = None.
Proof.
  assert (forall t, String.length t = 3%nat ->
            String.eqb (String c (n ++ ".s" ++ axis_name a)) t = false) as H.
  { intros t Ht. apply String.eqb_neq. intros E.
    apply (f_equal String.length) in E. rewrite Ht in E.
    cbn [String.length] in E. rewrite length_app in E.
    destruct a; cbn in E; lia. }
  unfold Outliner.axis_of_suffix. now rewrite !H by reflexivity.
Qed.

Lemma scale_attr_format (n : string) (a : Axis) :
  Outliner.scale_attr (format_scale n (axis_name a)) = Some (n, a).
Proof.
  unfold format_scale. induction n as [|c n IH].
  - destruct a; reflexivity.
  - change (String c n ++ ".s" ++ axis_name a)
      with (String c (n ++ ".s" ++ axis_name a)).
    cbn [Outliner.scale_attr]. now rewrite axis_of_suffix_long, IH.
Qed.

Lemma present_assoc (s : Outliner.Scene) (n : string) :
  Outliner.present s n = true ->
  exists nd, Stub.assoc n (Outliner.nodes s) = Some nd.
Proof.
  unfold Outliner.present. destruct (Stub.assoc n _) as [nd|];
    [now exists nd | discriminate].
Qed.

Lemma same_node_update (x n : string) (f : Outliner.Node -> Outliner.Node)
    (s : Outliner.Scene) (b : Stub.Scene) :
  x <> n ->
  same_node Outliner.present Outliner.points_of Outliner.scale_of x s
    (Outliner.mkScene b (Outliner.update n f (Outliner.nodes s))).
Proof.
  intros Hx.
  unfold same_node, Outliner.present, Outliner.points_of, Outliner.scale_of.
  cbn [Outliner.nodes]. rewrite (assoc_update_other x n f _ Hx).
  repeat split.
Qed.

Lemma get_set_scale (a b : Axis) (value : Z) (sc : Z * Z * Z) :
  Outliner.get_scale (Outliner.set_scale a value sc) b
  = if axis_eqb b a then value else Outliner.get_scale sc b.
Proof. destruct a, b; reflexivity. Qed.

(** The scene keeps the contract on duplicate, setAttr and makeIdentity. *)
Lemma outliner_contract :
  TransformContract Outliner.host Outliner.present Outliner.points_of
                    Outliner.scale_of.
Proof.
  constructor.
  - intros m n s v s' Hcall Hn.
    change (Outliner.host (cmds_duplicate m n) s)
      with (match Stub.assoc m (Outliner.nodes s) with
            | Some nd =>
                let n' := Outliner.unique_name s n in
                (inr (VList [VStr n']),
                 Outliner.mkScene
                   (Stub.set_objects (Outliner.base s)
                      ((n', "transform") :: Stub.objects (Outliner.base s)))
                   ((n', nd) :: Outliner.nodes s))
            | None => Outliner.no_node s
            end) in Hcall.
    destruct (Stub.assoc m (Outliner.nodes s)) as [nd|] eqn:Hnd;
      [|discriminate].
    unfold Outliner.unique_name in Hcall.
    rewrite Hn in Hcall. cbv zeta in Hcall.
    injection Hcall as _ <-.
    unfold same_node, Outliner.present, Outliner.points_of, Outliner.scale_of.
    cbn [Outliner.nodes Stub.assoc]. rewrite String.eqb_refl, ?Hnd.
    repeat split.
    all: rewrite (proj2 (String.eqb_neq x n)) by assumption; reflexivity.
  - intros n a value s v s' Hcall.
    change (Outliner.host (cmds_setAttr (format_scale n (axis_name a)) value) s)
      with (match Outliner.scale_attr (format_scale n (axis_name a)) with
            | Some (n, a) =>
                if Outliner.present s n then
                  (inr VNone,
                   Outliner.mkScene (Outliner.base s)
                     (Outliner.update n
                        (fun nd => (fst nd,
                                    Outliner.set_scale a value (snd nd)))
                        (Outliner.nodes s)))
                else Outliner.no_node s
            | None => Outliner.no_node s
            end) in Hcall.
    rewrite scale_attr_format in Hcall.
    destruct (Outliner.present s n) eqn:Hn; [|discriminate].
    injection Hcall as _ <-.
    destruct (present_assoc s n Hn) as [nd Hnd].
    split; [|split; [|split; [|split]]].
    + unfold Outliner.present. cbn [Outliner.nodes].
      now rewrite assoc_update_same, Hnd.
    + unfold Outliner.points_of. cbn [Outliner.nodes].
      now rewrite assoc_update_same, Hnd.
    + unfold Outliner.scale_of. cbn [Outliner.nodes].
      rewrite assoc_update_same, Hnd. cbn [option_map snd].
      rewrite get_set_scale. now destruct a.
    + intros b Hb. unfold Outliner.scale_of. cbn [Outliner.nodes].
      rewrite assoc_update_same, Hnd. cbn [option_map snd].
      rewrite get_set_scale.
      destruct (axis_eqb b a) eqn:E; [|reflexivity].
      apply axis_eqb_eq in E. contradiction.
    + intros x Hx. now apply same_node_update.
  - intros n s v s' Hcall.
    change (Outliner.host (cmds_makeIdentity_scale n) s)
      with (if Outliner.present s n then
              (inr VNone,
               Outliner.mkScene (Outliner.base s)
                 (Outliner.update n Outliner.freeze (Outliner.nodes s)))
            else Outliner.no_node s) in Hcall.
    destruct (Outliner.present s n) eqn:Hn; [|discriminate].
    injection Hcall as _ <-.
    destruct (present_assoc s n Hn) as [nd Hnd].
    split; [|split; [|split]].
    + unfold Outliner.present. cbn [Outliner.nodes].
      now rewrite assoc_update_same, Hnd.
    + unfold Outliner.points_of, Outliner.scale_of. cbn [Outliner.nodes].
      now rewrite assoc_update_same, Hnd.
    + intros a. unfold Outliner.scale_of. cbn [Outliner.nodes].
      rewrite assoc_update_same, Hnd. now destruct a.
    + intros x Hx. now apply same_node_update.
Qed.

End OutlinerFacts.

(** C3, as stated, fails twice.  On a name that holds "_l_" twice the
    function replaces both occurrences, not the first one only.  And on a
    name without "_l_" and "_r_" the returned name is the name of the mesh
    itself: the host gives the duplicate another name ("head1"), so the
    scale attribute that is set and frozen under the returned name is the
    one of the original; the duplicate keeps its scale and its points. *)
Lemma create_mirrored_mesh_not_as_claimed :
  (py_in "_l_" "brow_l_in_l_" = true /\
   outcome (run Stub.host (create_mirrored_mesh "brow_l_in_l_" "x")
                Stub.brow_scene) = Returned "brow_r_in_r_" /\
   replace_first "_l_" "_r_" "brow_l_in_l_" = "brow_r_in_l_" /\
   "brow_r_in_r_" <> replace_first "_l_" "_r_" "brow_l_in_l_") /\
  (let r := run Outliner.host (create_mirrored_mesh "head" "x")
                Outliner.head_scene in
   outcome r = Returned "head" /\
   replies r = [inr (VList [VStr "head1"]); inr VNone; inr VNone] /\
   map (fun e => Outliner.scale_of (ev_pre e) "head1" AxisX) (trace r)
     = [0; 1; 1] /\
   map (fun e => Outliner.scale_of (ev_pre e) "head" AxisX) (trace r)
     = [1; 1; -1] /\
   Outliner.points_of (final r) "head1"
     = Outliner.points_of Outliner.head_scene "head" /\
   Outliner.points_of Outliner.head_scene "head"
     = [Outliner.pt 2 0 0; Outliner.pt 0 1 0; Outliner.pt (-2) 0 5] /\
   Outliner.points_of (final r) "head"
     = [Outliner.pt (-2) 0 0; Outliner.pt 0 1 0; Outliner.pt 2 0 5]).
Proof.
  split.
  - split; [reflexivity|]. split; [reflexivity|]. split; [reflexivity|].
    vm_compute. discriminate.
  - repeat split.
Qed.

Section UnderTransformContract.

Context {S : Type} (h : Host S).
Context (present : S -> string -> bool).
Context (points_of : S -> string -> list (Q * Q * Q)).
Context (scale_of : S -> string -> Axis -> Z).
Hypothesis contract : TransformContract h present points_of scale_of.

Local Abbreviation same := (same_node present points_of scale_of).

Lemma same_node_trans (x : string) (s s' s'' : S) :
  same x s s' -> same x s' s'' -> same x s s''.
Proof.
  intros (P1 & Q1 & R1) (P2 & Q2 & R2). repeat split.
  - now rewrite P2.
  - now rewrite Q2.
  - intros a. now rewrite R2.
Qed.

(** What the three calls of [create_mirrored_mesh] do to the scene when the
    new name is free. *)
Lemma mirrored_states (mesh name : string) (a : Axis) (s s1 s2 s3 : S)
    (v1 v2 v3 : PyVal) :
  present s name = false ->
  h (cmds_duplicate mesh name) s = (inr v1, s1) ->
  h (cmds_setAttr (format_scale name (axis_name a)) (-1)) s1 = (inr v2, s2) ->
  h (cmds_makeIdentity_scale name) s2 = (inr v3, s3) ->
  (present s1 name = true /\ points_of s1 name = points_of s mesh /\
   forall b, scale_of s1 name b = scale_of s mesh b) /\
  (scale_of s2 name a = -1 /\
   forall b, b <> a -> scale_of s2 name b = scale_of s mesh b) /\
  (points_of s3 name
     = map (scaled (flipped a (scale_of s mesh))) (points_of s mesh) /\
   forall b, scale_of s3 name b = 1) /\
  forall x, x <> name -> same x s s3.
Proof.
  intros Hn H1 H2 H3.
  destruct (duplicate_ok _ _ _ _ contract _ _ _ _ _ H1 Hn)
    as (P1 & G1 & K1 & F1).
  destruct (setAttr_scale_ok _ _ _ _ contract _ _ _ _ _ _ H2)
    as (P2 & G2 & K2 & D2 & F2).
  destruct (makeIdentity_scale_ok _ _ _ _ contract _ _ _ _ H3)
    as (P3 & G3 & K3 & F3).
  split; [now repeat split|].
  split; [split; [exact K2|]|].
  { intros b Hb. now rewrite (D2 b Hb). }
  split; [split; [|exact K3]|].
  { rewrite G3, G2, G1. apply map_ext. intros p. apply scaled_ext.
    intros b. unfold flipped. destruct (axis_eqb b a) eqn:E.
    - apply axis_eqb_eq in E. now subst b.
    - rewrite D2; [apply K1|]. intros ->.
      now rewrite (proj2 (axis_eqb_eq a a) eq_refl) in E. }
  intros x Hx.
  apply (same_node_trans x s s2 s3); [|now apply F3].
  apply (same_node_trans x s s1 s2); [now apply F1 | now apply F2].
Qed.

(** C3, amended: for every mesh name and mirror axis,
    [create_mirrored_mesh] returns the name of the mesh with every
    occurrence of "_l_" replaced by "_r_" when "_l_" occurs in the name, and
    otherwise with every occurrence of "_r_" replaced by "_l_"; when no node
    of the returned name is in the scene yet, on a host that keeps the
    contract and accepts the calls, it duplicates the mesh under the
    returned name, sets the scale attribute of the duplicate along the given
    axis to -1 and freezes the scale of the duplicate: the duplicate ends
    with the points of the mesh, the one along the axis negated, and every
    other node is left as it was. *)
Theorem create_mirrored_mesh_spec (mesh : string) (a : Axis)
    (s s1 s2 s3 : S) (v1 v2 v3 : PyVal) :
  present s (new_name mesh) = false ->
  h (cmds_duplicate mesh (new_name mesh)) s = (inr v1, s1) ->
  h (cmds_setAttr (format_scale (new_name mesh) (axis_name a)) (-1)) s1
    = (inr v2, s2) ->
  h (cmds_makeIdentity_scale (new_name mesh)) s2 = (inr v3, s3) ->
  (if py_in "_l_" mesh
   then ReplacedAll "_l_" "_r_" mesh (new_name mesh)
   else ReplacedAll "_r_" "_l_" mesh (new_name mesh)) /\
  run h (create_mirrored_mesh mesh (axis_name a)) s
    = mkRun [mkEvent s (cmds_duplicate mesh (new_name mesh)) (inr v1);
             mkEvent s1 (cmds_setAttr
                           (new_name mesh ++ ".s" ++ axis_name a) (-1))
                        (inr v2);
             mkEvent s2 (cmds_makeIdentity_scale (new_name mesh)) (inr v3)]
            (Returned (new_name mesh)) s3 /\
  (present s1 (new_name mesh) = true /\
   points_of s1 (new_name mesh) = points_of s mesh /\
   forall b, scale_of s1 (new_name mesh) b = scale_of s mesh b) /\
  (scale_of s2 (new_name mesh) a = -1 /\
   forall b, b <> a -> scale_of s2 (new_name mesh) b = scale_of s mesh b) /\
  (points_of s3 (new_name mesh)
     = map (scaled (flipped a (scale_of s mesh))) (points_of s mesh) /\
   forall b, scale_of s3 (new_name mesh) b = 1) /\
  forall x, x <> new_name mesh -> same x s s3.
Proof.
  intros Hn H1 H2 H3.
  split.
  { unfold new_name.
    destruct (py_in "_l_" mesh); apply py_replace_all; discriminate. }
  split.
  { exact (create_mirrored_mesh_run h mesh (axis_name a) s s1 s2 s3 v1 v2 v3
             H1 H2 H3). }
  exact (mirrored_states mesh (new_name mesh) a s s1 s2 s3 v1 v2 v3
           Hn H1 H2 H3).
Qed.

End UnderTransformContract.

Lemma create_mirrored_mesh_spec_witness :
  let s := Outliner.cheek_scene in
  let s1 := snd (Outliner.host (cmds_duplicate "cheek_l_" "cheek_r_") s) in
  let s2 := snd (Outliner.host (cmds_setAttr "cheek_r_.sy" (-1)) s1) in
  let s3 := snd (Outliner.host (cmds_makeIdentity_scale "cheek_r_") s2) in
  outcome (run Outliner.host (create_mirrored_mesh "cheek_l_" "y") s)
    = Returned "cheek_r_" /\
  final (run Outliner.host (create_mirrored_mesh "cheek_l_" "y") s) = s3 /\
  Outliner.scale_of s2 "cheek_r_" AxisY = -1 /\
  Outliner.points_of s3 "cheek_r_"
    = map (scaled (flipped AxisY (Outliner.scale_of s "cheek_l_")))
          (Outliner.points_of s "cheek_l_") /\
  Outliner.points_of s3 "cheek_l_" = Outliner.points_of s "cheek_l_".
Proof.
  cbv zeta.
  edestruct (create_mirrored_mesh_spec Outliner.host Outliner.present
               Outliner.points_of Outliner.scale_of outliner_contract
               "cheek_l_" AxisY Outliner.cheek_scene)
    as (_ & Hrun & _ & (Hsc & _) & (Hpts & _) & Hrest).
  - reflexivity.
  - reflexivity.
  - reflexivity.
  - reflexivity.
  - split; [exact (f_equal outcome Hrun)|].
    split; [exact (f_equal final Hrun)|].
    split; [exact Hsc|]. split; [exact Hpts|].
    exact (proj1 (proj2 (Hrest "cheek_l_" ltac:(discriminate)))).
Defined.

(** C9: for a mesh name with neither "_l_" nor "_r_" in it,
    [create_mirrored_mesh] returns the input name, and the duplicate is
    requested under the name of the original mesh. *)
Theorem create_mirrored_mesh_same_name {S} (h : Host S)
    (mesh mirror_axis : string) (s s1 s2 s3 : S) (v1 v2 v3 : PyVal) :
  py_in "_l_" mesh = false ->
  py_in "_r_" mesh = false ->
  h (cmds_duplicate mesh mesh) s = (inr v1, s1) ->
  h (cmds_setAttr (format_scale mesh mirror_axis) (-1)) s1 = (inr v2, s2) ->
  h (cmds_makeIdentity_scale mesh) s2 = (inr v3, s3) ->
  new_name mesh = mesh /\
  outcome (run h (create_mirrored_mesh mesh mirror_axis) s) = Returned mesh /\
  hd_error (calls (run h (create_mirrored_mesh mesh mirror_axis) s))
    = Some (cmds_duplicate mesh mesh).
Proof.
  intros Hl Hr H1 H2 H3.
  assert (new_name mesh = mesh) as Hn.
  { unfold new_name. rewrite Hl. now apply py_replace_absent. }
  split; [assumption|].
  pose proof (create_mirrored_mesh_run h mesh mirror_axis s s1 s2 s3 v1 v2 v3)
    as Hrun.
  rewrite Hn in Hrun. rewrite (Hrun H1 H2 H3). split; reflexivity.
Qed.

Lemma create_mirrored_mesh_same_name_witness :
  new_name "head" = "head" /\
  outcome (run Stub.host (create_mirrored_mesh "head" "x") Stub.head_scene)
    = Returned "head" /\
  hd_error (calls (run Stub.host (create_mirrored_mesh "head" "x")
                       Stub.head_scene))
    = Some (cmds_duplicate "head" "head").
Proof.
  eapply (create_mirrored_mesh_same_name Stub.host "head" "x" Stub.head_scene);
    reflexivity.
Defined.

(* ================================================================== *)
(** ** [import_src_mesh] *)

(** The loop asks for the type of each node up to the first transform and
    returns that node, or the initial [mesh_name]. *)
Lemma import_loop_run {S} (h : Host S) (ty : PyVal -> PyVal)
    (nodes : list PyVal) (s : S) :
  (forall n, In n nodes -> h (cmds_nodeType n) s = (inr (ty n), s)) ->
  outcome (run h (import_loop nodes (VStr EmptyString)) s)
    = Returned (first_transform ty nodes) /\
  calls (run h (import_loop nodes (VStr EmptyString)) s)
    = map cmds_nodeType (visited ty nodes) /\
  final (run h (import_loop nodes (VStr EmptyString)) s) = s.
Proof.
  unfold first_transform, calls.
  induction nodes as [|n rest IH]; intros Hty.
  - simpl. repeat split.
  - cbn [import_loop].
    rewrite (run_step h _ _ s s (ty n)) by (apply Hty; now left).
    cbn [trace outcome final map find visited].
    destruct (py_eq_str (ty n) "transform").
    + simpl. repeat split.
    + destruct IH as (Ho & Hc & Hf); [intros m Hm; apply Hty; now right|].
      rewrite Ho, Hc, Hf. repeat split.
Qed.

(** C5: for every file path, [import_src_mesh] imports the file and returns
    the first of the newly created nodes whose type is "transform", and the
    empty string when none of them is a transform.  The host is one whose
    import hands back the list of the new nodes and whose [nodeType] query
    answers for each of them without changing the scene. *)
Theorem import_src_mesh_first_transform {S} (h : Host S) (ty : PyVal -> PyVal)
    (file_path : string) (nodes : list PyVal) (s s1 : S) :
  h (cmds_file_import file_path) s = (inr (VList nodes), s1) ->
  (forall n, In n nodes -> h (cmds_nodeType n) s1 = (inr (ty n), s1)) ->
  outcome (run h (import_src_mesh file_path) s)
    = Returned (first_transform ty nodes) /\
  calls (run h (import_src_mesh file_path) s)
    = cmds_file_import file_path :: map cmds_nodeType (visited ty nodes) /\
  final (run h (import_src_mesh file_path) s) = s1.
Proof.
  intros Hfile Hty. unfold import_src_mesh.
  rewrite (run_step h _ _ _ _ _ Hfile).
  cbn [py_iter lift bind].
  destruct (import_loop_run h ty nodes s1 Hty) as (Ho & Hc & Hf).
  unfold calls in *. cbn [trace outcome final map].
  rewrite Ho, Hc, Hf. repeat split.
Qed.

Lemma import_src_mesh_first_transform_witness :
  outcome (run Stub.host (import_src_mesh "/tmp/shapes/blend_l_.obj")
               Stub.head_scene)
    = Returned (VStr "blend_l_") /\
  outcome (run Stub.host (import_src_mesh "/tmp/shapes/blend_l_.obj")
               (Stub.set_objects Stub.brow_scene []))
    = Returned (VStr EmptyString).
Proof.
  split.
  - refine (proj1 (import_src_mesh_first_transform Stub.host
      (fun n => match n with
                | VStr "blend_l_" => VStr "transform"
                | _ => VStr "mesh"
                end)
      "/tmp/shapes/blend_l_.obj" [VStr "blend_l_Shape"; VStr "blend_l_"]
      Stub.head_scene _ eq_refl _)).
    intros n [<-|[<-|[]]]; reflexivity.
  - refine (proj1 (import_src_mesh_first_transform Stub.host
      (fun _ => VNone) "/tmp/shapes/blend_l_.obj" []
      (Stub.set_objects Stub.brow_scene []) _ eq_refl _)).
    intros n [].
Defined.

(* ================================================================== *)
(** ** The scene after [export_dest_mesh] and [transfer_vert_order] *)

Lemma stub_mem_false (x : string) (l : list string) :
  ~ In x l -> Stub.mem x l = false.
Proof.
  intros Hx. unfold Stub.mem.
  destruct (existsb (String.eqb x) l) eqn:E; [|reflexivity].
  apply existsb_exists in E as (y & Hy & Hxy).
  apply String.eqb_eq in Hxy. subst y. contradiction.
Qed.

(** The stand-in scene behaves as the contract says. *)
Lemma stub_host_contract :
  MayaContract Stub.host Stub.selection Stub.history Stub.edits.
Proof.
  constructor.
  - intros m s v s' H. cbn in H.
    destruct (Stub.exists_in s m); inversion H; subst.
    split; [reflexivity|]. intros x. split; reflexivity.
  - intros s v s' H. cbn in H. inversion H; subst.
    split; [reflexivity|]. intros x. split; reflexivity.
  - intros t s v s' H. cbn in H. inversion H; subst.
    split; [reflexivity|]. intros x. split; reflexivity.
  - intros p s v s' H. cbn in H. inversion H; subst.
    split; [reflexivity|]. intros x. split; reflexivity.
  - intros s v s' H. cbn in H. inversion H; subst.
    split; [reflexivity|]. intros x Hx. split; [reflexivity|].
    cbn. now rewrite (stub_mem_false x _ Hx).
  - intros m s v s' H. cbn in H.
    destruct (Stub.exists_in s m); inversion H; subst.
    split; [reflexivity|]. split.
    + cbn. now rewrite String.eqb_refl.
    + intros x Hx. split; [|reflexivity]. cbn.
      destruct (String.eqb m x) eqn:E; [|reflexivity].
      apply String.eqb_eq in E. congruence.
Qed.

Section UnderContract.

Context {S G : Type} (h : Host S).
Context (selected : S -> list string).
Context (history_of : S -> string -> list string).
Context (geometry_of : S -> string -> G).
Hypothesis contract : MayaContract h selected history_of geometry_of.

(** C6: for every mesh name and file path, on a host that accepts the calls,
    [export_dest_mesh] replaces the selection with the given mesh alone,
    exports the selection to the given path as OBJ with [force] on and
    without construction history -- the selection being that mesh alone when
    the export is issued -- and returns with the selection empty. *)
Theorem export_dest_mesh_spec (mesh file_path : string)
    (s s1 s2 s3 s4 : S) (v1 v2 v3 v4 : PyVal) :
  h (cmds_select_replace mesh) s = (inr v1, s1) ->
  h (Print file_path) s1 = (inr v2, s2) ->
  h (cmds_file_export file_path) s2 = (inr v3, s3) ->
  h cmds_select_deselect s3 = (inr v4, s4) ->
  run h (export_dest_mesh mesh file_path) s =
    mkRun [mkEvent s (cmds_select_replace mesh) (inr v1);
           mkEvent s1 (Print file_path) (inr v2);
           mkEvent s2
             (Cmds "file" [VStr file_path]
                [("type", VStr "OBJexport"); ("force", VBool true);
                 ("exportSelected", VBool true);
                 ("preserveReferences", VBool true);
                 ("constructionHistory", VBool false);
                 ("options",
                  VStr "groups=1;ptgroups=1;materials=0;smoothing=1;normals=1;")])
             (inr v3);
           mkEvent s3 cmds_select_deselect (inr v4)]
          (Returned tt) s4 /\
  selected s1 = [mesh] /\
  selected s2 = [mesh] /\
  selected s4 = [].
Proof.
  intros H1 H2 H3 H4. split; [|split; [|split]].
  - unfold export_dest_mesh.
    rewrite (run_step h _ _ _ _ _ H1).
    rewrite (run_step h _ _ _ _ _ H2).
    rewrite (run_step h _ _ _ _ _ H3).
    rewrite (run_step h _ _ _ _ _ H4).
    reflexivity.
  - exact (proj1 (select_replace_ok _ _ _ _ contract _ _ _ _ H1)).
  - rewrite (proj1 (print_ok _ _ _ _ contract _ _ _ _ H2)).
    exact (proj1 (select_replace_ok _ _ _ _ contract _ _ _ _ H1)).
  - exact (proj1 (select_deselect_ok _ _ _ _ contract _ _ _ H4)).
Qed.

(** The run of [transfer_vert_order] on a host that accepts its five
    calls. *)
Lemma transfer_vert_order_run (src_mesh dest_mesh : string)
    (a0 a1 a2 b0 b1 b2 : Z) (ra rb : list Z) (more : list (list Z))
    (s s1 s2 s3 s4 s5 : S) (v1 v2 v3 v4 v5 : PyVal) :
  h (cmds_meshRemap (format_vtx src_mesh a0) (format_vtx src_mesh a1)
                    (format_vtx src_mesh a2) (format_vtx dest_mesh b0)
                    (format_vtx dest_mesh b1) (format_vtx dest_mesh b2)) s
    = (inr v1, s1) ->
  h (cmds_select_replace dest_mesh) s1 = (inr v2, s2) ->
  h cmds_polyNormalPerVertex s2 = (inr v3, s3) ->
  h cmds_select_deselect s3 = (inr v4, s4) ->
  h (cmds_delete_history dest_mesh) s4 = (inr v5, s5) ->
  run h (transfer_vert_order src_mesh dest_mesh
           ((a0 :: a1 :: a2 :: ra) :: (b0 :: b1 :: b2 :: rb) :: more)) s =
    mkRun [mkEvent s
             (cmds_meshRemap (format_vtx src_mesh a0) (format_vtx src_mesh a1)
                (format_vtx src_mesh a2) (format_vtx dest_mesh b0)
                (format_vtx dest_mesh b1) (format_vtx dest_mesh b2)) (inr v1);
           mkEvent s1 (cmds_select_replace dest_mesh) (inr v2);
           mkEvent s2 cmds_polyNormalPerVertex (inr v3);
           mkEvent s3 cmds_select_deselect (inr v4);
           mkEvent s4 (cmds_delete_history dest_mesh) (inr v5)]
          (Returned tt) s5.
Proof.
  intros H1 H2 H3 H4 H5. unfold transfer_vert_order.
  cbn [index nth_error lift bind map].
  rewrite (run_step h _ _ _ _ _ H1).
  rewrite (run_step h _ _ _ _ _ H2).
  rewrite (run_step h _ _ _ _ _ H3).
  rewrite (run_step h _ _ _ _ _ H4).
  rewrite (run_step h _ _ _ _ _ H5).
  reflexivity.
Qed.

(** C10, amended: for every pair of meshes with different names and every
    pair of vertex-id triples, on a host that accepts the calls, after
    [transfer_vert_order] returns the selection is empty and the destination
    mesh has no construction history; the history and the geometry of the
    source mesh are what they were after the remap: the select, normal and
    delete steps leave them alone. *)
Theorem transfer_vert_order_frame (src_mesh dest_mesh : string)
    (a0 a1 a2 b0 b1 b2 : Z) (ra rb : list Z) (more : list (list Z))
    (s s1 s2 s3 s4 s5 : S) (v1 v2 v3 v4 v5 : PyVal) :
  src_mesh <> dest_mesh ->
  h (cmds_meshRemap (format_vtx src_mesh a0) (format_vtx src_mesh a1)
                    (format_vtx src_mesh a2) (format_vtx dest_mesh b0)
                    (format_vtx dest_mesh b1) (format_vtx dest_mesh b2)) s
    = (inr v1, s1) ->
  h (cmds_select_replace dest_mesh) s1 = (inr v2, s2) ->
  h cmds_polyNormalPerVertex s2 = (inr v3, s3) ->
  h cmds_select_deselect s3 = (inr v4, s4) ->
  h (cmds_delete_history dest_mesh) s4 = (inr v5, s5) ->
  outcome (run h (transfer_vert_order src_mesh dest_mesh
             ((a0 :: a1 :: a2 :: ra) :: (b0 :: b1 :: b2 :: rb) :: more)) s)
    = Returned tt /\
  final (run h (transfer_vert_order src_mesh dest_mesh
           ((a0 :: a1 :: a2 :: ra) :: (b0 :: b1 :: b2 :: rb) :: more)) s)
    = s5 /\
  selected s5 = [] /\
  history_of s5 dest_mesh = [] /\
  history_of s5 src_mesh = history_of s1 src_mesh /\
  geometry_of s5 src_mesh = geometry_of s1 src_mesh.
Proof.
  intros Hne H1 H2 H3 H4 H5.
  rewrite (transfer_vert_order_run src_mesh dest_mesh a0 a1 a2 b0 b1 b2 ra rb
             more s s1 s2 s3 s4 s5 v1 v2 v3 v4 v5) by assumption.
  cbn [outcome final].
  destruct (select_replace_ok _ _ _ _ contract _ _ _ _ H2) as [Hsel2 Hun2].
  destruct (polyNormalPerVertex_ok _ _ _ _ contract _ _ _ H3) as [_ Hun3].
  destruct (select_deselect_ok _ _ _ _ contract _ _ _ H4) as [Hsel4 Hun4].
  destruct (delete_history_ok _ _ _ _ contract _ _ _ _ H5)
    as (Hsel5 & Hhist5 & Hun5).
  assert (~ In src_mesh (selected s2)) as Hnot.
  { rewrite Hsel2. intros [E|[]]. congruence. }
  destruct (Hun2 src_mesh) as [Hh2 Hg2].
  destruct (Hun3 src_mesh Hnot) as [Hh3 Hg3].
  destruct (Hun4 src_mesh) as [Hh4 Hg4].
  destruct (Hun5 src_mesh Hne) as [Hh5 Hg5].
  repeat split.
  - now rewrite Hsel5.
  - assumption.
  - now rewrite Hh5, Hh4, Hh3, Hh2.
  - now rewrite Hg5, Hg4, Hg3, Hg2.
Qed.

End UnderContract.

Lemma export_dest_mesh_spec_witness :
  Stub.selection
    (final (run Stub.host (export_dest_mesh "cheek_l_" "/tmp/shapes/cheek_l_")
                Stub.cheek_scene)) = [] /\
  Stub.exported
    (final (run Stub.host (export_dest_mesh "cheek_l_" "/tmp/shapes/cheek_l_")
                Stub.cheek_scene)) = [("/tmp/shapes/cheek_l_", ["cheek_l_"])].
Proof.
  pose proof (export_dest_mesh_spec Stub.host Stub.selection Stub.history
                Stub.edits stub_host_contract "cheek_l_" "/tmp/shapes/cheek_l_"
                Stub.cheek_scene _ _ _ _ _ _ _ _
                eq_refl eq_refl eq_refl eq_refl) as (Hrun & _ & _ & Hsel).
  rewrite Hrun. split; [exact Hsel | reflexivity].
Defined.

(** C10, as stated, fails when the two meshes are one: [build] passes the
    same name twice for a mesh with neither "_l_" nor "_r_" in its name, and
    the delete step then removes the history of the source mesh. *)
Lemma transfer_vert_order_same_mesh :
  new_name "head" = "head" /\
  outcome (run Stub.host
             (transfer_vert_order "head" "head" [[4; 5; 3]; [4; 5; 9]])
             Stub.head_scene) = Returned tt /\
  Stub.history
    (snd (Stub.host (cmds_meshRemap "head.vtx[4]" "head.vtx[5]" "head.vtx[3]"
                       "head.vtx[4]" "head.vtx[5]" "head.vtx[9]")
                    Stub.head_scene)) "head" = ["meshRemap"; "polySmooth1"] /\
  Stub.history
    (final (run Stub.host
              (transfer_vert_order "head" "head" [[4; 5; 3]; [4; 5; 9]])
              Stub.head_scene)) "head" = [].
Proof. repeat split. Qed.

Lemma transfer_vert_order_frame_witness :
  "cheek_l_" <> "cheek_r_" /\
  Stub.selection
    (final (run Stub.host
              (transfer_vert_order "cheek_l_" "cheek_r_" [[4; 5; 3]; [4; 5; 9]])
              (snd (Stub.host (cmds_duplicate "cheek_l_" "cheek_r_")
                              Stub.cheek_scene)))) = [] /\
  Stub.history
    (final (run Stub.host
              (transfer_vert_order "cheek_l_" "cheek_r_" [[4; 5; 3]; [4; 5; 9]])
              (snd (Stub.host (cmds_duplicate "cheek_l_" "cheek_r_")
                              Stub.cheek_scene)))) "cheek_l_"
    = ["polySmooth1"].
Proof.
  assert ("cheek_l_" <> "cheek_r_") as Hne by discriminate.
  split; [exact Hne|].
  pose proof (transfer_vert_order_frame Stub.host Stub.selection Stub.history
                Stub.edits stub_host_contract "cheek_l_" "cheek_r_"
                4 5 3 4 5 9 [] [] []
                (snd (Stub.host (cmds_duplicate "cheek_l_" "cheek_r_")
                                Stub.cheek_scene))
                _ _ _ _ _ _ _ _ _ _
                Hne eq_refl eq_refl eq_refl eq_refl eq_refl)
    as (_ & Hfin & Hsel & _ & Hh & _).
  rewrite Hfin. split; [exact Hsel | exact Hh].
Defined.

(* ================================================================== *)
(** ** [build] and the mirror axis *)

(** The checked radio button reaches nothing but the returned widget. *)
Lemma build_same_calls (self : Gui) (a : Axis) :
  same_calls (build (set_mirror_axis self a)) (build self).
Proof.
  unfold build.
  change (build_locals (set_mirror_axis self a)) with (build_locals self).
  apply same_calls_bind; intros locals.
  apply same_calls_bind; intros mesh.
  apply same_calls_bind; intros new_mesh.
  apply same_calls_bind; intros central_vert.
  apply same_calls_bind; intros needed_verts.
  apply same_calls_bind; intros _.
  unfold build_export, browse_directory. cbn.
  destruct (export_cbox self); [|exact I].
  split; [reflexivity|]. intros isdir.
  destruct (py_truthy isdir).
  - cbn. repeat (split; [reflexivity|]; intros ?). exact I.
  - cbn. split; [reflexivity|]. intros d.
    destruct d; cbn; try reflexivity.
    repeat (split; [reflexivity|]; intros ?). exact I.
Qed.

(** C8: on a mesh whose name holds neither "_l_" nor "_r_", [build] does not
    flip the duplicated mesh.  With "head.vtx[4]" in the textfield, whichever
    axis button is checked, the duplicate is requested under the name of the
    original; the host names it "head1"; the one setAttr of the run is on
    "head.sx"; and when [build] returns, the duplicate "head1" has the
    points the original had, while the original "head" is the one that is
    flipped across x. *)
Theorem build_flips_the_original (a : Axis) :
  let self := Outliner.preview_gui "head" a in
  let r := run Outliner.host (build self) Outliner.head_scene in
  outcome r = Returned self /\
  firstn 4 (calls r)
    = [cmds_objExists "head.vtx[4]"; cmds_duplicate "head" "head";
       cmds_setAttr "head.sx" (-1); cmds_makeIdentity_scale "head"] /\
  nth_error (replies r) 1 = Some (inr (VList [VStr "head1"])) /\
  filter is_setAttr (calls r) = [cmds_setAttr "head.sx" (-1)] /\
  Outliner.nodes Outliner.head_scene
    = [("head", ([Outliner.pt 2 0 0; Outliner.pt 0 1 0; Outliner.pt (-2) 0 5],
                 (1, 1, 1)))] /\
  Outliner.nodes (final r)
    = [("head1", ([Outliner.pt 2 0 0; Outliner.pt 0 1 0; Outliner.pt (-2) 0 5],
                  (1, 1, 1)));
       ("head", ([Outliner.pt (-2) 0 0; Outliner.pt 0 1 0; Outliner.pt 2 0 5],
                 (1, 1, 1)))].
Proof. destruct a; repeat split. Qed.

(** With the y button checked, the duplicate is still flipped along x. *)
Example build_y_checked :
  mirror_axis_cbox Stub.fresh_gui = AxisY /\
  xform_names (calls (run Stub.host (build Stub.fresh_gui) Stub.cheek_scene))
    = ["cheek_l_.vtx[5]"; "cheek_l_.vtx[3]"; "cheek_l_.vtx[9]"] /\
  filter is_setAttr
         (calls (run Stub.host (build Stub.fresh_gui) Stub.cheek_scene))
    = [cmds_setAttr "cheek_r_.sx" (-1)] /\
  Stub.exported
    (final (run Stub.host (build Stub.fresh_gui) Stub.cheek_scene))
    = [("/tmp/shapes/cheek_r_", ["cheek_r_"])].
Proof. repeat split. Qed.

(* ================================================================== *)
(** ** [build] when no vertex is given *)

(** With the textfield empty and an empty selection, the subscript on the
    reply of [ls] raises before anything is logged. *)
Lemma build_empty_selection {S} (h : Host S) (self : Gui) (s s' : S) :
  vert_textfield self = EmptyString ->
  h cmds_ls_selection s = (inr (VList []), s') ->
  run h (build self) s =
  mkRun [mkEvent s cmds_ls_selection (inr (VList []))] (Raised IndexError) s'.
Proof.
  intros Htext Hls. unfold build, build_locals.
  rewrite Htext. cbn [String.eqb].
  rewrite run_bind.
  rewrite (run_step h _ _ _ _ _ Hls).
  reflexivity.
Qed.

(** The log of the empty-textfield branch is reached only through a first
    selected item that is falsy, such as an empty string; [build] then goes
    on to read the unbound [mesh]. *)
Lemma build_falsy_selection {S} (h : Host S) (self : Gui) (s s1 s2 : S)
    (rest : list PyVal) (v : PyVal) :
  vert_textfield self = EmptyString ->
  h cmds_ls_selection s = (inr (VList (VStr EmptyString :: rest)), s1) ->
  h (LogError msg_no_vertex) s1 = (inr v, s2) ->
  run h (build self) s =
  mkRun [mkEvent s cmds_ls_selection (inr (VList (VStr EmptyString :: rest)));
         mkEvent s1 (LogError msg_no_vertex) (inr v)]
        (Raised (UnboundLocalError "mesh")) s2.
Proof.
  intros Htext Hls Hlog. unfold build, build_locals.
  rewrite Htext. cbn [String.eqb].
  rewrite run_bind.
  rewrite (run_step h _ _ _ _ _ Hls).
  cbn [py_getitem index nth_error lift bind py_truthy].
  rewrite (run_step h _ _ _ _ _ Hlog).
  reflexivity.
Qed.

(** With a textfield that names no object, [build] logs the error and stops
    at the unbound [mesh]: the existence query and the log are its only
    calls. *)
Lemma build_missing_object {S} (h : Host S) (self : Gui) (s s1 s2 : S)
    (v : PyVal) :
  vert_textfield self <> EmptyString ->
  h (cmds_objExists (vert_textfield self)) s = (inr (VBool false), s1) ->
  h (LogError msg_not_exists) s1 = (inr v, s2) ->
  run h (build self) s =
  mkRun [mkEvent s (cmds_objExists (vert_textfield self)) (inr (VBool false));
         mkEvent s1 (LogError msg_not_exists) (inr v)]
        (Raised (UnboundLocalError "mesh")) s2.
Proof.
  intros Htext Hex Hlog. unfold build, build_locals.
  apply String.eqb_neq in Htext. rewrite Htext.
  rewrite run_bind.
  rewrite (run_step h _ _ _ _ _ Hex).
  cbn [py_eq_False negb].
  rewrite (run_step h _ _ _ _ _ Hlog).
  reflexivity.
Qed.

(** C4, at the failing input: the textfield is empty and nothing is
    selected.  [build] asks for the selection and raises IndexError on its
    first element: it issues no other call, so nothing is duplicated,
    remapped or exported and the scene is as it was, but no error is
    logged. *)
Theorem build_nothing_selected :
  vert_textfield Stub.fresh_gui = EmptyString /\
  Stub.selection Stub.head_scene = [] /\
  calls (run Stub.host (build Stub.fresh_gui) Stub.head_scene)
    = [cmds_ls_selection] /\
  outcome (run Stub.host (build Stub.fresh_gui) Stub.head_scene)
    = Raised IndexError /\
  existsb is_LogError
    (calls (run Stub.host (build Stub.fresh_gui) Stub.head_scene)) = false /\
  final (run Stub.host (build Stub.fresh_gui) Stub.head_scene)
    = Stub.head_scene.
Proof.
  rewrite (build_empty_selection Stub.host Stub.fresh_gui Stub.head_scene
             Stub.head_scene eq_refl eq_refl).
  repeat split.
Qed.

(** The other state of C4 behaves as claimed: a typed-in vertex that does
    not exist is logged and nothing else happens. *)
Example build_typo :
  calls (run Stub.host (build Stub.typo_gui) Stub.head_scene)
    = [cmds_objExists "nose.vtx[1]"; LogError msg_not_exists] /\
  outcome (run Stub.host (build Stub.typo_gui) Stub.head_scene)
    = Raised (UnboundLocalError "mesh") /\
  final (run Stub.host (build Stub.typo_gui) Stub.head_scene)
    = Stub.head_scene.
Proof.
  rewrite (build_missing_object Stub.host Stub.typo_gui Stub.head_scene
             Stub.head_scene Stub.head_scene VNone);
    [repeat split | discriminate | reflexivity | reflexivity].
Qed.

(** With the textfield empty and an object selected that is no vertex,
    [build] takes the object's name for the vertex and duplicates it before
    [src_verts] fails on the missing vertex number. *)
Example build_object_selected :
  calls (run Stub.host (build Stub.fresh_gui)
             (Stub.set_selection Stub.head_scene ["head"]))
    = [cmds_ls_selection; cmds_ls_selection;
       cmds_duplicate "head" "head";
       cmds_setAttr "head.sx" (-1);
       cmds_makeIdentity_scale "head";
       cmds_listRelatives_shapes "head"] /\
  outcome (run Stub.host (build Stub.fresh_gui)
               (Stub.set_selection Stub.head_scene ["head"]))
    = Raised ValueError.
Proof. split; reflexivity. Qed.

(* ================================================================== *)
(** ** [src_verts] *)

(** *** The second loop of [src_verts], in general *)

Section PickFacts.

Lemma Qltb_false_of_le (a b : Q) : Qle b a -> Qltb a b = false.
Proof. unfold Qle, Qltb. intros H. apply Z.ltb_ge. exact H. Qed.

Lemma coord_x (pts : list (Q * Q * Q)) (num : nat) (p : Q * Q * Q) :
  nth_error pts num = Some p -> coord (map position pts) num 0 = inr (px p).
Proof.
  intros H. unfold coord, index.
  rewrite nth_error_map, H. reflexivity.
Qed.

Lemma coord_y (pts : list (Q * Q * Q)) (num : nat) (p : Q * Q * Q) :
  nth_error pts num = Some p -> coord (map position pts) num 1 = inr (py p).
Proof.
  intros H. unfold coord, index.
  rewrite nth_error_map, H. reflexivity.
Qed.

(** An iteration over a vertex that is not further along x than
    [side_check_hi] leaves [side_check_hi] and [side_vert_src] alone. *)
Lemma pick_step_keeps (vert_ids : list Z) (pts : list (Q * Q * Q))
    (st : Pick) (num : nat) (p : Q * Q * Q) (v : Z) :
  nth_error pts num = Some p ->
  nth_error vert_ids num = Some v ->
  Qle (px p) (side_check_hi st) ->
  exists st',
    pick_step vert_ids (map position pts) st num = inr st' /\
    side_check_hi st' = side_check_hi st /\
    side_vert_src st' = side_vert_src st.
Proof.
  intros Hp Hv Hle. unfold pick_step.
  rewrite (coord_y pts num p Hp), (coord_x pts num p Hp).
  unfold index. rewrite Hv. cbn [res_bind].
  destruct (Qltb (up_check st) (py p)); cbn [res_bind side_check_hi];
    rewrite (Qltb_false_of_le _ _ Hle);
    destruct (Qltb (px p) _); eexists; repeat split.
Qed.

Lemma pick_loop_keeps (vert_ids : list Z) (pts : list (Q * Q * Q))
    (nums : list nat) (st : Pick) :
  List.length vert_ids = List.length pts ->
  (forall num, In num nums -> (num < List.length pts)%nat) ->
  (forall p, In p pts -> Qle (px p) (side_check_hi st)) ->
  exists st',
    pick_loop vert_ids (map position pts) nums st = inr st' /\
    side_check_hi st' = side_check_hi st /\
    side_vert_src st' = side_vert_src st.
Proof.
  intros Hlen. revert st.
  induction nums as [|num rest IH]; intros st Hnums Hle; cbn [pick_loop].
  - exists st. repeat split.
  - assert (num < List.length pts)%nat as Hnum by (apply Hnums; now left).
    destruct (nth_error pts num) as [p|] eqn:Hp;
      [|apply nth_error_None in Hp; lia].
    destruct (nth_error vert_ids num) as [v|] eqn:Hv;
      [|apply nth_error_None in Hv; lia].
    destruct (pick_step_keeps vert_ids pts st num p v Hp Hv)
      as (st1 & Hstep & Hhi & Hsrc).
    { apply Hle. eapply nth_error_In. exact Hp. }
    rewrite Hstep. cbn [res_bind].
    destruct (IH st1) as (st' & Hloop & Hhi' & Hsrc').
    { intros n Hn. apply Hnums. now right. }
    { intros q Hq. rewrite Hhi. now apply Hle. }
    exists st'. rewrite Hloop, Hhi', Hsrc', Hhi, Hsrc. repeat split.
Qed.

(** Whenever the first connected vertex is the one furthest along x, the
    loop ends with [side_vert_src] at its initial value 0, whatever the
    vertex ids are. *)
Lemma pick_first_rightmost (v0 : Z) (vs : list Z) (p0 : Q * Q * Q)
    (ps : list (Q * Q * Q)) :
  List.length vs = List.length ps ->
  (forall p, In p ps -> Qle (px p) (px p0)) ->
  exists st,
    pick (v0 :: vs) (map position (p0 :: ps)) = inr st /\
    side_vert_src st = 0.
Proof.
  intros Hlen Hle. unfold pick, pick_init.
  rewrite (coord_y (p0 :: ps) 0 p0 eq_refl), (coord_x (p0 :: ps) 0 p0 eq_refl).
  cbn [index nth_error res_bind].
  destruct (pick_loop_keeps (v0 :: vs) (p0 :: ps)
              (seq 0 (List.length (v0 :: vs)))
              (mkPick (py p0) v0 (px p0) (px p0) 0 0))
    as (st & Hloop & _ & Hsrc).
  - simpl. now rewrite Hlen.
  - intros num Hnum. apply in_seq in Hnum. simpl in *. lia.
  - intros p [<-|Hp]; cbn [side_check_hi]; [apply Qle_refl | now apply Hle].
  - exists st. split; [exact Hloop | exact Hsrc].
Qed.

End PickFacts.

(** C2, at the failing input: vertex 4 of "head" has the neighbours 3, 5, 7
    and 9, and the first of them, 3, is the one with the greatest x.
    [src_verts] returns 0 as the source-side vertex -- the value
    [side_vert_src] starts with -- which is not a neighbour at all.  And for
    a mesh whose name holds the digits of the central vertex ("head4",
    vertex 4) the position query goes to "head3.vtx[3]", a vertex of
    another mesh name. *)
Theorem src_verts_first_neighbour_rightmost :
  outcome (run Stub.host (src_verts "head.vtx[4]" "x") Stub.head_scene)
    = Returned [[4; 5; 0]; [4; 5; 9]] /\
  xform_names (calls (run Stub.host (src_verts "head.vtx[4]" "x")
                          Stub.head_scene))
    = ["head.vtx[3]"; "head.vtx[5]"; "head.vtx[7]"; "head.vtx[9]"] /\
  greatest_x [3; 5; 7; 9]
    [inject_Z 2; inject_Z 0; inject_Z 0; inject_Z (-2)] 3 /\
  ~ In 0 [3; 5; 7; 9] /\
  xform_names (calls (run Stub.host (src_verts "head4.vtx[4]" "x")
                          Stub.head4_scene))
    = ["head3.vtx[3]"].
Proof.
  split; [reflexivity|]. split; [reflexivity|]. split; [|split].
  - exists 0%nat, (inject_Z 2). split; [reflexivity|]. split; [reflexivity|].
    intros y [<-|[<-|[<-|[<-|[]]]]]; unfold Qle; simpl; lia.
  - intros [H|[H|[H|[H|[]]]]]; discriminate H.
  - reflexivity.
Qed.

(* ================================================================== *)
(** ** What the second loop of [src_verts] picks *)

Lemma Qltb_lt (a b : Q) : Qltb a b = true <-> Qlt a b.
Proof. unfold Qltb, Qlt. apply Z.ltb_lt. Qed.

Lemma Qltb_ge (a b : Q) : Qltb a b = false <-> Qle b a.
Proof. unfold Qltb, Qle. apply Z.ltb_ge. Qed.

(** One iteration, for a vertex with a well-formed position. *)
Lemma pick_step_eq (vert_ids : list Z) (pts : list (Q * Q * Q))
    (st : Pick) (num : nat) (p : Q * Q * Q) (v : Z) :
  nth_error pts num = Some p ->
  nth_error vert_ids num = Some v ->
  pick_step vert_ids (map position pts) st num =
  inr (mkPick
         (if Qltb (up_check st) (py p) then py p else up_check st)
         (if Qltb (up_check st) (py p) then v else up_vert st)
         (if Qltb (side_check_hi st) (px p) then px p else side_check_hi st)
         (if Qltb (side_check_hi st) (px p) then side_check_lo st
          else if Qltb (px p) (side_check_lo st) then px p
               else side_check_lo st)
         (if Qltb (side_check_hi st) (px p) then v else side_vert_src st)
         (if Qltb (side_check_hi st) (px p) then side_vert_dest st
          else if Qltb (px p) (side_check_lo st) then v
               else side_vert_dest st)).
Proof.
  intros Hp Hv. unfold pick_step.
  rewrite (coord_y pts num p Hp), (coord_x pts num p Hp).
  unfold index. rewrite Hv. cbn [res_bind].
  destruct st as [uc uv hi lo sv dv]. cbn.
  destruct (Qltb uc (py p)); cbn;
    destruct (Qltb hi (px p)); cbn; try reflexivity;
    destruct (Qltb (px p) lo); reflexivity.
Qed.

Section Scan.

(** A running choice of the best entry: [best] and [who] are the two
    variables of the loop that hold the best value so far and its vertex,
    [val] is the coordinate looked at, [J] what the loop keeps besides. *)
Variable r : Q -> Q -> bool.
Hypothesis r_irrefl : forall a, r a a = false.
Hypothesis r_trans : forall a b c, r a b = true -> r b c = true -> r a c = true.
Hypothesis r_neg_trans :
  forall a b c, r a b = false -> r b c = false -> r a c = false.

Variable val : Q * Q * Q -> Q.
Variable best : Pick -> Q.
Variable who : Pick -> Z.
Variable J : Pick -> Prop.
Variable vert_ids : list Z.
Variable pts : list (Q * Q * Q).
Variable w0 : Z.

Hypothesis same_length : List.length vert_ids = List.length pts.

Hypothesis step_ok : forall st num p v,
  nth_error pts num = Some p ->
  nth_error vert_ids num = Some v ->
  J st ->
  exists st',
    pick_step vert_ids (map position pts) st num = inr st' /\
    J st' /\
    best st' = (if r (best st) (val p) then val p else best st) /\
    who st' = (if r (best st) (val p) then v else who st).

Local Abbreviation inv := (scan_inv r val best who J vert_ids pts w0).

Lemma scan_again (m num : nat) (st : Pick) :
  (num < m)%nat -> (m <= List.length pts)%nat -> inv m st ->
  exists st',
    pick_step vert_ids (map position pts) st num = inr st' /\ inv m st'.
Proof.
  intros Hnum Hm (HJ & i & Hfb & Hbest & Hw0 & Hw).
  destruct (nth_error pts num) as [p|] eqn:Hp;
    [|apply nth_error_None in Hp; lia].
  destruct (nth_error vert_ids num) as [v|] eqn:Hv;
    [|apply nth_error_None in Hv; lia].
  destruct (step_ok st num p v Hp Hv HJ) as (st' & Hstep & HJ' & Hb & Hwho).
  exists st'. split; [exact Hstep|].
  assert (r (best st) (val p) = false) as Hr.
  { destruct Hfb as (_ & x & Hx & Hall & _).
    rewrite Hx in Hbest. injection Hbest as <-.
    apply (Hall num); [exact Hnum|]. rewrite nth_error_map, Hp. reflexivity. }
  rewrite Hr in Hb, Hwho.
  split; [exact HJ'|]. exists i. rewrite Hb, Hwho.
  split; [exact Hfb | split; [exact Hbest | split; assumption]].
Qed.

Lemma scan_next (m : nat) (st : Pick) :
  (m < List.length pts)%nat -> inv m st ->
  exists st',
    pick_step vert_ids (map position pts) st m = inr st' /\ inv (S m) st'.
Proof.
  intros Hm (HJ & i & Hfb & Hbest & Hw0 & Hw).
  destruct (nth_error pts m) as [p|] eqn:Hp;
    [|apply nth_error_None in Hp; lia].
  destruct (nth_error vert_ids m) as [v|] eqn:Hv;
    [|apply nth_error_None in Hv; lia].
  destruct (step_ok st m p v Hp Hv HJ) as (st' & Hstep & HJ' & Hb & Hwho).
  exists st'. split; [exact Hstep|]. split; [exact HJ'|].
  destruct Hfb as (Him & x & Hx & Hall & Hbefore).
  assert (x = best st) as -> by congruence.
  assert (nth_error (map val pts) m = Some (val p)) as Hvm
    by (rewrite nth_error_map, Hp; reflexivity).
  destruct (r (best st) (val p)) eqn:Hr.
  - (* the new entry beats the best so far *)
    exists m. rewrite Hb, Hwho. split; [|split; [exact Hvm|split]].
    + split; [lia|]. exists (val p). split; [exact Hvm|]. split.
      * intros j y Hj Hy.
        destruct (Nat.eq_dec j m) as [->|Hjm].
        -- rewrite Hvm in Hy. injection Hy as <-. apply r_irrefl.
        -- destruct (r (val p) y) eqn:E; [|reflexivity].
           rewrite <- (Hall j y ltac:(lia) Hy). symmetry.
           now apply (r_trans _ (val p)).
      * intros j y Hj Hy.
        destruct (r y (val p)) eqn:E; [reflexivity|].
        rewrite <- Hr. symmetry.
        apply (r_neg_trans _ y); [apply (Hall j); [lia|exact Hy] | exact E].
    + intros ->. lia.
    + intros _. exact Hv.
  - (* the best so far stays *)
    exists i. rewrite Hb, Hwho.
    split; [|split; [exact Hx | split; assumption]].
    split; [lia|]. exists (best st). split; [exact Hx|]. split.
    + intros j y Hj Hy.
      destruct (Nat.eq_dec j m) as [->|Hjm].
      * rewrite Hvm in Hy. injection Hy as <-. exact Hr.
      * apply (Hall j); [lia|exact Hy].
    + exact Hbefore.
Qed.

Lemma scan_from (k m : nat) (st : Pick) :
  (m + k <= List.length pts)%nat -> inv m st ->
  exists st',
    pick_loop vert_ids (map position pts) (seq m k) st = inr st' /\
    inv (m + k) st'.
Proof.
  revert m st. induction k as [|k IH]; intros m st Hm Hinv; cbn [seq pick_loop].
  - exists st. rewrite Nat.add_0_r. now split.
  - destruct (scan_next m st ltac:(lia) Hinv) as (st1 & Hstep & Hinv1).
    rewrite Hstep. cbn [res_bind].
    destruct (IH (S m) st1 ltac:(lia) Hinv1) as (st' & Hloop & Hinv').
    exists st'. split; [exact Hloop|].
    now replace (m + S k)%nat with (S m + k)%nat by lia.
Qed.

(** The whole loop, entered with the first entry as the best so far. *)
Lemma scan_all (st : Pick) :
  pts <> [] ->
  inv 1 st ->
  exists st',
    pick_loop vert_ids (map position pts) (seq 0 (List.length vert_ids)) st
      = inr st' /\
    inv (List.length pts) st'.
Proof.
  intros Hne Hinv. rewrite same_length.
  assert (exists n, List.length pts = S n) as [n Hl].
  { destruct (List.length pts) as [|n] eqn:E;
      [apply length_zero_iff_nil in E; contradiction | now exists n]. }
  rewrite Hl. cbn [seq pick_loop].
  destruct (scan_again 1 0 st ltac:(lia) ltac:(lia) Hinv)
    as (st1 & Hstep & Hinv1).
  rewrite Hstep. cbn [res_bind].
  destruct (scan_from n 1 st1 ltac:(lia) Hinv1) as (st' & Hloop & Hinv').
  exists st'. split; [exact Hloop|]. exact Hinv'.
Qed.

End Scan.

Section PickResults.

Lemma Qltb_irrefl (a : Q) : Qltb a a = false.
Proof. apply Qltb_ge. apply Qle_refl. Qed.

Lemma Qltb_trans (a b c : Q) :
  Qltb a b = true -> Qltb b c = true -> Qltb a c = true.
Proof.
  rewrite !Qltb_lt. apply Qlt_trans.
Qed.

Lemma Qltb_neg_trans (a b c : Q) :
  Qltb a b = false -> Qltb b c = false -> Qltb a c = false.
Proof.
  rewrite !Qltb_ge. intros Hba Hcb. now apply (Qle_trans _ b).
Qed.

(** An entry of a list sits at an index below the length. *)
Lemma In_nth_error_lt {A} (l : list A) (y : A) :
  In y l -> exists j, (j < List.length l)%nat /\ nth_error l j = Some y.
Proof.
  intros Hy. apply In_nth_error in Hy as [j Hj]. exists j. split; [|exact Hj].
  apply nth_error_Some. congruence.
Qed.

Lemma first_best_greatest (xs : list Q) (i : nat) :
  first_best Qltb xs (List.length xs) i -> first_greatest xs i.
Proof.
  intros (_ & x & Hx & Hall & Hbefore). exists x. split; [exact Hx|]. split.
  - intros y Hy. apply In_nth_error_lt in Hy as (j & Hj & Hjy).
    apply Qltb_ge. now apply (Hall j).
  - intros j y Hj Hy. apply Qltb_lt. now apply (Hbefore j).
Qed.

Lemma first_best_least (xs : list Q) (i : nat) :
  first_best (fun a b => Qltb b a) xs (List.length xs) i -> first_least xs i.
Proof.
  intros (_ & x & Hx & Hall & Hbefore). exists x. split; [exact Hx|]. split.
  - intros y Hy. apply In_nth_error_lt in Hy as (j & Hj & Hjy).
    apply Qltb_ge. now apply (Hall j).
  - intros j y Hj Hy. apply Qltb_lt. now apply (Hbefore j).
Qed.

Variable vert_ids : list Z.
Variable pts : list (Q * Q * Q).
Hypothesis same_length : List.length vert_ids = List.length pts.
Hypothesis some_neighbour : pts <> [].

(** The state the loop is entered with. *)
Lemma pick_init_eq :
  exists v0 p0,
    nth_error vert_ids 0 = Some v0 /\ nth_error pts 0 = Some p0 /\
    pick_init vert_ids (map position pts)
      = inr (mkPick (py p0) v0 (px p0) (px p0) 0 0).
Proof.
  destruct (nth_error pts 0) as [p0|] eqn:Hp.
  2: { apply nth_error_None in Hp.
       assert (List.length pts = 0%nat) as E by lia.
       apply length_zero_iff_nil in E. contradiction. }
  destruct (nth_error vert_ids 0) as [v0|] eqn:Hv.
  - exists v0, p0. repeat split. unfold pick_init.
    rewrite (coord_y pts 0 p0 Hp), (coord_x pts 0 p0 Hp).
    unfold index. rewrite Hv. reflexivity.
  - apply nth_error_None in Hv. rewrite same_length in Hv.
    assert (nth_error pts 0 <> None) as Hn by congruence.
    apply nth_error_Some in Hn. lia.
Qed.

End PickResults.

(** The loop ends, and [up_vert] is where the greatest y comes first. *)
Lemma pick_up_vert_aux (vert_ids : list Z) (pts : list (Q * Q * Q)) :
  List.length vert_ids = List.length pts ->
  pts <> [] ->
  exists st i,
    pick vert_ids (map position pts) = inr st /\
    first_greatest (map py pts) i /\
    nth_error vert_ids i = Some (up_vert st).
Proof.
  intros Hlen Hne.
  destruct (pick_init_eq vert_ids pts Hlen Hne) as (v0 & p0 & Hv0 & Hp0 & Hinit).
  unfold pick. rewrite Hinit. cbn [res_bind].
  destruct (scan_all Qltb Qltb_irrefl Qltb_trans Qltb_neg_trans
              py up_check up_vert (fun _ => True) vert_ids pts v0 Hlen)
    with (st := mkPick (py p0) v0 (px p0) (px p0) 0 0)
    as (st & Hloop & _ & i & Hfb & _ & Hi0 & Hi).
  - intros st num p v Hp Hv _. eexists. split; [apply pick_step_eq; eassumption|].
    repeat split.
  - exact Hne.
  - split; [exact I|]. exists 0%nat.
    assert (nth_error (map py pts) 0 = Some (py p0)) as Hy
      by (rewrite nth_error_map, Hp0; reflexivity).
    split; [|split; [exact Hy | split; [reflexivity | congruence]]].
    split; [lia|]. exists (py p0). split; [exact Hy|]. split.
    + intros j y Hj Hjy. assert (j = 0%nat) as -> by lia.
      rewrite Hy in Hjy. injection Hjy as <-. apply Qltb_irrefl.
    + intros j y Hj. lia.
  - exists st, i. split; [exact Hloop|]. split.
    + apply first_best_greatest. now rewrite length_map.
    + destruct (Nat.eq_dec i 0) as [->|Hn]; [|now apply Hi].
      rewrite Hi0 by reflexivity. exact Hv0.
Qed.

(** X1: for neighbours with well-formed positions, the loop of [src_verts]
    ends and [up_vert] is the first neighbour whose y is the greatest. *)
Theorem pick_up_vert (vert_ids : list Z) (pts : list (Q * Q * Q)) :
  List.length vert_ids = List.length pts ->
  pts <> [] ->
  exists st i,
    pick vert_ids (map position pts) = inr st /\
    first_greatest (map py pts) i /\
    nth_error vert_ids i = Some (up_vert st).
Proof. intros; eapply pick_up_vert_aux; eassumption. Qed.

Lemma pick_up_vert_witness :
  exists st i,
    pick [3; 5; 7; 9]
         (map position [(inject_Z 2, inject_Z 0, inject_Z 0);
                        (inject_Z 0, inject_Z 1, inject_Z 0);
                        (inject_Z 0, inject_Z (-1), inject_Z 0);
                        (inject_Z (-2), inject_Z 0, inject_Z 0)]) = inr st /\
    first_greatest (map py [(inject_Z 2, inject_Z 0, inject_Z 0);
                            (inject_Z 0, inject_Z 1, inject_Z 0);
                            (inject_Z 0, inject_Z (-1), inject_Z 0);
                            (inject_Z (-2), inject_Z 0, inject_Z 0)]) i /\
    nth_error [3; 5; 7; 9] i = Some (up_vert st).
Proof.
  apply pick_up_vert; [reflexivity | discriminate].
Defined.

(** X2: for neighbours with well-formed positions, [side_vert_src] is the
    first neighbour whose x is the greatest, unless that is the very first
    neighbour: then it is 0. *)
Theorem pick_side_vert_src (vert_ids : list Z) (pts : list (Q * Q * Q)) :
  List.length vert_ids = List.length pts ->
  pts <> [] ->
  exists st i,
    pick vert_ids (map position pts) = inr st /\
    first_greatest (map px pts) i /\
    (i = O -> side_vert_src st = 0) /\
    (i <> O -> nth_error vert_ids i = Some (side_vert_src st)).
Proof.
  intros Hlen Hne.
  destruct (pick_init_eq vert_ids pts Hlen Hne) as (v0 & p0 & Hv0 & Hp0 & Hinit).
  unfold pick. rewrite Hinit. cbn [res_bind].
  destruct (scan_all Qltb Qltb_irrefl Qltb_trans Qltb_neg_trans
              px side_check_hi side_vert_src (fun _ => True) vert_ids pts 0 Hlen)
    with (st := mkPick (py p0) v0 (px p0) (px p0) 0 0)
    as (st & Hloop & _ & i & Hfb & _ & Hi0 & Hi).
  - intros st num p v Hp Hv _. eexists. split; [apply pick_step_eq; eassumption|].
    repeat split.
  - exact Hne.
  - split; [exact I|]. exists 0%nat.
    assert (nth_error (map px pts) 0 = Some (px p0)) as Hx
      by (rewrite nth_error_map, Hp0; reflexivity).
    split; [|split; [exact Hx | split; [reflexivity | congruence]]].
    split; [lia|]. exists (px p0). split; [exact Hx|]. split.
    + intros j y Hj Hjy. assert (j = 0%nat) as -> by lia.
      rewrite Hx in Hjy. injection Hjy as <-. apply Qltb_irrefl.
    + intros j y Hj. lia.
  - exists st, i. split; [exact Hloop|]. split; [|split; assumption].
    apply first_best_greatest. now rewrite length_map.
Qed.

Lemma pick_side_vert_src_witness :
  exists st i,
    pick [5; 3; 9]
         (map position [(inject_Z 0, inject_Z 1, inject_Z 0);
                        (inject_Z 2, inject_Z 0, inject_Z 0);
                        (inject_Z (-2), inject_Z 0, inject_Z 0)]) = inr st /\
    first_greatest (map px [(inject_Z 0, inject_Z 1, inject_Z 0);
                            (inject_Z 2, inject_Z 0, inject_Z 0);
                            (inject_Z (-2), inject_Z 0, inject_Z 0)]) i /\
    (i = O -> side_vert_src st = 0) /\
    (i <> O -> nth_error [5; 3; 9] i = Some (side_vert_src st)).
Proof.
  apply pick_side_vert_src; [reflexivity | discriminate].
Defined.

(** The step keeps [side_check_lo] below [side_check_hi], so the [elif] of
    the loop never hides a new least x. *)
Lemma pick_step_lo (vert_ids : list Z) (pts : list (Q * Q * Q))
    (st : Pick) (num : nat) (p : Q * Q * Q) (v : Z) :
  nth_error pts num = Some p ->
  nth_error vert_ids num = Some v ->
  Qle (side_check_lo st) (side_check_hi st) ->
  exists st',
    pick_step vert_ids (map position pts) st num = inr st' /\
    Qle (side_check_lo st') (side_check_hi st') /\
    side_check_lo st' =
      (if Qltb (px p) (side_check_lo st) then px p else side_check_lo st) /\
    side_vert_dest st' =
      (if Qltb (px p) (side_check_lo st) then v else side_vert_dest st).
Proof.
  intros Hp Hv Hle. eexists. split; [apply pick_step_eq; eassumption|].
  cbn [side_check_lo side_check_hi side_vert_dest].
  destruct (Qltb (side_check_hi st) (px p)) eqn:Ehi.
  - apply Qltb_lt in Ehi.
    assert (Qltb (px p) (side_check_lo st) = false) as ->.
    { apply Qltb_ge. apply Qlt_le_weak.
      now apply (Qle_lt_trans _ (side_check_hi st)). }
    repeat split. apply Qlt_le_weak.
    now apply (Qle_lt_trans _ (side_check_hi st)).
  - apply Qltb_ge in Ehi.
    destruct (Qltb (px p) (side_check_lo st)) eqn:Elo; repeat split.
    + exact Ehi.
    + exact Hle.
Qed.

(** X3: for neighbours with well-formed positions, [side_vert_dest] is the
    first neighbour whose x is the least, unless that is the very first
    neighbour: then it is 0. *)
Theorem pick_side_vert_dest (vert_ids : list Z) (pts : list (Q * Q * Q)) :
  List.length vert_ids = List.length pts ->
  pts <> [] ->
  exists st i,
    pick vert_ids (map position pts) = inr st /\
    first_least (map px pts) i /\
    (i = O -> side_vert_dest st = 0) /\
    (i <> O -> nth_error vert_ids i = Some (side_vert_dest st)).
Proof.
  intros Hlen Hne.
  destruct (pick_init_eq vert_ids pts Hlen Hne) as (v0 & p0 & Hv0 & Hp0 & Hinit).
  unfold pick. rewrite Hinit. cbn [res_bind].
  destruct (scan_all (fun a b => Qltb b a) Qltb_irrefl
              (fun a b c Hab Hbc => Qltb_trans c b a Hbc Hab)
              (fun a b c Hab Hbc => Qltb_neg_trans c b a Hbc Hab)
              px side_check_lo side_vert_dest
              (fun st => Qle (side_check_lo st) (side_check_hi st))
              vert_ids pts 0 Hlen)
    with (st := mkPick (py p0) v0 (px p0) (px p0) 0 0)
    as (st & Hloop & _ & i & Hfb & _ & Hi0 & Hi).
  - intros st num p v Hp Hv HJ. now apply pick_step_lo.
  - exact Hne.
  - split; [apply Qle_refl|]. exists 0%nat.
    assert (nth_error (map px pts) 0 = Some (px p0)) as Hx
      by (rewrite nth_error_map, Hp0; reflexivity).
    split; [|split; [exact Hx | split; [reflexivity | congruence]]].
    split; [lia|]. exists (px p0). split; [exact Hx|]. split.
    + intros j y Hj Hjy. assert (j = 0%nat) as -> by lia.
      rewrite Hx in Hjy. injection Hjy as <-. apply Qltb_irrefl.
    + intros j y Hj. lia.
  - exists st, i. split; [exact Hloop|]. split; [|split; assumption].
    apply first_best_least. now rewrite length_map.
Qed.

Lemma pick_side_vert_dest_witness :
  exists st i,
    pick [5; 3; 9]
         (map position [(inject_Z 0, inject_Z 1, inject_Z 0);
                        (inject_Z 2, inject_Z 0, inject_Z 0);
                        (inject_Z (-2), inject_Z 0, inject_Z 0)]) = inr st /\
    first_least (map px [(inject_Z 0, inject_Z 1, inject_Z 0);
                         (inject_Z 2, inject_Z 0, inject_Z 0);
                         (inject_Z (-2), inject_Z 0, inject_Z 0)]) i /\
    (i = O -> side_vert_dest st = 0) /\
    (i <> O -> nth_error [5; 3; 9] i = Some (side_vert_dest st)).
Proof.
  apply pick_side_vert_dest; [reflexivity | discriminate].
Defined.

(* ================================================================== *)
(** ** The name of the mirrored mesh *)

Lemma app_same_length_inj (a b x y : string) :
  String.length a = String.length b -> a ++ x = b ++ y -> a = b.
Proof.
  revert b. induction a as [|c a IH]; intros [|d b] Hlen Heq;
    simpl in *; try discriminate; [reflexivity|].
  injection Heq as -> Heq. f_equal. apply IH; [lia | exact Heq].
Qed.

(** Replacing a pattern that occurs by a different string of the same length
    changes the string. *)
Lemma py_replace_differs (old new s : string) :
  String.length old = String.length new ->
  old <> new ->
  py_in old s = true ->
  py_replace old new s <> s.
Proof.
  intros Hlen Hne.
  assert (old <> EmptyString) as Hold.
  { intros ->. destruct new; [congruence | discriminate]. }
  induction s as [|c s IH]; intros Hin.
  - destruct old; [congruence | discriminate].
  - destruct (starts_with old (String c s)) eqn:Hp.
    + apply starts_with_split in Hp. rewrite Hp at 1.
      rewrite py_replace_hit by assumption. rewrite Hp at 2.
      intros Heq. apply app_same_length_inj in Heq; congruence.
    + rewrite py_replace_keep by assumption.
      simpl in Hin. rewrite Hp in Hin. simpl in Hin.
      intros Heq. injection Heq as Heq. now apply IH.
Qed.

(** X4: [create_mirrored_mesh] asks for the duplicate under the name of the
    original exactly when the name holds neither "_l_" nor "_r_"; with
    either tag in the name the new name differs from the original. *)
Theorem new_name_same_iff (mesh : string) :
  new_name mesh = mesh <->
  py_in "_l_" mesh = false /\ py_in "_r_" mesh = false.
Proof.
  split.
  - intros Heq. unfold new_name in Heq.
    destruct (py_in "_l_" mesh) eqn:Hl.
    + exfalso. revert Heq.
      apply py_replace_differs; [reflexivity | discriminate | exact Hl].
    + split; [reflexivity|].
      destruct (py_in "_r_" mesh) eqn:Hr; [|reflexivity].
      exfalso. revert Heq.
      apply py_replace_differs; [reflexivity | discriminate | exact Hr].
  - intros [Hl Hr]. unfold new_name. rewrite Hl.
    now apply py_replace_absent.
Qed.

Lemma new_name_same_iff_witness : new_name "head" = "head".
Proof. apply (proj2 (new_name_same_iff "head")). split; reflexivity. Defined.

(* ================================================================== *)
(** ** [transfer_vert_order] with too few vertex ids *)

(** X5: when [vertex_ids] has fewer than two lists, or one of the first two
    lists has fewer than three ids, [transfer_vert_order] raises IndexError
    before it issues any call: the scene is not touched. *)
Theorem transfer_vert_order_short {S} (h : Host S) (src_mesh dest_mesh : string)
    (vertex_ids : list (list Z)) (s : S) :
  (List.length vertex_ids < 2)%nat \/
  (List.length (nth 0 vertex_ids []) < 3)%nat \/
  (List.length (nth 1 vertex_ids []) < 3)%nat ->
  run h (transfer_vert_order src_mesh dest_mesh vertex_ids) s
    = mkRun [] (Raised IndexError) s.
Proof.
  intros H. unfold transfer_vert_order.
  destruct vertex_ids as [|ids0 [|ids1 more]];
    [reflexivity | reflexivity |].
  cbn [index nth_error lift bind].
  destruct ids0 as [|a0 [|a1 [|a2 ra]]]; try reflexivity;
    destruct ids1 as [|b0 [|b1 [|b2 rb]]]; try reflexivity.
  simpl in H. lia.
Qed.

Lemma transfer_vert_order_short_witness :
  run Stub.host (transfer_vert_order "cheek_l_" "cheek_r_" [[4; 5; 3]; [4; 5]])
      Stub.cheek_scene
    = mkRun [] (Raised IndexError) Stub.cheek_scene.
Proof.
  apply transfer_vert_order_short. right. right. simpl. lia.
Defined.

(* ================================================================== *)
(** ** Vertex names: written by [transfer_vert_order], read by [src_verts] *)

Section Numerals.

Lemma digits_go_uint (d : Decimal.uint) (acc : Z) (b : bool) :
  d <> Decimal.Nil \/ b = true ->
  digits_go acc b (NilEmpty.string_of_uint d) = Some (uint_val d acc).
Proof.
  revert acc b.
  induction d as [|d IH|d IH|d IH|d IH|d IH|d IH|d IH|d IH|d IH|d IH];
    intros acc b H.
  - destruct H as [H| ->]; [congruence | reflexivity].
  - cbn. apply IH. now right.
  - cbn. apply IH. now right.
  - cbn. apply IH. now right.
  - cbn. apply IH. now right.
  - cbn. apply IH. now right.
  - cbn. apply IH. now right.
  - cbn. apply IH. now right.
  - cbn. apply IH. now right.
  - cbn. apply IH. now right.
  - cbn. apply IH. now right.
Qed.

Lemma uint_val_pos (d : Decimal.uint) (acc : positive) :
  uint_val d (Zpos acc) = Zpos (Pos.of_uint_acc d acc).
Proof.
  revert acc.
  induction d as [|d IH|d IH|d IH|d IH|d IH|d IH|d IH|d IH|d IH|d IH];
    intros acc; cbn [uint_val Pos.of_uint_acc]; [reflexivity|..];
    rewrite <- IH; f_equal; lia.
Qed.

Lemma uint_val_0 (d : Decimal.uint) : uint_val d 0 = Z.of_N (Pos.of_uint d).
Proof.
  induction d as [|d IH|d IH|d IH|d IH|d IH|d IH|d IH|d IH|d IH|d IH];
    cbn [uint_val Pos.of_uint]; [reflexivity | exact IH |..];
    cbn [Z.of_N]; rewrite <- uint_val_pos; reflexivity.
Qed.

Lemma uint_val_to_uint (p : positive) : uint_val (Pos.to_uint p) 0 = Zpos p.
Proof.
  rewrite uint_val_0, DecimalPos.Unsigned.of_to. reflexivity.
Qed.

Lemma string_of_uint_digits (d : Decimal.uint) :
  all_chars is_digit (NilEmpty.string_of_uint d) = true.
Proof.
  induction d as [|d IH|d IH|d IH|d IH|d IH|d IH|d IH|d IH|d IH|d IH];
    cbn; [reflexivity|..]; exact IH.
Qed.

Lemma string_of_uint_nonnil (d : Decimal.uint) :
  d <> Decimal.Nil -> NilZero.string_of_uint d = NilEmpty.string_of_uint d.
Proof. destruct d; [congruence|..]; reflexivity. Qed.

Lemma all_chars_weaken (P R : ascii -> bool) (s : string) :
  (forall c, P c = true -> R c = true) ->
  all_chars P s = true -> all_chars R s = true.
Proof.
  intros HPR. induction s as [|c s IH]; cbn; [reflexivity|].
  intros H. apply andb_true_iff in H as [Hc Hs].
  now rewrite (HPR c Hc), IH.
Qed.

Lemma all_chars_app (P : ascii -> bool) (s t : string) :
  all_chars P (s ++ t) = all_chars P s && all_chars P t.
Proof.
  induction s as [|c s IH]; cbn; [reflexivity|].
  now rewrite IH, andb_assoc.
Qed.

(** [str(n)] is a non-empty string of digits, with a minus sign in front for
    a negative [n]. *)
Lemma py_str_int_chars (n : Z) : all_chars numeral_char (py_str_int n) = true.
Proof.
  unfold py_str_int.
  destruct n as [|p|p]; cbn [Z.to_int NilZero.string_of_int].
  - reflexivity.
  - rewrite string_of_uint_nonnil by apply DecimalPos.Unsigned.to_uint_nonnil.
    apply (all_chars_weaken is_digit); [|apply string_of_uint_digits].
    intros c Hc. unfold numeral_char. now rewrite Hc.
  - rewrite string_of_uint_nonnil by apply DecimalPos.Unsigned.to_uint_nonnil.
    cbn [all_chars]. apply andb_true_iff. split; [reflexivity|].
    apply (all_chars_weaken is_digit); [|apply string_of_uint_digits].
    intros c Hc. unfold numeral_char. now rewrite Hc.
Qed.

Lemma py_str_int_nonempty (n : Z) : py_str_int n <> EmptyString.
Proof.
  unfold py_str_int.
  destruct n as [|p|p]; cbn [Z.to_int NilZero.string_of_int];
    [discriminate | | discriminate].
  pose proof (DecimalPos.Unsigned.to_uint_nonnil p) as Hp.
  destruct (Pos.to_uint p); [congruence|..]; discriminate.
Qed.

Lemma numeral_char_not_space (c : ascii) :
  numeral_char c = true -> is_space c = false.
Proof.
  unfold numeral_char, is_digit, is_space. intros H.
  apply orb_true_iff in H as [H|H].
  - apply andb_true_iff in H as [H1 H2].
    apply Nat.leb_le in H1, H2. cbv zeta.
    rewrite (proj2 (Nat.leb_gt (nat_of_ascii c) 13)) by lia.
    rewrite (proj2 (Nat.eqb_neq (nat_of_ascii c) 32)) by lia.
    rewrite (proj2 (Nat.eqb_neq (nat_of_ascii c) 133)) by lia.
    rewrite (proj2 (Nat.eqb_neq (nat_of_ascii c) 160)) by lia.
    now rewrite !andb_false_r.
  - apply Ascii.eqb_eq in H. subst c. reflexivity.
Qed.

Lemma lstrip_numeral (s : string) :
  all_chars numeral_char s = true -> lstrip s = s.
Proof.
  destruct s as [|c s]; cbn; [reflexivity|].
  intros H. apply andb_true_iff in H as [Hc _].
  now rewrite (numeral_char_not_space c Hc).
Qed.

Lemma rstrip_numeral (s : string) :
  all_chars numeral_char s = true -> rstrip s = s.
Proof.
  induction s as [|c s IH]; cbn; [reflexivity|].
  intros H. apply andb_true_iff in H as [Hc Hs].
  rewrite (IH Hs), (numeral_char_not_space c Hc).
  now destruct s.
Qed.

(** A numeral that starts with a digit carries no sign. *)
Lemma py_int_unsigned (c : ascii) (rest : string) :
  is_digit c = true ->
  all_chars numeral_char (String c rest) = true ->
  py_int (String c rest) = digits_go 0 false (String c rest).
Proof.
  intros Hc Hall. unfold py_int.
  rewrite (lstrip_numeral _ Hall), (rstrip_numeral _ Hall).
  destruct c as [[|] [|] [|] [|] [|] [|] [|] [|]];
    try discriminate Hc; reflexivity.
Qed.

(** [int(str(n))] is [n]. *)
Lemma py_int_str (n : Z) : py_int (py_str_int n) = Some n.
Proof.
  pose proof (py_str_int_chars n) as Hall. revert Hall.
  unfold py_str_int.
  destruct n as [|p|p]; cbn [Z.to_int NilZero.string_of_int].
  - reflexivity.
  - pose proof (DecimalPos.Unsigned.to_uint_nonnil p) as Hp.
    rewrite string_of_uint_nonnil by assumption. intros Hall.
    assert (digits_go 0 false (NilEmpty.string_of_uint (Pos.to_uint p))
            = Some (Zpos p)) as Hd.
    { rewrite digits_go_uint by (now left). now rewrite uint_val_to_uint. }
    rewrite <- Hd.
    pose proof (string_of_uint_digits (Pos.to_uint p)) as Hdig.
    destruct (NilEmpty.string_of_uint (Pos.to_uint p)) as [|c rest] eqn:E.
    + discriminate Hd.
    + apply py_int_unsigned; [|exact Hall].
      cbn in Hdig. now apply andb_true_iff in Hdig as [Hdig _].
  - pose proof (DecimalPos.Unsigned.to_uint_nonnil p) as Hp.
    rewrite string_of_uint_nonnil by assumption. intros Hall.
    unfold py_int.
    rewrite (lstrip_numeral _ Hall), (rstrip_numeral _ Hall).
    rewrite digits_go_uint by (now left). now rewrite uint_val_to_uint.
Qed.

End Numerals.

Section Splitting.

Variable c : ascii.

(** [split] on one character, one step at a time. *)
Lemma py_split_cons (a : ascii) (s : string) :
  py_split (String c EmptyString) (String a s) =
  if Ascii.eqb c a then EmptyString :: py_split (String c EmptyString) s
  else match py_split (String c EmptyString) s with
       | h :: t => String a h :: t
       | [] => [String a EmptyString]
       end.
Proof.
  unfold py_split. cbn [split_go starts_with String.length Nat.pred].
  rewrite andb_true_r. reflexivity.
Qed.

Lemma py_split_nonempty (s : string) :
  py_split (String c EmptyString) s <> [].
Proof.
  induction s as [|a s IH]; [discriminate|].
  rewrite py_split_cons.
  destruct (Ascii.eqb c a); [discriminate|].
  destruct (py_split (String c EmptyString) s); discriminate.
Qed.

(** Without the separator in it, a string is its own single piece. *)
Lemma py_split_absent (s : string) :
  has_char c s = false -> py_split (String c EmptyString) s = [s].
Proof.
  induction s as [|a s IH]; cbn [has_char]; intros H; [reflexivity|].
  apply orb_false_iff in H as [Ha Hs].
  rewrite py_split_cons, Ha, (IH Hs). reflexivity.
Qed.

(** The pieces of [s ++ c ++ t] are pieces that end in [s], then the pieces
    of [t]. *)
Lemma py_split_app (s t : string) :
  exists l,
    l <> [] /\
    py_split (String c EmptyString) (s ++ String c t)
      = (l ++ py_split (String c EmptyString) t)%list /\
    (has_char c s = false -> l = [s]).
Proof.
  induction s as [|a s (l & Hl & Heq & Hone)].
  - exists [EmptyString]. split; [discriminate|]. split; [|reflexivity].
    cbn [append]. rewrite py_split_cons, Ascii.eqb_refl. reflexivity.
  - cbn [append]. rewrite py_split_cons, Heq.
    destruct (Ascii.eqb c a) eqn:Ea.
    + exists (EmptyString :: l). split; [discriminate|]. split; [reflexivity|].
      cbn [has_char]. rewrite Ea. discriminate.
    + destruct l as [|h l']; [congruence|].
      exists (String a h :: l'). split; [discriminate|]. split; [reflexivity|].
      cbn [has_char]. rewrite Ea. cbn [orb]. intros Hs.
      specialize (Hone Hs). injection Hone as -> ->. reflexivity.
Qed.

Lemma last_app_nonempty (l l' : list string) :
  l' <> [] -> PyStr.last (l ++ l')%list = PyStr.last l'.
Proof.
  intros Hl'. unfold PyStr.last.
  induction l as [|x l IH]; [reflexivity|].
  cbn [app]. destruct (l ++ l')%list eqn:E.
  - destruct l; [cbn in E; congruence | discriminate].
  - cbn [List.last]. exact IH.
Qed.

(** [s.split(c)[-1]] is what follows the last [c]. *)
Lemma py_split_last (s t : string) :
  has_char c t = false ->
  PyStr.last (py_split (String c EmptyString) (s ++ String c t)) = t.
Proof.
  intros Ht. destruct (py_split_app s t) as (l & _ & -> & _).
  rewrite last_app_nonempty by apply py_split_nonempty.
  now rewrite py_split_absent.
Qed.

(** [s.split(c)[0]] is what precedes the first [c]. *)
Lemma py_split_first (s t : string) :
  has_char c s = false ->
  PyStr.first (py_split (String c EmptyString) (s ++ String c t)) = s.
Proof.
  intros Hs. destruct (py_split_app s t) as (l & _ & -> & Hone).
  rewrite (Hone Hs). reflexivity.
Qed.

End Splitting.

Lemma has_char_app (c : ascii) (s t : string) :
  has_char c (s ++ t) = has_char c s || has_char c t.
Proof.
  induction s as [|a s IH]; cbn; [reflexivity|].
  now rewrite IH, orb_assoc.
Qed.

Lemma has_char_all_chars (P : ascii -> bool) (c : ascii) (s : string) :
  all_chars P s = true -> P c = false -> has_char c s = false.
Proof.
  intros Hall Hc. induction s as [|a s IH]; cbn in *; [reflexivity|].
  apply andb_true_iff in Hall as [Ha Hs].
  rewrite (IH Hs), orb_false_r.
  destruct (Ascii.eqb c a) eqn:E; [|reflexivity].
  apply Ascii.eqb_eq in E. congruence.
Qed.

(** Reading back the vertex number of a written name. *)
Lemma parse_vert_num_format_vtx_aux (mesh : string) (n : Z) :
  parse_vert_num (format_vtx mesh n) = inr n.
Proof.
  pose proof (py_str_int_chars n) as Hn.
  unfold parse_vert_num, format_vtx.
  change (mesh ++ ".vtx[" ++ py_str_int n ++ "]")
    with (mesh ++ String "." ("vtx" ++ String "[" (py_str_int n ++ "]"))).
  rewrite py_split_last.
  2: { rewrite has_char_app. cbn [has_char Ascii.eqb Bool.eqb orb].
       rewrite has_char_app. cbn [has_char Ascii.eqb Bool.eqb orb].
       rewrite orb_false_r.
       apply (has_char_all_chars numeral_char); [exact Hn | reflexivity]. }
  rewrite py_split_last.
  2: { rewrite has_char_app. cbn [has_char Ascii.eqb Bool.eqb orb].
       rewrite orb_false_r.
       apply (has_char_all_chars numeral_char); [exact Hn | reflexivity]. }
  change (py_str_int n ++ "]") with (py_str_int n ++ String "]" EmptyString).
  rewrite py_split_first
    by (apply (has_char_all_chars numeral_char); [exact Hn | reflexivity]).
  now rewrite py_int_str.
Qed.

(** X6: the vertex number that [src_verts] reads from a name written as
    [transfer_vert_order] writes it, [<mesh>.vtx[<n>]], is [n], for every
    mesh name and every integer. *)
Theorem parse_vert_num_format_vtx (mesh : string) (n : Z) :
  parse_vert_num (format_vtx mesh n) = inr n.
Proof. intros; eapply parse_vert_num_format_vtx_aux; eassumption. Qed.

(** Reading back the mesh of a written name. *)
Lemma mesh_of_format_vtx_aux (mesh : string) (n : Z) :
  has_char "." mesh = false ->
  PyStr.first (py_split "." (format_vtx mesh n)) = mesh.
Proof.
  intros Hm. unfold format_vtx.
  change (mesh ++ ".vtx[" ++ py_str_int n ++ "]")
    with (mesh ++ String "." ("vtx[" ++ py_str_int n ++ "]")).
  now apply py_split_first.
Qed.

(** X7: for a mesh name without a dot, the mesh that [src_verts] and [build]
    read from the vertex name [<mesh>.vtx[<n>]] is that mesh name. *)
Theorem mesh_of_format_vtx (mesh : string) (n : Z) :
  has_char "." mesh = false ->
  PyStr.first (py_split "." (format_vtx mesh n)) = mesh.
Proof. intros; eapply mesh_of_format_vtx_aux; eassumption. Qed.

Lemma mesh_of_format_vtx_witness :
  PyStr.first (py_split "." (format_vtx "cheek_l_" 4)) = "cheek_l_".
Proof. apply mesh_of_format_vtx. reflexivity. Defined.

Section QueryNames.

(** A numeral that matches at the front of [m ++ c ++ t], for a character
    [c] that no numeral holds, matches inside [m]. *)
Lemma starts_with_cut (old m : string) (c : ascii) (t : string) :
  all_chars numeral_char old = true ->
  numeral_char c = false ->
  starts_with old (m ++ String c t) = true ->
  starts_with old m = true.
Proof.
  revert m. induction old as [|a old IH]; intros m Hall Hc H; [reflexivity|].
  cbn in Hall. apply andb_true_iff in Hall as [Ha Hold].
  destruct m as [|b m]; cbn in H |- *.
  - apply andb_true_iff in H as [Hac _].
    apply Ascii.eqb_eq in Hac. congruence.
  - apply andb_true_iff in H as [Hab H]. rewrite Hab. cbn.
    now apply IH.
Qed.

Lemma starts_with_other (old : string) (c : ascii) (t : string) :
  old <> EmptyString ->
  all_chars numeral_char old = true ->
  numeral_char c = false ->
  starts_with old (String c t) = false.
Proof.
  intros Hne Hall Hc. destruct old as [|a old]; [congruence|].
  cbn in Hall |- *. apply andb_true_iff in Hall as [Ha _].
  destruct (Ascii.eqb a c) eqn:E; [|reflexivity].
  apply Ascii.eqb_eq in E. congruence.
Qed.

(** Where the numeral does not occur in [m], [replace] copies [m]. *)
Lemma py_replace_prefix (old new m : string) (c : ascii) (t : string) :
  all_chars numeral_char old = true ->
  numeral_char c = false ->
  py_in old m = false ->
  py_replace old new (m ++ String c t) = m ++ py_replace old new (String c t).
Proof.
  intros Hall Hc. induction m as [|a m IH]; intros Hin; [reflexivity|].
  cbn in Hin. apply orb_false_iff in Hin as [Hp Hin].
  cbn [append]. rewrite py_replace_keep.
  - now rewrite IH.
  - destruct (starts_with old (String a (m ++ String c t))) eqn:E;
      [|reflexivity].
    apply (starts_with_cut old (String a m) c t Hall Hc) in E. congruence.
Qed.

(** The name built for a neighbour. *)
Lemma neighbour_name_aux (mesh : string) (vert_num each : Z) :
  py_in (py_str_int vert_num) mesh = false ->
  py_replace (py_str_int vert_num) (py_str_int each) (format_vtx mesh vert_num)
    = format_vtx mesh each.
Proof.
  intros Hin.
  pose proof (py_str_int_chars vert_num) as Hall.
  pose proof (py_str_int_nonempty vert_num) as Hne.
  unfold format_vtx.
  change (mesh ++ ".vtx[" ++ py_str_int vert_num ++ "]")
    with (mesh ++ String "." ("vtx[" ++ py_str_int vert_num ++ "]")).
  rewrite py_replace_prefix by (assumption || reflexivity).
  cbn [append].
  repeat (rewrite py_replace_keep
            by (apply starts_with_other; (assumption || reflexivity))).
  rewrite py_replace_hit by assumption.
  rewrite py_replace_keep
    by (apply starts_with_other; (assumption || reflexivity)).
  unfold py_replace at 1. cbn [replace_go].
  destruct (py_str_int vert_num); [congruence | reflexivity].
Qed.

(** X8: for a mesh name in which the decimal numeral of the central vertex
    does not occur, the name [src_verts] builds for the neighbour [each] out
    of [<mesh>.vtx[<vert_num>]] is [<mesh>.vtx[<each>]]. *)
Theorem neighbour_name (mesh : string) (vert_num each : Z) :
  py_in (py_str_int vert_num) mesh = false ->
  py_replace (py_str_int vert_num) (py_str_int each) (format_vtx mesh vert_num)
    = format_vtx mesh each.
Proof. intros; eapply neighbour_name_aux; eassumption. Qed.

Lemma neighbour_name_witness :
  py_replace (py_str_int 4) (py_str_int 12) (format_vtx "cheek_l_" 4)
    = format_vtx "cheek_l_" 12.
Proof. apply neighbour_name. reflexivity. Defined.

End QueryNames.

(* ================================================================== *)
(** ** [src_verts] from end to end *)

Section SrcVertsRun.

Context {S : Type} (h : Host S).
Variable mesh : string.
Variable vert_num : Z.
Variable s : S.

Hypothesis numeral_absent : py_in (py_str_int vert_num) mesh = false.



End SrcVertsRun.




(* ================================================================== *)
(** ** [build]: what it reads and what it leaves behind *)

Lemma every_ret_bind {A B} (Q : B -> Prop) (p : Prog A) (f : A -> Prog B) :
  (forall a, every_ret Q (f a)) -> every_ret Q (bind p f).
Proof.
  intros Hf. induction p as [a|e|c k IH]; cbn; [apply Hf | exact I |].
  intros v. apply IH.
Qed.

Lemma every_ret_run {S A} (h : Host S) (Q : A -> Prop) (p : Prog A) (s : S)
    (a : A) :
  every_ret Q p -> outcome (run h p s) = Returned a -> Q a.
Proof.
  revert s. induction p as [b|e|c k IH]; intros s Hp Ho; cbn in *.
  - now injection Ho as <-.
  - discriminate.
  - destruct (h c s) as [[e|v] s']; cbn in Ho; [discriminate|].
    now apply (IH v s').
Qed.

Ltac stroll :=
  repeat first
    [ exact I
    | reflexivity
    | apply every_call_lift
    | apply every_call_call; reflexivity
    | apply every_call_bind; [|intros ?] ].

Lemma query_positions_no_export (central_vert : string) (vert_num : Z)
    (vert_ids : list Z) :
  every_call (fun c => export_step c = false)
             (query_positions central_vert vert_num vert_ids).
Proof.
  induction vert_ids as [|each rest IH]; cbn [query_positions]; stroll.
  exact IH.
Qed.

(** X10: with "Export Mesh on Build" unchecked, [build] issues no call of
    the export -- no directory test, no dialog, no print, no file command --
    whatever the host replies, and when it returns the widget's state is
    what it was. *)
Theorem build_preview {S} (h : Host S) (self : Gui) (s : S) :
  export_cbox self = false ->
  Forall (fun c => export_step c = false) (calls (run h (build self) s)) /\
  forall g, outcome (run h (build self) s) = Returned g -> g = self.
Proof.
  intros Hbox. split.
  - apply every_call_run. unfold build, build_export. rewrite Hbox. stroll.
    + unfold build_locals.
      destruct (String.eqb (vert_textfield self) EmptyString); stroll.
      * destruct (py_truthy _); stroll.
      * destruct (py_eq_False _); stroll.
    + unfold read_local. destruct (snd _); exact I.
    + unfold read_local. destruct (fst _); exact I.
    + apply query_positions_no_export.
  - intros g. apply (every_ret_run h (fun g => g = self)).
    unfold build, build_export. rewrite Hbox.
    repeat (apply every_ret_bind; intros ?). reflexivity.
Qed.

Lemma build_preview_witness :
  Forall (fun c => export_step c = false)
         (calls (run Stub.host
                     (build (mkGui EmptyString AxisX false "/tmp/shapes"
                                   EmptyString EmptyString))
                     Stub.cheek_scene)) /\
  outcome (run Stub.host
               (build (mkGui EmptyString AxisX false "/tmp/shapes"
                             EmptyString EmptyString))
               Stub.cheek_scene)
    = Returned (mkGui EmptyString AxisX false "/tmp/shapes"
                      EmptyString EmptyString).
Proof.
  destruct (build_preview Stub.host
              (mkGui EmptyString AxisX false "/tmp/shapes"
                     EmptyString EmptyString)
              Stub.cheek_scene eq_refl) as [Hcalls _].
  split; [exact Hcalls | reflexivity].
Defined.

(** [build] with another [directory_path] and [sel_file]. *)
Lemma build_same_calls_directory (self : Gui) (d f : string) :
  same_calls (build (set_sel_file (set_directory_path self d) f)) (build self).
Proof.
  unfold build.
  change (build_locals (set_sel_file (set_directory_path self d) f))
    with (build_locals self).
  apply same_calls_bind; intros locals.
  apply same_calls_bind; intros mesh.
  apply same_calls_bind; intros new_mesh.
  apply same_calls_bind; intros central_vert.
  apply same_calls_bind; intros needed_verts.
  apply same_calls_bind; intros _.
  unfold build_export, browse_directory. cbn.
  destruct (export_cbox self); [|exact I].
  split; [reflexivity|]. intros isdir.
  destruct (py_truthy isdir).
  - cbn. repeat (split; [reflexivity|]; intros ?). exact I.
  - cbn. split; [reflexivity|]. intros dir.
    destruct dir; cbn; try reflexivity.
    repeat (split; [reflexivity|]; intros ?). exact I.
Qed.

Lemma every_ret_bind_with {A B} (R : A -> Prop) (Q : B -> Prop)
    (p : Prog A) (f : A -> Prog B) :
  every_ret R p -> (forall a, R a -> every_ret Q (f a)) ->
  every_ret Q (bind p f).
Proof.
  intros Hp Hf. induction p as [a|e|c k IH]; cbn in *;
    [now apply Hf | exact I |].
  intros v. now apply IH.
Qed.

Lemma browse_directory_ret (self : Gui) :
  every_ret (fun r => fst r = set_sel_file self (snd r))
            (browse_directory self).
Proof.
  unfold browse_directory. cbn. intros v. destruct v; cbn; exact I || reflexivity.
Qed.

Lemma build_keeps_textfields (self : Gui) :
  every_ret (fun g => vert_textfield g = vert_textfield self /\
                      file_path_line g = file_path_line self /\
                      export_cbox g = export_cbox self /\
                      mirror_axis_cbox g = mirror_axis_cbox self)
            (build self).
Proof.
  unfold build.
  repeat (apply every_ret_bind; intros ?).
  unfold build_export.
  destruct (export_cbox self) eqn:Hbox; [|cbn; now rewrite Hbox].
  apply every_ret_bind; intros isdir.
  destruct (py_truthy isdir).
  - apply every_ret_bind; intros _. cbn. now rewrite Hbox.
  - apply (every_ret_bind_with
             (fun r => fst r = set_sel_file
                                 (set_directory_path self (file_path_line self))
                                 (snd r)));
      [apply browse_directory_ret|].
    intros [g d] Hg. cbn in Hg. subst g.
    apply every_ret_bind; intros _. cbn. now rewrite Hbox.
Qed.

(** X11: [build] reads the export directory from the textfield alone: the
    [directory_path] and [sel_file] that an import or an earlier build left
    in the widget change nothing in what [build] asks of the host; and
    [build] never writes to the textfields or the options, so a directory
    picked in its dialog is not kept for the next build. *)
Theorem build_reads_textfield_only {S} (h : Host S) (self : Gui) (s : S) :
  (forall d f : string,
      trace (run h (build (set_sel_file (set_directory_path self d) f)) s)
        = trace (run h (build self) s)) /\
  (forall g, outcome (run h (build self) s) = Returned g ->
             vert_textfield g = vert_textfield self /\
             file_path_line g = file_path_line self /\
             export_cbox g = export_cbox self /\
             mirror_axis_cbox g = mirror_axis_cbox self).
Proof.
  split.
  - intros d f. apply (same_calls_run h). apply build_same_calls_directory.
  - intros g Hg.
    exact (every_ret_run h _ (build self) s g (build_keeps_textfields self) Hg).
Qed.

Lemma build_reads_textfield_only_witness :
  trace (run Stub.host
             (build (set_sel_file (set_directory_path Stub.fresh_gui "/old")
                                  "/old"))
             Stub.cheek_scene)
    = trace (run Stub.host (build Stub.fresh_gui) Stub.cheek_scene) /\
  file_path_line (mkGui EmptyString AxisY true "/tmp/shapes" "/tmp/shapes"
                        EmptyString)
    = file_path_line Stub.fresh_gui.
Proof.
  destruct (build_reads_textfield_only Stub.host Stub.fresh_gui
              Stub.cheek_scene) as [Htrace Hret].
  split; [exact (Htrace "/old" "/old")|].
  exact (proj1 (proj2 (Hret _ eq_refl))).
Defined.



(** One accepted call at the root of a program. *)
Lemma run_vis {S A} (h : Host S) (c : Call) (k : PyVal -> Prog A) (s s' : S)
    (v : PyVal) :
  h c s = (inr v, s') ->
  run h (Vis c k) s =
  mkRun (mkEvent s c (inr v) :: trace (run h (k v) s'))
        (outcome (run h (k v) s')) (final (run h (k v) s')).
Proof. intros H. cbn [run]. now rewrite H. Qed.

Section BuildExport.

Context {S : Type} (h : Host S).
Variable self : Gui.
Variable new_mesh : string.
Hypothesis export_checked : export_cbox self = true.

(** X13: the export of [build] when the text of the export-directory field
    is no directory: the dialog is opened and the mesh is exported to
    [<choice>/<new_mesh>] -- to [/<new_mesh>] when the dialog is cancelled
    and hands back the empty string; the choice goes to [directory_path] and
    [sel_file], the text of the field stays. *)
Theorem build_export_dialog (s s1 s2 s3 s4 s5 s6 : S)
    (isdir v1 v2 v3 v4 : PyVal) (d : string) :
  h (OsPathIsdir (file_path_line self)) s = (inr isdir, s1) ->
  py_truthy isdir = false ->
  h (GetExistingDirectory "Choose Directory") s1 = (inr (VStr d), s2) ->
  h (cmds_select_replace new_mesh) s2 = (inr v1, s3) ->
  h (Print (d ++ "/" ++ new_mesh)) s3 = (inr v2, s4) ->
  h (cmds_file_export (d ++ "/" ++ new_mesh)) s4 = (inr v3, s5) ->
  h cmds_select_deselect s5 = (inr v4, s6) ->
  outcome (run h (build_export self new_mesh) s)
    = Returned (mkGui (vert_textfield self) (mirror_axis_cbox self) true
                      (file_path_line self) d d) /\
  calls (run h (build_export self new_mesh) s)
    = [OsPathIsdir (file_path_line self);
       GetExistingDirectory "Choose Directory";
       cmds_select_replace new_mesh;
       Print (d ++ "/" ++ new_mesh);
       cmds_file_export (d ++ "/" ++ new_mesh);
       cmds_select_deselect] /\
  final (run h (build_export self new_mesh) s) = s6.
Proof.
  intros Hdir Hfalse Hdlg H1 H2 H3 H4.
  unfold calls, build_export, browse_directory, export_dest_mesh.
  rewrite export_checked. cbn [directory_path set_directory_path].
  rewrite (run_step h _ _ _ _ _ Hdir). rewrite Hfalse.
  cbn [bind call].
  rewrite (run_vis h _ _ _ _ _ Hdlg). cbn [as_str lift bind fst snd].
  unfold format_path. cbn [directory_path set_directory_path set_sel_file].
  rewrite (run_vis h _ _ _ _ _ H1). rewrite (run_vis h _ _ _ _ _ H2).
  rewrite (run_vis h _ _ _ _ _ H3). rewrite (run_vis h _ _ _ _ _ H4).
  cbn [trace outcome final map ev_call run].
  unfold set_directory_path, set_sel_file.
  cbn [vert_textfield mirror_axis_cbox export_cbox file_path_line
       directory_path sel_file].
  rewrite export_checked. repeat split.
Qed.

(** X14: the export of [build] when the text of the export-directory field
    is a directory: no dialog is opened, the mesh is exported to
    [<text>/<new_mesh>] and the text goes to [directory_path]. *)
Theorem build_export_direct (s s1 s2 s3 s4 s5 : S)
    (isdir v1 v2 v3 v4 : PyVal) :
  h (OsPathIsdir (file_path_line self)) s = (inr isdir, s1) ->
  py_truthy isdir = true ->
  h (cmds_select_replace new_mesh) s1 = (inr v1, s2) ->
  h (Print (file_path_line self ++ "/" ++ new_mesh)) s2 = (inr v2, s3) ->
  h (cmds_file_export (file_path_line self ++ "/" ++ new_mesh)) s3
    = (inr v3, s4) ->
  h cmds_select_deselect s4 = (inr v4, s5) ->
  outcome (run h (build_export self new_mesh) s)
    = Returned (set_directory_path self (file_path_line self)) /\
  calls (run h (build_export self new_mesh) s)
    = [OsPathIsdir (file_path_line self);
       cmds_select_replace new_mesh;
       Print (file_path_line self ++ "/" ++ new_mesh);
       cmds_file_export (file_path_line self ++ "/" ++ new_mesh);
       cmds_select_deselect] /\
  final (run h (build_export self new_mesh) s) = s5.
Proof.
  intros Hdir Htrue H1 H2 H3 H4.
  unfold calls, build_export, export_dest_mesh.
  rewrite export_checked. cbn [directory_path set_directory_path].
  rewrite (run_step h _ _ _ _ _ Hdir). rewrite Htrue.
  unfold format_path. cbn [bind call].
  rewrite (run_vis h _ _ _ _ _ H1). rewrite (run_vis h _ _ _ _ _ H2).
  rewrite (run_vis h _ _ _ _ _ H3). rewrite (run_vis h _ _ _ _ _ H4).
  cbn. repeat split.
Qed.

End BuildExport.

Lemma build_export_dialog_witness :
  Stub.exported
    (final (run Stub.host
                (build_export
                   (mkGui EmptyString AxisX true "/nowhere" EmptyString
                          EmptyString)
                   "cheek_l_")
                (Stub.set_selection Stub.cheek_scene [])))
    = [("/tmp/out/cheek_l_", ["cheek_l_"])].
Proof.
  edestruct (build_export_dialog Stub.host
               (mkGui EmptyString AxisX true "/nowhere" EmptyString EmptyString)
               "cheek_l_" eq_refl
               (Stub.set_selection Stub.cheek_scene [])) as (_ & _ & Hf).
  - reflexivity.
  - reflexivity.
  - reflexivity.
  - reflexivity.
  - reflexivity.
  - reflexivity.
  - reflexivity.
  - rewrite Hf. reflexivity.
Defined.

Lemma build_export_direct_witness :
  Stub.exported
    (final (run Stub.host
                (build_export
                   (mkGui EmptyString AxisX true "/tmp/shapes" EmptyString
                          EmptyString)
                   "cheek_l_")
                (Stub.set_selection Stub.cheek_scene [])))
    = [("/tmp/shapes/cheek_l_", ["cheek_l_"])].
Proof.
  edestruct (build_export_direct Stub.host
               (mkGui EmptyString AxisX true "/tmp/shapes" EmptyString
                      EmptyString)
               "cheek_l_" eq_refl
               (Stub.set_selection Stub.cheek_scene [])) as (_ & _ & Hf).
  - reflexivity.
  - reflexivity.
  - reflexivity.
  - reflexivity.
  - reflexivity.
  - reflexivity.
  - rewrite Hf. reflexivity.
Defined.

(* ================================================================== *)
(** ** Facts about the programs of the view layer *)

Section UiRunFacts.

Context {S : Type} (h : UiHost S).

Lemma urun_ubind {A B} (p : UiProg A) (f : A -> UiProg B) (s : S) :
  urun h (ubind p f) s =
  match result (urun h p s) with
  | Returned a =>
      let r := urun h (f a) (after (urun h p s)) in
      mkUiRun (steps (urun h p s) ++ steps r) (result r) (after r)
  | Raised e => mkUiRun (steps (urun h p s)) (Raised e) (after (urun h p s))
  end.
Proof.
  revert s. induction p as [a|e|c k IH|d k IH]; intros s; simpl.
  - now destruct (urun h (f a) s).
  - reflexivity.
  - destruct (on_call h c s) as [[e|v] s']; simpl; [reflexivity|].
    rewrite IH. now destruct (result (urun h (k v) s')).
  - destruct (on_dialog h d s) as [t s']; simpl.
    rewrite IH. now destruct (result (urun h (k t) s')).
Qed.

(** A program of the core runs in this layer as it runs on the host. *)
Lemma urun_of_prog {A} (p : Prog A) (s : S) :
  urun h (of_prog p) s =
  mkUiRun (map (fun e => HostStep (ev_call e) (ev_reply e))
               (trace (run (on_call h) p s)))
          (outcome (run (on_call h) p s))
          (final (run (on_call h) p s)).
Proof.
  revert s. induction p as [a|e|c k IH]; intros s; cbn [of_prog urun run];
    [reflexivity | reflexivity |].
  destruct (on_call h c s) as [[e|v] s']; [reflexivity|].
  rewrite IH. reflexivity.
Qed.

Lemma urun_host {A} (c : Call) (k : PyVal -> UiProg A) (s s' : S) (v : PyVal) :
  on_call h c s = (inr v, s') ->
  urun h (UHost c k) s =
  mkUiRun (HostStep c (inr v) :: steps (urun h (k v) s'))
          (result (urun h (k v) s')) (after (urun h (k v) s')).
Proof. intros H. cbn [urun]. now rewrite H. Qed.

Lemma urun_dialog {A} (d : Dialog) (k : list Item -> UiProg A) (s s' : S)
    (t : list Item) :
  on_dialog h d s = (t, s') ->
  urun h (UDialog d k) s =
  mkUiRun (DialogStep d t :: steps (urun h (k t) s'))
          (result (urun h (k t) s')) (after (urun h (k t) s')).
Proof. intros H. cbn [urun]. now rewrite H. Qed.

End UiRunFacts.

(* ================================================================== *)
(** ** A cancelled file dialog *)

(** [import_mesh] after a dialog that handed back the empty path. *)
Lemma import_mesh_empty_path {S} (h : UiHost S) (self : Tool.Window)
    (s s' : S) (selected_filter : Item) :
  on_dialog h (GetOpenFileName (Some (directory_path (Tool.gui self)))
                               "Get Blendshape Mesh" Tool.obj_filter) s
    = ([IStr EmptyString; selected_filter], s') ->
  urun h (Tool.import_mesh self) s
    = mkUiRun [DialogStep
                 (GetOpenFileName (Some (directory_path (Tool.gui self)))
                                  "Get Blendshape Mesh" Tool.obj_filter)
                 [IStr EmptyString; selected_filter]]
              (Raised ValueError) s'.
Proof.
  intros Hd. unfold Tool.import_mesh, Tool.browse_command.
  cbn [ubind udialog].
  rewrite (urun_dialog h _ _ _ _ _ Hd). reflexivity.
Qed.

(** X15: when the dialog of [import_mesh] is cancelled -- it hands back the
    empty path -- [import_mesh] raises ValueError on the empty mesh name
    before it asks anything of the host: nothing is deleted or imported. *)
Theorem import_mesh_cancelled {S} (h : UiHost S) (self : Tool.Window)
    (s s' : S) (selected_filter : Item) :
  on_dialog h (GetOpenFileName (Some (directory_path (Tool.gui self)))
                               "Get Blendshape Mesh" Tool.obj_filter) s
    = ([IStr EmptyString; selected_filter], s') ->
  urun h (Tool.import_mesh self) s
    = mkUiRun [DialogStep
                 (GetOpenFileName (Some (directory_path (Tool.gui self)))
                                  "Get Blendshape Mesh" Tool.obj_filter)
                 [IStr EmptyString; selected_filter]]
              (Raised ValueError) s'.
Proof. apply import_mesh_empty_path. Qed.

Lemma import_mesh_cancelled_witness :
  urun (UiStub.ui [IStr EmptyString; IStr EmptyString])
       (Tool.import_mesh UiStub.window) Stub.head_scene
    = mkUiRun [DialogStep
                 (GetOpenFileName (Some EmptyString) "Get Blendshape Mesh"
                                  Tool.obj_filter)
                 [IStr EmptyString; IStr EmptyString]]
              (Raised ValueError) Stub.head_scene.
Proof.
  apply (import_mesh_cancelled (UiStub.ui [IStr EmptyString; IStr EmptyString])
           UiStub.window Stub.head_scene Stub.head_scene (IStr EmptyString)).
  reflexivity.
Defined.

(** X16: [new_blendshape] forces a new scene before it asks for the file:
    when the dialog is then cancelled, the old scene is gone, nothing is
    imported and ValueError is raised. *)
Theorem new_blendshape_cancelled {S} (h : UiHost S) (self : Tool.Window)
    (s s1 s2 : S) (v : PyVal) (selected_filter : Item) :
  on_call h Tool.cmds_file_new s = (inr v, s1) ->
  on_dialog h (GetOpenFileName (Some (directory_path (Tool.gui self)))
                               "Get Blendshape Mesh" Tool.obj_filter) s1
    = ([IStr EmptyString; selected_filter], s2) ->
  urun h (Tool.new_blendshape self) s
    = mkUiRun [HostStep (Cmds "file" []
                           [("newFile", VBool true); ("force", VBool true)])
                        (inr v);
               DialogStep
                 (GetOpenFileName (Some (directory_path (Tool.gui self)))
                                  "Get Blendshape Mesh" Tool.obj_filter)
                 [IStr EmptyString; selected_filter]]
              (Raised ValueError) s2.
Proof.
  intros Hnew Hd. unfold Tool.new_blendshape. cbn [ubind ucall].
  rewrite (urun_host h _ _ _ _ _ Hnew).
  cbn [ubind]. rewrite (import_mesh_empty_path h self s1 s2 selected_filter Hd).
  reflexivity.
Qed.

Lemma new_blendshape_cancelled_witness :
  Stub.objects
    (after (urun (UiStub.ui [IStr EmptyString; IStr EmptyString])
                 (Tool.new_blendshape UiStub.window) Stub.head_scene)) = [] /\
  result (urun (UiStub.ui [IStr EmptyString; IStr EmptyString])
               (Tool.new_blendshape UiStub.window) Stub.head_scene)
    = Raised ValueError.
Proof.
  rewrite (new_blendshape_cancelled
             (UiStub.ui [IStr EmptyString; IStr EmptyString]) UiStub.window
             Stub.head_scene _ _ _ (IStr EmptyString) eq_refl eq_refl).
  split; reflexivity.
Defined.

(* ================================================================== *)
(** ** The path that [import_mesh] works with *)

Section PathFacts.

Lemma append_empty_r (s : string) : s ++ EmptyString = s.
Proof. induction s as [|c s IH]; cbn; [reflexivity | now rewrite IH]. Qed.

Lemma py_replace_remove (c : ascii) (s : string) :
  py_replace (String c EmptyString) EmptyString s = remove_char c s.
Proof.
  induction s as [|a s IH]; [reflexivity|].
  cbn [remove_char]. destruct (Ascii.eqb c a) eqn:E.
  - apply Ascii.eqb_eq in E. subst a.
    change (String c s) with (String c EmptyString ++ s).
    rewrite py_replace_hit by discriminate. exact IH.
  - rewrite py_replace_keep by (cbn; now rewrite E).
    now rewrite IH.
Qed.

Lemma remove_char_absent (c : ascii) (s : string) :
  has_char c s = false -> remove_char c s = s.
Proof.
  induction s as [|a s IH]; cbn; [reflexivity|].
  intros H. apply orb_false_iff in H as [Ha Hs]. now rewrite Ha, IH.
Qed.

Lemma remove_char_app (c : ascii) (s t : string) :
  remove_char c (s ++ t) = remove_char c s ++ remove_char c t.
Proof.
  induction s as [|a s IH]; cbn; [reflexivity|].
  destruct (Ascii.eqb c a); cbn; now rewrite IH.
Qed.

Lemma has_char_remove (c d : ascii) (s : string) :
  has_char c s = false -> has_char c (remove_char d s) = false.
Proof.
  induction s as [|a s IH]; cbn; [reflexivity|].
  intros H. apply orb_false_iff in H as [Ha Hs].
  destruct (Ascii.eqb d a); cbn; [now apply IH|].
  now rewrite Ha, IH.
Qed.

Lemma calm_char_not (c d : ascii) :
  calm_char c = true -> calm_char d = false -> Ascii.eqb c d = false.
Proof.
  intros Hc Hd. destruct (Ascii.eqb c d) eqn:E; [|reflexivity].
  apply Ascii.eqb_eq in E. congruence.
Qed.

Lemma repr_char_calm (c : ascii) :
  calm_char c = true -> repr_char quote1 c = String c EmptyString.
Proof.
  intros Hc. unfold repr_char.
  rewrite (calm_char_not c quote1 Hc eq_refl).
  rewrite (calm_char_not c backslash Hc eq_refl). cbn [orb].
  unfold calm_char in Hc.
  repeat (apply andb_true_iff in Hc as [Hc ?]).
  match goal with H : (_ <=? 126)%nat = true |- _ => apply Nat.leb_le in H end.
  apply Nat.leb_le in Hc.
  rewrite (proj2 (Nat.eqb_neq _ 9)) by lia.
  rewrite (proj2 (Nat.eqb_neq _ 10)) by lia.
  rewrite (proj2 (Nat.eqb_neq _ 13)) by lia.
  rewrite (proj2 (Nat.ltb_ge _ 32)) by lia.
  rewrite (proj2 (Nat.leb_gt 127 _)) by lia.
  rewrite (proj2 (Nat.eqb_neq _ 173)) by lia.
  reflexivity.
Qed.

Lemma repr_body_calm (s : string) :
  all_chars calm_char s = true -> repr_body quote1 s = s.
Proof.
  induction s as [|c s IH]; cbn [repr_body all_chars]; [reflexivity|].
  intros H. apply andb_true_iff in H as [Hc Hs].
  now rewrite (repr_char_calm c Hc), IH.
Qed.

(** [repr] of a calm string: the string between single quotes. *)
Lemma py_repr_str_calm (s : string) :
  all_chars calm_char s = true ->
  py_repr_str s = String quote1 (s ++ String quote1 EmptyString).
Proof.
  intros Hs. unfold py_repr_str.
  rewrite (has_char_all_chars calm_char quote1 s Hs eq_refl). cbn [andb].
  now rewrite repr_body_calm.
Qed.

(** Outside the calm characters [repr] escapes: the no-break space, the
    soft hyphen and a control are written in hexadecimal, a printable
    character of the Latin-1 supplement is copied. *)
Example py_repr_str_latin1 :
  py_repr_str (String "a" (String (ascii_of_nat 160) "b")) = "'a\xa0b'" /\
  py_repr_str (String (ascii_of_nat 173) EmptyString) = "'\xad'" /\
  py_repr_str (String (ascii_of_nat 127) EmptyString) = "'\x7f'" /\
  py_repr_str (String (ascii_of_nat 233) EmptyString)
    = String quote1 (String (ascii_of_nat 233) (String quote1 EmptyString)) /\
  py_repr_str "it's" = String quote2 ("it's" ++ String quote2 EmptyString).
Proof. repeat split; reflexivity. Qed.

(** What [browse_command] makes of a calm path: brackets off, quotes on. *)
Lemma browsed_calm (p : string) :
  all_chars calm_char p = true ->
  py_replace "]" EmptyString
    (py_replace "[" EmptyString (py_repr_list [py_repr_str p]))
  = String quote1 (remove_char "]" (remove_char "[" p)
                   ++ String quote1 EmptyString).
Proof.
  intros Hp. rewrite !py_replace_remove, (py_repr_str_calm p Hp).
  unfold py_repr_list. cbn [join].
  cbn [append]. simpl remove_char. rewrite ?remove_char_app.
  change (remove_char "]" (remove_char "[" (String quote1 EmptyString)))
    with (String quote1 EmptyString).
  change (remove_char "]" (remove_char "[" "]")) with EmptyString.
  now rewrite append_empty_r.
Qed.

End PathFacts.

(** The run of [browse_command] on a calm path. *)
Lemma browse_command_run {S} (h : UiHost S) (self : Tool.Window)
    (s s' : S) (p : string) (selected_filter : Item) :
  all_chars calm_char p = true ->
  on_dialog h (GetOpenFileName (Some (directory_path (Tool.gui self)))
                               "Get Blendshape Mesh" Tool.obj_filter) s
    = ([IStr p; selected_filter], s') ->
  urun h (Tool.browse_command self) s
    = mkUiRun
        [DialogStep (GetOpenFileName (Some (directory_path (Tool.gui self)))
                                     "Get Blendshape Mesh" Tool.obj_filter)
                    [IStr p; selected_filter]]
        (Returned (Tool.mkWindow (Tool.gui self)
                     (Some [IStr p; selected_filter]),
                   "'" ++ remove_char "]" (remove_char "[" p) ++ "'"))
        s'.
Proof.
  intros Hp Hd. unfold Tool.browse_command. cbn [ubind udialog].
  rewrite (urun_dialog h _ _ _ _ _ Hd).
  cbn [pop_last removelast ulift lift of_prog ubind map py_repr_item urun
       result steps after].
  now rewrite (browsed_calm p Hp).
Qed.

Lemma file_path_of_quoted (p : string) :
  has_char quote1 p = false ->
  Tool.file_path_of ("'" ++ p ++ "'") = p.
Proof.
  intros Hp. unfold Tool.file_path_of. rewrite py_replace_remove.
  change ("'" ++ p ++ "'") with (String quote1 (p ++ String quote1 EmptyString)).
  simpl remove_char. rewrite remove_char_app.
  change (remove_char "'" (String quote1 EmptyString)) with EmptyString.
  rewrite append_empty_r. now apply remove_char_absent.
Qed.

(** X17: for a chosen path of calm characters -- printable ASCII, without
    quote or backslash -- [browse_command] hands back the path between single
    quotes and without its square brackets, and the path [import_mesh] goes
    on with is the chosen path without its square brackets: the chosen path
    itself when it has none. *)
Theorem browse_command_path {S} (h : UiHost S) (self : Tool.Window)
    (s s' : S) (p : string) (selected_filter : Item) :
  all_chars calm_char p = true ->
  on_dialog h (GetOpenFileName (Some (directory_path (Tool.gui self)))
                               "Get Blendshape Mesh" Tool.obj_filter) s
    = ([IStr p; selected_filter], s') ->
  result (urun h (Tool.browse_command self) s)
    = Returned (Tool.mkWindow (Tool.gui self) (Some [IStr p; selected_filter]),
                "'" ++ remove_char "]" (remove_char "[" p) ++ "'") /\
  Tool.file_path_of ("'" ++ remove_char "]" (remove_char "[" p) ++ "'")
    = remove_char "]" (remove_char "[" p) /\
  (has_char "[" p = false -> has_char "]" p = false ->
   remove_char "]" (remove_char "[" p) = p).
Proof.
  intros Hp Hd. split; [|split].
  - now rewrite (browse_command_run h self s s' p selected_filter Hp Hd).
  - apply file_path_of_quoted.
    apply has_char_remove, has_char_remove.
    now apply (has_char_all_chars calm_char).
  - intros H1 H2. rewrite (remove_char_absent "[" p H1).
    now apply remove_char_absent.
Qed.

Lemma browse_command_path_witness :
  result (urun (UiStub.ui [IStr "/tmp/[v2]/blend_l_.obj"; IStr EmptyString])
               (Tool.browse_command UiStub.window) Stub.head_scene)
    = Returned (Tool.mkWindow Stub.fresh_gui
                  (Some [IStr "/tmp/[v2]/blend_l_.obj"; IStr EmptyString]),
                "'/tmp/v2/blend_l_.obj'").
Proof.
  exact (proj1 (browse_command_path
                  (UiStub.ui [IStr "/tmp/[v2]/blend_l_.obj"; IStr EmptyString])
                  UiStub.window Stub.head_scene Stub.head_scene
                  "/tmp/[v2]/blend_l_.obj" (IStr EmptyString)
                  eq_refl eq_refl)).
Defined.

Section SplitByName.

Lemma starts_with_cut_char (old m : string) (c : ascii) (t : string) :
  has_char c old = false ->
  starts_with old (m ++ String c t) = true ->
  starts_with old m = true.
Proof.
  revert m. induction old as [|a old IH]; intros m Hc H; [reflexivity|].
  cbn in Hc. apply orb_false_iff in Hc as [Hca Hold].
  destruct m as [|b m]; cbn in H |- *.
  - apply andb_true_iff in H as [Hac _].
    apply Ascii.eqb_eq in Hac. subst c. now rewrite Ascii.eqb_refl in Hca.
  - apply andb_true_iff in H as [Hab H]. rewrite Hab. cbn.
    now apply IH.
Qed.

Lemma starts_with_other_char (old : string) (c : ascii) (t : string) :
  old <> EmptyString ->
  has_char c old = false ->
  starts_with old (String c t) = false.
Proof.
  intros Hne Hc. destruct old as [|a old]; [congruence|].
  cbn in Hc |- *. apply orb_false_iff in Hc as [Hca _].
  rewrite Ascii.eqb_sym, Hca. reflexivity.
Qed.

(** [replace] copies a prefix in which the first character of the pattern
    does not occur. *)
Lemma py_replace_skip_prefix (c0 : ascii) (o new m t : string) :
  has_char c0 m = false ->
  py_replace (String c0 o) new (m ++ t) = m ++ py_replace (String c0 o) new t.
Proof.
  induction m as [|a m IH]; cbn [has_char append]; intros H; [reflexivity|].
  apply orb_false_iff in H as [Ha Hm].
  rewrite py_replace_keep by (cbn; now rewrite Ha).
  now rewrite IH.
Qed.

Lemma split_go_nonempty (sep : string) (skip : nat) (s : string) :
  split_go sep skip s <> [].
Proof.
  revert skip. induction s as [|a s IH]; intros skip; cbn [split_go];
    [discriminate|].
  destruct skip as [|n]; [|apply IH].
  destruct (starts_with sep (String a s)); [discriminate|].
  destruct (split_go sep 0 s); discriminate.
Qed.

Lemma py_split_keep_first (sep : string) (a : ascii) (s : string) :
  starts_with sep (String a s) = false ->
  PyStr.first (py_split sep (String a s))
    = String a (PyStr.first (py_split sep s)).
Proof.
  intros H. unfold py_split. cbn [split_go]. rewrite H.
  pose proof (split_go_nonempty sep 0 s) as Hne.
  destruct (split_go sep 0 s); [congruence | reflexivity].
Qed.

Lemma py_split_hit_first (sep t : string) :
  sep <> EmptyString -> PyStr.first (py_split sep (sep ++ t)) = EmptyString.
Proof.
  intros Hne. destruct sep as [|c o]; [congruence|].
  unfold py_split. cbn [append split_go].
  change (String c (o ++ t)) with (String c o ++ t).
  now rewrite starts_with_app.
Qed.

(** [s.split(sep)[0]] is what precedes the first occurrence of [sep]. *)
Lemma py_split_first_name (sep d : string) (c : ascii) (t : string) :
  sep <> EmptyString ->
  has_char c sep = false ->
  py_in sep d = false ->
  PyStr.first (py_split sep (d ++ String c (sep ++ t)))
    = d ++ String c EmptyString.
Proof.
  intros Hne Hc. induction d as [|a d IH]; intros Hin.
  - cbn [append].
    rewrite py_split_keep_first by now apply starts_with_other_char.
    now rewrite py_split_hit_first.
  - cbn in Hin. apply orb_false_iff in Hin as [Hp Hin].
    cbn [append]. rewrite py_split_keep_first.
    + now rewrite IH.
    + destruct (starts_with sep (String a (d ++ String c (sep ++ t)))) eqn:E;
        [|reflexivity].
      apply (starts_with_cut_char sep (String a d) c (sep ++ t) Hc) in E.
      congruence.
Qed.

End SplitByName.

Lemma path_parts (dir name : string) :
  name <> EmptyString ->
  has_char "/" name = false ->
  has_char "." name = false ->
  py_in name dir = false ->
  Tool.mesh_name_of (dir ++ "/" ++ name ++ ".obj") = name /\
  Tool.src_dir_of (dir ++ "/" ++ name ++ ".obj") = inr (dir ++ "/").
Proof.
  intros Hne Hslash Hdot Hin.
  assert (Tool.mesh_name_of (dir ++ "/" ++ name ++ ".obj") = name) as Hname.
  { unfold Tool.mesh_name_of.
    change (dir ++ "/" ++ name ++ ".obj")
      with (dir ++ String "/" (name ++ ".obj")).
    rewrite py_split_last
      by (rewrite has_char_app, Hslash; reflexivity).
    rewrite py_replace_skip_prefix by assumption.
    change (py_replace ".obj" EmptyString ".obj") with EmptyString.
    apply append_empty_r. }
  split; [exact Hname|].
  unfold Tool.src_dir_of. rewrite Hname. unfold py_split_checked.
  destruct name as [|c0 name'] eqn:En; [congruence|]. rewrite <- En in *.
  cbn [res_bind]. f_equal.
  change (dir ++ "/" ++ name ++ ".obj")
    with (dir ++ String "/" (name ++ ".obj")).
  now apply py_split_first_name.
Qed.

(** X18: for a file [<dir>/<name>.obj] whose name holds neither a slash nor
    a dot and does not occur in [<dir>], [import_mesh] takes [<name>] as the
    mesh name and [<dir>/] as the export directory. *)
Theorem import_mesh_path_parts (dir name : string) :
  name <> EmptyString ->
  has_char "/" name = false ->
  has_char "." name = false ->
  py_in name dir = false ->
  Tool.mesh_name_of (dir ++ "/" ++ name ++ ".obj") = name /\
  Tool.src_dir_of (dir ++ "/" ++ name ++ ".obj") = inr (dir ++ "/").
Proof. apply path_parts. Qed.

Lemma import_mesh_path_parts_witness :
  Tool.mesh_name_of ("/tmp/shapes" ++ "/" ++ "blend_l_" ++ ".obj") = "blend_l_" /\
  Tool.src_dir_of ("/tmp/shapes" ++ "/" ++ "blend_l_" ++ ".obj")
    = inr ("/tmp/shapes" ++ "/").
Proof.
  apply import_mesh_path_parts; [discriminate | reflexivity..].
Defined.

(** Where the name of the mesh also occurs in the directory, the export
    directory is cut at that occurrence. *)
Example import_mesh_path_parts_nested :
  Tool.mesh_name_of "/shapes/head/head.obj" = "head" /\
  Tool.src_dir_of "/shapes/head/head.obj" = inr "/shapes/".
Proof. split; reflexivity. Qed.

(* ================================================================== *)
(** ** [import_mesh] from end to end *)

(** The run of [import_src_mesh], as in the theorem for C5. *)
Lemma import_src_mesh_run {S} (h : Host S) (ty : PyVal -> PyVal)
    (file_path : string) (nodes : list PyVal) (s s1 : S) :
  h (cmds_file_import file_path) s = (inr (VList nodes), s1) ->
  (forall n, In n nodes -> h (cmds_nodeType n) s1 = (inr (ty n), s1)) ->
  outcome (run h (import_src_mesh file_path) s)
    = Returned (first_transform ty nodes) /\
  calls (run h (import_src_mesh file_path) s)
    = cmds_file_import file_path :: map cmds_nodeType (visited ty nodes) /\
  final (run h (import_src_mesh file_path) s) = s1.
Proof.
  intros Hfile Hty. unfold import_src_mesh.
  rewrite (run_step h _ _ _ _ _ Hfile).
  cbn [py_iter lift bind].
  destruct (import_loop_run h ty nodes s1 Hty) as (Ho & Hc & Hf).
  unfold calls in *. cbn [trace outcome final map].
  rewrite Ho, Hc, Hf. repeat split.
Qed.

Lemma host_calls_app (l l' : list Step) :
  host_calls (l ++ l') = (host_calls l ++ host_calls l')%list.
Proof. unfold host_calls. apply flat_map_app. Qed.

Lemma host_calls_of_trace {S} (t : list (Event S)) :
  host_calls (map (fun e => HostStep (ev_call e) (ev_reply e)) t)
    = map ev_call t.
Proof.
  induction t as [|e t IH]; [reflexivity|]. cbn. now rewrite <- IH.
Qed.

Lemma last_cons {A} (x : A) (l : list A) (d : A) :
  List.last (x :: l) d = List.last l x.
Proof.
  revert x d. induction l as [|p l IH]; intros x d; [reflexivity|].
  change (List.last (x :: p :: l) d) with (List.last (p :: l) d).
  now rewrite (IH p d), (IH p x).
Qed.

(** The camera loop, on a host whose [modelEditor] query answers [cam] for
    each panel and leaves the scene: the camera of the last panel wins. *)
Lemma camera_loop_run {S} (h : UiHost S) (cam : PyVal -> PyVal)
    (panels : list PyVal) (start : PyVal) (s : S) :
  (forall vp, In vp panels ->
              on_call h (Tool.cmds_modelEditor vp) s = (inr (cam vp), s)) ->
  result (urun h (Tool.camera_loop panels start) s)
    = Returned (List.last (map cam panels) start) /\
  host_calls (steps (urun h (Tool.camera_loop panels start) s))
    = map Tool.cmds_modelEditor panels /\
  after (urun h (Tool.camera_loop panels start) s) = s.
Proof.
  revert start. induction panels as [|vp rest IH]; intros start Hcam.
  - now repeat split.
  - cbn [Tool.camera_loop ubind ucall].
    rewrite (urun_host h _ _ s s (cam vp)) by (apply Hcam; now left).
    cbn [ubind steps result after].
    destruct (IH (cam vp)) as (Hr & Hs & Ha);
      [intros x Hx; apply Hcam; now right|].
    rewrite Hr, Ha. cbn [host_calls flat_map app map]. fold (host_calls
      (steps (urun h (Tool.camera_loop rest (cam vp)) s))).
    rewrite Hs. repeat split.
    cbn [map]. now rewrite last_cons.
Qed.

(** X19: [import_mesh] on a file [<dir>/<name>.obj] picked in the dialog (a
    path of calm characters -- printable ASCII, without quote or backslash
    -- and without square brackets, the name without slash or dot and not
    occurring in [<dir>]), in a scene without an object [<name>], when the
    file brings a transform of that name: nothing is deleted or renamed, the
    export directory of the widget becomes [<dir>/], the mesh is selected
    and the view is fitted with the camera of the last model panel ("persp"
    when there is none). *)
Theorem import_mesh_run {S} (h : UiHost S) (self : Tool.Window)
    (dir name node : string) (selected_filter : Item)
    (ty cam : PyVal -> PyVal) (nodes panels : list PyVal)
    (ex v1 v2 : PyVal) (s s0 s1 s2 s3 s4 s5 : S) :
  all_chars calm_char (dir ++ "/" ++ name ++ ".obj") = true ->
  has_char "[" (dir ++ "/" ++ name ++ ".obj") = false ->
  has_char "]" (dir ++ "/" ++ name ++ ".obj") = false ->
  name <> EmptyString ->
  has_char "/" name = false ->
  has_char "." name = false ->
  py_in name dir = false ->
  on_dialog h (GetOpenFileName (Some (directory_path (Tool.gui self)))
                               "Get Blendshape Mesh" Tool.obj_filter) s
    = ([IStr (dir ++ "/" ++ name ++ ".obj"); selected_filter], s0) ->
  on_call h (cmds_objExists name) s0 = (inr ex, s1) ->
  py_truthy ex = false ->
  on_call h (cmds_file_import (dir ++ "/" ++ name ++ ".obj")) s1
    = (inr (VList nodes), s2) ->
  (forall n, In n nodes -> on_call h (cmds_nodeType n) s2 = (inr (ty n), s2)) ->
  first_transform ty nodes = VStr node ->
  PyStr.last (py_split "|" node) = name ->
  on_call h Tool.cmds_getPanel s2 = (inr (VList panels), s3) ->
  (forall vp, In vp panels ->
              on_call h (Tool.cmds_modelEditor vp) s3 = (inr (cam vp), s3)) ->
  on_call h (cmds_select_replace name) s3 = (inr v1, s4) ->
  on_call h (Tool.cmds_viewFit (List.last (map cam panels) (VStr "persp"))) s4
    = (inr v2, s5) ->
  result (urun h (Tool.import_mesh self) s)
    = Returned (Tool.mkWindow
                  (Tool.set_export_dir (Tool.gui self) (dir ++ "/"))
                  (Some [IStr (dir ++ "/" ++ name ++ ".obj");
                         selected_filter])) /\
  host_calls (steps (urun h (Tool.import_mesh self) s))
    = ([cmds_objExists name;
        cmds_file_import (dir ++ "/" ++ name ++ ".obj")]
       ++ map cmds_nodeType (visited ty nodes)
       ++ [Tool.cmds_getPanel]
       ++ map Tool.cmds_modelEditor panels
       ++ [cmds_select_replace name;
           Tool.cmds_viewFit (List.last (map cam panels) (VStr "persp"))])%list
  /\
  after (urun h (Tool.import_mesh self) s) = s5.
Proof.
  intros Hcalm Hb1 Hb2 Hne Hslash Hdot Hin Hd Hex Hfalse Hfile Hty Hfirst
         Hlast Hpan Hcam Hsel Hfit.
  destruct (path_parts dir name Hne Hslash Hdot Hin) as [Hname Hdir].
  destruct (import_src_mesh_run (on_call h) ty _ nodes s1 s2 Hfile Hty)
    as (Ho & Hc & Hf).
  destruct (camera_loop_run h cam panels (VStr "persp") s3 Hcam)
    as (Hr & Hs & Ha).
  unfold Tool.import_mesh.
  rewrite urun_ubind,
    (browse_command_run h self s s0 _ selected_filter Hcalm Hd).
  cbn [result steps after fst snd].
  rewrite (remove_char_absent "[" _ Hb1), (remove_char_absent "]" _ Hb2).
  rewrite file_path_of_quoted
    by (now apply (has_char_all_chars calm_char)).
  rewrite Hname, Hdir.
  cbn [ubind ucall ulift lift of_prog].
  rewrite (urun_host h _ _ _ _ _ Hex). rewrite Hfalse.
  cbn [ubind steps result after].
  rewrite urun_ubind, urun_of_prog, Ho, Hf, Hfirst.
  cbn [result steps after as_str ubind ulift lift of_prog].
  rewrite Hlast, String.eqb_refl. cbn [ubind ucall].
  rewrite (urun_host h _ _ _ _ _ Hpan).
  cbn [py_iter ubind ulift lift of_prog steps result after].
  rewrite urun_ubind, Hr, Ha.
  cbn [result steps after ubind ucall].
  rewrite (urun_host h _ _ _ _ _ Hsel).
  cbn [ubind steps result after].
  rewrite (urun_host h _ _ _ _ _ Hfit).
  cbn [urun steps result after].
  split; [reflexivity|]. split; [|reflexivity].
  cbn [app host_calls flat_map].
  fold (host_calls
          (map (fun e => HostStep (ev_call e) (ev_reply e))
               (trace (run (on_call h)
                           (import_src_mesh (dir ++ "/" ++ name ++ ".obj"))
                           s1))
           ++ HostStep Tool.cmds_getPanel (inr (VList panels))
              :: steps (urun h (Tool.camera_loop panels (VStr "persp")) s3)
              ++ [HostStep (cmds_select_replace name) (inr v1);
                  HostStep (Tool.cmds_viewFit
                              (List.last (map cam panels) (VStr "persp")))
                           (inr v2)])%list).
  rewrite host_calls_app, host_calls_of_trace.
  unfold calls in Hc. rewrite Hc.
  cbn [app host_calls flat_map]. 
  fold (host_calls
          (steps (urun h (Tool.camera_loop panels (VStr "persp")) s3)
           ++ [HostStep (cmds_select_replace name) (inr v1);
               HostStep (Tool.cmds_viewFit
                           (List.last (map cam panels) (VStr "persp")))
                        (inr v2)])%list).
  rewrite host_calls_app, Hs. reflexivity.
Qed.

Lemma import_mesh_run_witness :
  result (urun (UiStub.ui [IStr ("/tmp/shapes" ++ "/" ++ "blend_l_" ++ ".obj");
                           IStr EmptyString])
               (Tool.import_mesh UiStub.window) Stub.head_scene)
    = Returned (Tool.mkWindow
                  (Tool.set_export_dir Stub.fresh_gui ("/tmp/shapes" ++ "/"))
                  (Some [IStr ("/tmp/shapes" ++ "/" ++ "blend_l_" ++ ".obj");
                         IStr EmptyString])).
Proof.
  edestruct (import_mesh_run
               (UiStub.ui [IStr ("/tmp/shapes" ++ "/" ++ "blend_l_" ++ ".obj");
                           IStr EmptyString])
               UiStub.window "/tmp/shapes" "blend_l_" "blend_l_"
               (IStr EmptyString)
               (fun n => match n with
                         | VStr "blend_l_" => VStr "transform"
                         | _ => VStr "mesh"
                         end)
               (fun vp => match vp with
                          | VStr "modelPanel4" => VStr "persp"
                          | _ => VStr "top"
                          end)
               [VStr "blend_l_Shape"; VStr "blend_l_"]
               [VStr "modelPanel1"; VStr "modelPanel4"]
               (VBool false) VNone VNone Stub.head_scene)
    as (Hr & _ & _).
  - reflexivity.
  - reflexivity.
  - reflexivity.
  - discriminate.
  - reflexivity.
  - reflexivity.
  - reflexivity.
  - reflexivity.
  - reflexivity.
  - reflexivity.
  - reflexivity.
  - intros n [<-|[<-|[]]]; reflexivity.
  - reflexivity.
  - reflexivity.
  - reflexivity.
  - intros vp [<-|[<-|[]]]; reflexivity.
  - reflexivity.
  - reflexivity.
  - exact Hr.
Defined.

(* ================================================================== *)
(** ** [export_mesh] *)

(** X20: [export_mesh] exports whatever the save dialog hands back: with a
    mesh selected and a host that accepts the calls it selects the mesh,
    prints and exports to the chosen path with brackets and ".obj" removed,
    and deselects -- also when the dialog was cancelled and the path is
    empty.  The dialog is opened at [directory_path] followed, without a
    separator, by the mesh name. *)
Theorem export_mesh_run {S} (h : UiHost S) (self : Tool.Window)
    (sel v1 v2 v3 v4 : PyVal) (mesh chosen : string) (more : list Item)
    (s s1 s2 s3 s4 s5 s6 : S) :
  on_call h Tool.cmds_ls_selected s = (inr sel, s1) ->
  py_getitem sel 0 = inr (VStr mesh) ->
  on_dialog h (GetSaveFileName
                 (Some (directory_path (Tool.gui self) ++ mesh))
                 "Save Blendshape Mesh" Tool.obj_filter) s1
    = (IStr chosen :: more, s2) ->
  on_call h (cmds_select_replace mesh) s2 = (inr v1, s3) ->
  on_call h (Print (Tool.export_path_of chosen)) s3 = (inr v2, s4) ->
  on_call h (cmds_file_export (Tool.export_path_of chosen)) s4
    = (inr v3, s5) ->
  on_call h cmds_select_deselect s5 = (inr v4, s6) ->
  result (urun h (Tool.export_mesh self) s) = Returned tt /\
  host_calls (steps (urun h (Tool.export_mesh self) s))
    = [Tool.cmds_ls_selected;
       cmds_select_replace mesh;
       Print (Tool.export_path_of chosen);
       cmds_file_export (Tool.export_path_of chosen);
       cmds_select_deselect] /\
  after (urun h (Tool.export_mesh self) s) = s6 /\
  Tool.export_path_of EmptyString = EmptyString.
Proof.
  intros Hls Hsel Hd H1 H2 H3 H4.
  unfold Tool.export_mesh. cbn [ubind ucall].
  rewrite (urun_host h _ _ _ _ _ Hls). rewrite Hsel.
  cbn [res_bind Tool.as_name ulift lift of_prog ubind udialog].
  rewrite (urun_dialog h _ _ _ _ _ Hd).
  cbn [index nth_error ulift lift of_prog ubind].
  rewrite urun_of_prog.
  unfold export_dest_mesh.
  rewrite (run_step (on_call h) _ _ _ _ _ H1).
  rewrite (run_step (on_call h) _ _ _ _ _ H2).
  rewrite (run_step (on_call h) _ _ _ _ _ H3).
  rewrite (run_step (on_call h) _ _ _ _ _ H4).
  repeat split.
Qed.

Lemma export_mesh_run_witness :
  host_calls
    (steps (urun (UiStub.ui [IStr EmptyString; IStr EmptyString])
                 (Tool.export_mesh UiStub.window)
                 (Stub.set_selection Stub.cheek_scene ["cheek_l_"])))
    = [Tool.cmds_ls_selected;
       cmds_select_replace "cheek_l_";
       Print (Tool.export_path_of EmptyString);
       cmds_file_export (Tool.export_path_of EmptyString);
       cmds_select_deselect].
Proof.
  edestruct (export_mesh_run
               (UiStub.ui [IStr EmptyString; IStr EmptyString])
               UiStub.window (VList [VStr "cheek_l_"]) VNone VNone
               (VStr EmptyString) VNone "cheek_l_" EmptyString
               [IStr EmptyString]
               (Stub.set_selection Stub.cheek_scene ["cheek_l_"]))
    as (_ & Hc & _).
  - reflexivity.
  - reflexivity.
  - reflexivity.
  - reflexivity.
  - reflexivity.
  - reflexivity.
  - reflexivity.
  - exact Hc.
Defined.

(** ".obj" at the front of [a ++ b] only, as long as it is not inside
    [a]. *)
Lemma starts_obj_app (a : ascii) (b : string) :
  starts_with ".obj" (String a b) = false ->
  starts_with ".obj" (String a (b ++ ".obj")) = false.
Proof.
  cbn [starts_with append].
  destruct (Ascii.eqb "." a); cbn [andb]; [|reflexivity].
  destruct b as [|c1 b]; cbn [starts_with append]; [reflexivity|].
  destruct (Ascii.eqb "o" c1); cbn [andb]; [|reflexivity].
  destruct b as [|c2 b]; cbn [starts_with append]; [reflexivity|].
  destruct (Ascii.eqb "b" c2); cbn [andb]; [|reflexivity].
  destruct b as [|c3 b]; cbn [starts_with append]; [reflexivity|].
  destruct (Ascii.eqb "j" c3); cbn [andb]; [discriminate | reflexivity].
Qed.

Lemma py_replace_obj_suffix (base : string) :
  py_in ".obj" base = false ->
  py_replace ".obj" EmptyString (base ++ ".obj") = base.
Proof.
  induction base as [|a base IH]; intros Hin; [reflexivity|].
  cbn [py_in] in Hin. apply orb_false_iff in Hin as [Hp Hin].
  cbn [append]. rewrite py_replace_keep by now apply starts_obj_app.
  now rewrite IH.
Qed.

(** X21: for a chosen file [<base>.obj] with no square bracket and no
    further ".obj" in [<base>], the path [export_mesh] passes on is
    [<base>]: the extension is cut off. *)
Theorem export_path_of_obj (base : string) :
  has_char "[" base = false ->
  has_char "]" base = false ->
  py_in ".obj" base = false ->
  Tool.export_path_of (base ++ ".obj") = base.
Proof.
  intros H1 H2 Hin. unfold Tool.export_path_of.
  rewrite !py_replace_remove.
  rewrite (remove_char_absent "[")
    by (rewrite has_char_app, H1; reflexivity).
  rewrite (remove_char_absent "]")
    by (rewrite has_char_app, H2; reflexivity).
  now apply py_replace_obj_suffix.
Qed.

Lemma export_path_of_obj_witness :
  Tool.export_path_of ("/tmp/v1.2/cheek_r_" ++ ".obj") = "/tmp/v1.2/cheek_r_".
Proof. apply export_path_of_obj; reflexivity. Defined.

(* ================================================================== *)
(** ** The browse widget *)

(** X22: in the "file" mode of the browse widget, for a chosen path of calm
    characters -- printable ASCII, without quote or backslash -- the
    textfield gets the path between single quotes and
    without its square brackets -- not the path itself. *)
Theorem browse_widget_file {S} (h : UiHost S) (self : BrowseWidget.Widget)
    (s s' : S) (p : string) (selected_filter : Item) :
  BrowseWidget.search_type self = Some "file" ->
  all_chars calm_char p = true ->
  on_dialog h (GetOpenFileName None "get file" (BrowseWidget.file_types self)) s
    = ([IStr p; selected_filter], s') ->
  urun h (BrowseWidget.browse_command self) s
    = mkUiRun
        [DialogStep
           (GetOpenFileName None "get file" (BrowseWidget.file_types self))
           [IStr p; selected_filter]]
        (Returned
           (BrowseWidget.set_text self
              (BrowseWidget.SelTuple [IStr p; selected_filter])
              ("'" ++ remove_char "]" (remove_char "[" p) ++ "'")))
        s'.
Proof.
  intros Hmode Hp Hd. unfold BrowseWidget.browse_command. rewrite Hmode.
  cbn [String.eqb Ascii.eqb Bool.eqb ubind udialog].
  rewrite (urun_dialog h _ _ _ _ _ Hd).
  cbn [BrowseWidget.to_textfield pop_last removelast ulift lift of_prog ubind
       map py_repr_item urun result steps after].
  now rewrite (browsed_calm p Hp).
Qed.

Lemma browse_widget_file_witness :
  result (urun (UiStub.ui [IStr "/tmp/out/cheek.obj"; IStr EmptyString])
               (BrowseWidget.browse_command
                  (BrowseWidget.init "File:" (Some "file") VNone))
               Stub.cheek_scene)
    = Returned
        (BrowseWidget.mkWidget "File:" VNone (Some "file")
           "'/tmp/out/cheek.obj'"
           (BrowseWidget.SelTuple [IStr "/tmp/out/cheek.obj";
                                   IStr EmptyString])).
Proof.
  rewrite (browse_widget_file
             (UiStub.ui [IStr "/tmp/out/cheek.obj"; IStr EmptyString])
             (BrowseWidget.init "File:" (Some "file") VNone)
             Stub.cheek_scene Stub.cheek_scene "/tmp/out/cheek.obj"
             (IStr EmptyString) eq_refl eq_refl eq_refl).
  reflexivity.
Defined.

(** X23: with a search type that is none of "saveFile", "file", "files" and
    "directory" -- or with none at all -- the browse widget opens no dialog:
    it logs one error and stays as it is. *)
Theorem browse_widget_invalid {S} (h : UiHost S) (self : BrowseWidget.Widget)
    (s s' : S) (v : PyVal) :
  BrowseWidget.search_type self <> Some "saveFile" ->
  BrowseWidget.search_type self <> Some "file" ->
  BrowseWidget.search_type self <> Some "files" ->
  BrowseWidget.search_type self <> Some "directory" ->
  on_call h (LogError (BrowseWidget.msg_search_type
                         (BrowseWidget.search_type self))) s
    = (inr v, s') ->
  urun h (BrowseWidget.browse_command self) s
    = mkUiRun
        [HostStep (LogError (BrowseWidget.msg_search_type
                               (BrowseWidget.search_type self))) (inr v)]
        (Returned self) s'.
Proof.
  intros H1 H2 H3 H4 Hlog. unfold BrowseWidget.browse_command.
  destruct (BrowseWidget.search_type self) as [t|] eqn:Et.
  - assert (String.eqb t "saveFile" = false) as ->
      by (apply String.eqb_neq; congruence).
    assert (String.eqb t "file" = false) as ->
      by (apply String.eqb_neq; congruence).
    assert (String.eqb t "files" = false) as ->
      by (apply String.eqb_neq; congruence).
    assert (String.eqb t "directory" = false) as ->
      by (apply String.eqb_neq; congruence).
    cbn [ubind ucall]. rewrite (urun_host h _ _ _ _ _ Hlog). reflexivity.
  - cbn [ubind ucall]. rewrite (urun_host h _ _ _ _ _ Hlog). reflexivity.
Qed.

Lemma browse_widget_invalid_witness :
  urun (UiStub.ui []) (BrowseWidget.browse_command
                         (BrowseWidget.init "Dir:" (Some "folder") VNone))
       Stub.cheek_scene
    = mkUiRun
        [HostStep
           (LogError (BrowseWidget.msg_search_type (Some "folder")))
           (inr VNone)]
        (Returned (BrowseWidget.init "Dir:" (Some "folder") VNone))
        Stub.cheek_scene.
Proof.
  apply (browse_widget_invalid (UiStub.ui [])
           (BrowseWidget.init "Dir:" (Some "folder") VNone));
    try discriminate; reflexivity.
Defined.

(* ================================================================== *)
(** ** [build] from end to end *)

Section BindParts.

Context {S A B : Type} (h : Host S).
Variable p : Prog A.
Variable f : A -> Prog B.
Variable s : S.
Variable a : A.
Hypothesis returned : outcome (run h p s) = Returned a.




End BindParts.




(* ================================================================== *)
(** ** [build] and the duplicate *)

Lemma filter_none {A} (f : A -> bool) (l : list A) :
  Forall (fun x => f x = false) l -> filter f l = [].
Proof.
  induction 1 as [|x l Hx _ IH]; cbn; [reflexivity|]. now rewrite Hx.
Qed.

Lemma query_positions_no_setAttr (central_vert : string) (vert_num : Z)
    (vert_ids : list Z) :
  every_call (fun c => is_setAttr c = false)
             (query_positions central_vert vert_num vert_ids).
Proof.
  induction vert_ids as [|each rest IH]; cbn [query_positions]; stroll.
  exact IH.
Qed.

Lemma build_locals_no_setAttr (self : Gui) :
  every_call (fun c => is_setAttr c = false) (build_locals self).
Proof.
  unfold build_locals.
  destruct (String.eqb (vert_textfield self) EmptyString); stroll.
  - destruct (py_truthy _); stroll.
  - destruct (py_eq_False _); stroll.
Qed.

Lemma build_export_no_setAttr (self : Gui) (new_mesh : string) :
  every_call (fun c => is_setAttr c = false) (build_export self new_mesh).
Proof.
  unfold build_export, browse_directory, export_dest_mesh.
  destruct (export_cbox self); stroll.
  destruct (py_truthy _); stroll.
Qed.

Section BuildUnderTransformContract.

Context {S : Type} (h : Host S).
Context (present : S -> string -> bool).
Context (points_of : S -> string -> list (Q * Q * Q)).
Context (scale_of : S -> string -> Axis -> Z).
Hypothesis contract : TransformContract h present points_of scale_of.

(** X25: when [build] has found its mesh and no node of the mirrored name is
    in the scene yet, then, whichever axis button is checked, the run goes
    on with the duplicate under the mirrored name, the setAttr of its x
    scale to -1 and the freeze; this is the only setAttr of the whole run;
    and on a host that keeps the contract the duplicate has, after the
    freeze, the points of the mesh with x negated, every other node being
    what it was before the duplicate. *)
Theorem build_flips_duplicate_across_x (self : Gui) (a : Axis)
    (s s0 s1 s2 s3 : S) (t0 : list (Event S)) (central_vert mesh : string)
    (v1 v2 v3 : PyVal) :
  run h (build_locals self) s
    = mkRun t0 (Returned (Some central_vert, Some mesh)) s0 ->
  present s0 (new_name mesh) = false ->
  h (cmds_duplicate mesh (new_name mesh)) s0 = (inr v1, s1) ->
  h (cmds_setAttr (new_name mesh ++ ".sx") (-1)) s1 = (inr v2, s2) ->
  h (cmds_makeIdentity_scale (new_name mesh)) s2 = (inr v3, s3) ->
  (exists rest,
     trace (run h (build (set_mirror_axis self a)) s)
       = (t0 ++ [mkEvent s0 (cmds_duplicate mesh (new_name mesh)) (inr v1);
                 mkEvent s1 (cmds_setAttr (new_name mesh ++ ".sx") (-1))
                            (inr v2);
                 mkEvent s2 (cmds_makeIdentity_scale (new_name mesh)) (inr v3)]
             ++ rest)%list) /\
  filter is_setAttr (calls (run h (build (set_mirror_axis self a)) s))
    = [cmds_setAttr (new_name mesh ++ ".sx") (-1)] /\
  points_of s3 (new_name mesh)
    = map (scaled (flipped AxisX (scale_of s0 mesh))) (points_of s0 mesh) /\
  (forall b, scale_of s3 (new_name mesh) b = 1) /\
  forall x, x <> new_name mesh ->
    same_node present points_of scale_of x s0 s3.
Proof.
  intros Hloc Hn H1 H2 H3.
  pose proof (mirrored_states h present points_of scale_of contract
                mesh (new_name mesh) AxisX s0 s1 s2 s3 v1 v2 v3
                Hn H1 H2 H3) as (_ & _ & (Hpts & Hsc) & Hrest).
  assert (Forall (fun c => is_setAttr c = false) (map ev_call t0)) as Ht0.
  { pose proof (every_call_run h _ (build_locals self) s
                  (build_locals_no_setAttr self)) as H.
    unfold calls in H. now rewrite Hloc in H. }
  unfold calls, build.
  change (build_locals (set_mirror_axis self a)) with (build_locals self).
  rewrite run_bind, Hloc.
  cbn [outcome final trace snd fst read_local bind].
  rewrite run_bind.
  rewrite (create_mirrored_mesh_run h mesh "x" s0 s1 s2 s3 v1 v2 v3 H1 H2 H3).
  cbn [outcome final trace read_local bind].
  set (rest := run h _ s3).
  assert (Forall (fun c => is_setAttr c = false) (calls rest)) as Hr.
  { apply every_call_run. unfold src_verts, transfer_vert_order. stroll.
    - apply query_positions_no_setAttr.
    - apply build_export_no_setAttr. }
  split; [now exists (trace rest)|].
  split; [|split; [exact Hpts|split; [exact Hsc | exact Hrest]]].
  rewrite map_app, filter_app, (filter_none _ _ Ht0).
  cbn [map app filter is_setAttr ev_call cmds_duplicate cmds_setAttr
       cmds_makeIdentity_scale String.eqb Ascii.eqb Bool.eqb andb].
  fold (calls rest). now rewrite (filter_none _ _ Hr).
Qed.

End BuildUnderTransformContract.

Lemma build_flips_duplicate_across_x_witness :
  let s := Outliner.cheek_scene in
  let r := run Outliner.host (build (Outliner.preview_gui "cheek_l_" AxisZ)) s in
  filter is_setAttr (calls r) = [cmds_setAttr "cheek_r_.sx" (-1)] /\
  Outliner.points_of (final r) "cheek_r_"
    = [Outliner.pt (-2) 0 0; Outliner.pt 0 3 0; Outliner.pt 2 0 5] /\
  Outliner.points_of (final r) "cheek_l_"
    = [Outliner.pt 2 0 0; Outliner.pt 0 1 0; Outliner.pt (-2) 0 5].
Proof.
  cbv zeta.
  edestruct (build_flips_duplicate_across_x Outliner.host Outliner.present
               Outliner.points_of Outliner.scale_of outliner_contract
               (Outliner.preview_gui "cheek_l_" AxisX) AxisZ
               Outliner.cheek_scene)
    as (_ & Hset & _).
  - reflexivity.
  - reflexivity.
  - reflexivity.
  - reflexivity.
  - reflexivity.
  - split; [exact Hset|]. split; reflexivity.
Defined.

(* ================================================================== *)
(** ** [build] and the axis buttons *)

Lemma alike_bind {A B C D} (R : A -> B -> Prop) (T : C -> D -> Prop)
    (p : Prog A) (q : Prog B) (f : A -> Prog C) (g : B -> Prog D) :
  alike R p q -> (forall a b, R a b -> alike T (f a) (g b)) ->
  alike T (bind p f) (bind q g).
Proof.
  intros Hpq Hfg. revert q Hpq.
  induction p as [a|e|c k IH]; intros q Hpq;
    destruct q as [b|e'|c' k']; cbn in Hpq; try contradiction; cbn.
  - now apply Hfg.
  - exact Hpq.
  - destruct Hpq as [-> Hk]. split; [reflexivity|].
    intros v. apply IH, Hk.
Qed.

Lemma alike_refl {A} (p : Prog A) : alike eq p p.
Proof.
  induction p as [a|e|c k IH]; cbn; [reflexivity | reflexivity |].
  split; [reflexivity | exact IH].
Qed.

Lemma alike_run {S A B} (h : Host S) (R : A -> B -> Prop) (p : Prog A)
    (q : Prog B) (s : S) :
  alike R p q ->
  trace (run h p s) = trace (run h q s) /\
  final (run h p s) = final (run h q s) /\
  outcomes_alike R (outcome (run h p s)) (outcome (run h q s)).
Proof.
  revert q s. induction p as [a|e|c k IH]; intros q s Hpq;
    destruct q as [b|e'|c' k']; cbn in Hpq; try contradiction.
  - now repeat split.
  - now repeat split.
  - destruct Hpq as [-> Hk]. cbn.
    destruct (h c' s) as [[e|v] s']; cbn; [now repeat split|].
    destruct (IH v (k' v) s' (Hk v)) as (-> & -> & Ho). now repeat split.
Qed.

Lemma build_alike (self : Gui) (a : Axis) :
  alike (fun g' g => g' = set_mirror_axis g a)
        (build (set_mirror_axis self a)) (build self).
Proof.
  unfold build.
  change (build_locals (set_mirror_axis self a)) with (build_locals self).
  apply (alike_bind eq); [apply alike_refl|]. intros locals ? <-.
  apply (alike_bind eq); [apply alike_refl|]. intros mesh ? <-.
  apply (alike_bind eq); [apply alike_refl|]. intros new_mesh ? <-.
  apply (alike_bind eq); [apply alike_refl|]. intros central_vert ? <-.
  apply (alike_bind eq); [apply alike_refl|]. intros needed_verts ? <-.
  apply (alike_bind eq); [apply alike_refl|]. intros _ _ _.
  unfold build_export, browse_directory. cbn.
  destruct (export_cbox self); [|reflexivity].
  split; [reflexivity|]. intros isdir.
  destruct (py_truthy isdir).
  - cbn. repeat (split; [reflexivity|]; intros ?). reflexivity.
  - cbn. split; [reflexivity|]. intros dir.
    destruct dir; cbn; try reflexivity.
    repeat (split; [reflexivity|]; intros ?). reflexivity.
Qed.

(** X26: the checked Mirror Axis button reaches nothing: whichever of the x,
    y and z buttons is checked, on every host and in every state, [build]
    issues the same calls, gets the same replies and leaves the host in the
    same state; it raises the same exception or returns the same widget but
    for that button. *)
Theorem build_ignores_axis_button {S} (h : Host S) (self : Gui) (s : S)
    (a : Axis) :
  trace (run h (build (set_mirror_axis self a)) s)
    = trace (run h (build self) s) /\
  final (run h (build (set_mirror_axis self a)) s)
    = final (run h (build self) s) /\
  outcomes_alike (fun g' g => g' = set_mirror_axis g a)
    (outcome (run h (build (set_mirror_axis self a)) s))
    (outcome (run h (build self) s)).
Proof. apply alike_run, build_alike. Qed.

Example build_z_checked :
  outcome (run Stub.host (build (set_mirror_axis Stub.fresh_gui AxisZ))
               Stub.cheek_scene)
    = Returned (mkGui EmptyString AxisZ true "/tmp/shapes" "/tmp/shapes"
                      EmptyString) /\
  outcome (run Stub.host (build Stub.fresh_gui) Stub.cheek_scene)
    = Returned (mkGui EmptyString AxisY true "/tmp/shapes" "/tmp/shapes"
                      EmptyString).
Proof. split; reflexivity. Qed.
